(** * selfie.fm: the content-to-voice pipeline

    A shallow embedding of the pipeline of [backend/scraper_enhanced.py],
    [backend/script_writer.py], [backend/voice_clone.py] and the three
    pipeline handlers of [backend/app.py], with the properties of the
    specification stated and settled against it.

    Python [str] values are lists of Unicode code points.  The network, the
    HTML parser, the clock and the file system are explicit inputs and
    explicit state. *)

From Stdlib Require Import ZArith NArith Lia Bool.
From Stdlib Require Import Strings.String Strings.Ascii.
From Stdlib Require Import Numbers.DecimalString Numbers.DecimalZ Strings.Byte.
From stdpp Require Import gmap list.

Local Open Scope N_scope.

(** ** Python strings *)

Module PyStr.

(** A character is a code point; a [str] is a sequence of them. *)
Abbreviation char := N (only parsing).
Abbreviation str := (list N) (only parsing).

(** String literals of the source text. *)
Definition py (s : string) : str :=
  List.map N_of_ascii (list_ascii_of_string s).

Definition in_range (lo hi : N) (c : char) : bool :=
  (lo <=? c) && (c <=? hi).

(** [str.isspace] on one character; the same class drives [str.split()],
    [str.strip()] and the regular-expression escape [\s]. *)
Definition isspace (c : char) : bool :=
  in_range 0x09 0x0d c || in_range 0x1c 0x20 c
  || (c =? 0x85) || (c =? 0xa0) || (c =? 0x1680)
  || in_range 0x2000 0x200a c || (c =? 0x2028) || (c =? 0x2029)
  || (c =? 0x202f) || (c =? 0x205f) || (c =? 0x3000).

(** Start and length of each block of decimal digits (Unicode category
    Nd, Unicode 14): the class of the regular-expression escape [\d]. *)
Definition decimal_blocks : list (N * N) :=
  List.map (fun lo => (lo, 10))
    [ 0x30; 0x660; 0x6f0; 0x7c0; 0x966; 0x9e6; 0xa66; 0xae6; 0xb66; 0xbe6;
      0xc66; 0xce6; 0xd66; 0xde6; 0xe50; 0xed0; 0xf20; 0x1040; 0x1090;
      0x17e0; 0x1810; 0x1946; 0x19d0; 0x1a80; 0x1a90; 0x1b50; 0x1bb0;
      0x1c40; 0x1c50; 0xa620; 0xa8d0; 0xa900; 0xa9d0; 0xa9f0; 0xaa50;
      0xabf0; 0xff10; 0x104a0; 0x10d30; 0x11066; 0x110f0; 0x11136;
      0x111d0; 0x112f0; 0x11450; 0x114d0; 0x11650; 0x116c0; 0x11730;
      0x118e0; 0x11950; 0x11c50; 0x11d50; 0x11da0; 0x16a60; 0x16ac0;
      0x16b50; 0x1e140; 0x1e2f0; 0x1e950; 0x1fbf0 ]
  ++ [ (0x1d7ce, 50) ].

Definition isdecimal (c : char) : bool :=
  existsb (fun b => (fst b <=? c) && (c <? fst b + snd b)) decimal_blocks.

(** [s.startswith(p)] *)
Fixpoint startswith (p s : str) : bool :=
  match p, s with
  | [], _ => true
  | _ :: _, [] => false
  | a :: p', b :: s' => (a =? b) && startswith p' s'
  end.

(** [s.endswith(suffix)] *)
Definition endswith (suffix s : str) : bool := startswith (rev suffix) (rev s).

(** [needle in hay] *)
Fixpoint contains (needle hay : str) : bool :=
  startswith needle hay ||
  match hay with
  | [] => false
  | _ :: hay' => contains needle hay'
  end.

Fixpoint dropwhile (p : char -> bool) (s : str) : str :=
  match s with
  | [] => []
  | c :: s' => if p c then dropwhile p s' else s
  end.

Fixpoint takewhile (p : char -> bool) (s : str) : str :=
  match s with
  | [] => []
  | c :: s' => if p c then c :: takewhile p s' else []
  end.

(** [s.strip(chars)], the character set given as a predicate. *)
Definition strip_set (p : char -> bool) (s : str) : str :=
  rev (dropwhile p (rev (dropwhile p s))).

(** [s.strip()] *)
Definition strip (s : str) : str := strip_set isspace s.

(** [sep.join(parts)] *)
Fixpoint join (sep : str) (parts : list str) : str :=
  match parts with
  | [] => []
  | [p] => p
  | p :: rest => p ++ sep ++ join sep rest
  end.

(** [s.split()]: the maximal runs of non-whitespace characters.  [cur]
    holds the run being read, last character first. *)
Fixpoint split_ws_from (cur : str) (s : str) : list str :=
  match s with
  | [] => match cur with [] => [] | _ => [rev cur] end
  | c :: s' =>
      if isspace c then
        match cur with
        | [] => split_ws_from [] s'
        | _ => rev cur :: split_ws_from [] s'
        end
      else split_ws_from (c :: cur) s'
  end.

Definition split_ws (s : str) : list str := split_ws_from [] s.

(** A string without whitespace, and a word as [s.split()] produces
    them. *)
Definition nospace (w : str) : Prop := Forall (fun c => isspace c = false) w.

Definition is_word (w : str) : Prop := w <> [] /\ nospace w.

(** [len(s.split())] *)
Definition count_words (s : str) : nat := length (split_ws s).

(** [s.split(sep)] for a non-empty separator: cut at every occurrence of
    [sep], found left to right without overlap.  [skip] counts the
    characters of an occurrence still to be passed over. *)
Fixpoint split_sep_from (sep : str) (skip : nat) (cur : str) (s : str)
  : list str :=
  match s with
  | [] => [rev cur]
  | c :: s' =>
      match skip with
      | S k => split_sep_from sep k cur s'
      | O =>
          if startswith sep s
          then rev cur :: split_sep_from sep (Nat.pred (length sep)) [] s'
          else split_sep_from sep O (c :: cur) s'
      end
  end.

Definition split_sep (sep s : str) : list str := split_sep_from sep O [] s.

(** [s.splitlines()]: cut at the line boundaries, of which "\r\n" is a
    single one; no empty line is produced at the end. *)
Definition is_linebreak (c : char) : bool :=
  in_range 0x0a 0x0d c || in_range 0x1c 0x1e c
  || (c =? 0x85) || (c =? 0x2028) || (c =? 0x2029).

Fixpoint splitlines_from (cur : str) (s : str) : list str :=
  match s with
  | [] => match cur with [] => [] | _ => [rev cur] end
  | c :: s' =>
      if c =? 0x0d then
        match s' with
        | c' :: s'' =>
            if c' =? 0x0a then rev cur :: splitlines_from [] s''
            else rev cur :: splitlines_from [] s'
        | [] => [rev cur]
        end
      else if is_linebreak c then rev cur :: splitlines_from [] s'
      else splitlines_from (c :: cur) s'
  end.

Definition splitlines (s : str) : list str := splitlines_from [] s.

(** [l[:n]] for a Python integer [n]: a negative bound counts from the
    end. *)
Definition slice_to {A} (n : Z) (l : list A) : list A :=
  if (n <? 0)%Z then firstn (Z.to_nat (Z.of_nat (length l) + n)) l
  else firstn (Z.to_nat n) l.

(** [str(n)] for an integer. *)
Definition str_of_int (n : Z) : str :=
  py (NilZero.string_of_int (Z.to_int n)).

(** The line feed. *)
Definition nl : str := [0x0a].

(** [str.lower] on strings of ASCII characters, for evaluating the
    classifier on concrete pages. *)
Definition lower_ascii (s : str) : str :=
  List.map (fun c => if in_range 0x41 0x5a c then c + 32 else c) s.

(** Truthiness of a string and of an optional string ([None] and [''] are
    false). *)
Definition truthy (s : str) : bool :=
  match s with [] => false | _ => true end.

Definition otruthy (o : option str) : bool :=
  match o with Some s => truthy s | None => false end.

(** [o or ''] *)
Definition or_empty (o : option str) : str :=
  match o with Some s => s | None => [] end.

End PyStr.

Import PyStr.

(** ** backend/script_writer.py *)

Module ScriptWriter.

Inductive provider_name := openai | anthropic.

(** [__init__]: the OpenAI key is preferred over the Anthropic one. *)
Definition select_provider (openai_api_key anthropic_api_key : option str)
  : option provider_name :=
  if otruthy openai_api_key then Some openai
  else if otruthy anthropic_api_key then Some anthropic
  else None.

Record ScriptCandidate := {
  script : str;
  word_count : Z
}.

Inductive outcome (A : Type) :=
| Return (a : A)
| ValueError (msg : str).
Arguments Return {A} a.
Arguments ValueError {A} msg.

(** Characters accepted for each letter of SCRIPT under [re.IGNORECASE]. *)
Definition marker_letters : list (list N) :=
  [ [0x53; 0x73; 0x17f]; [0x43; 0x63]; [0x52; 0x72];
    [0x49; 0x69; 0x130; 0x131]; [0x50; 0x70]; [0x54; 0x74] ].

Fixpoint match_letters (classes : list (list N)) (s : str) : option str :=
  match classes, s with
  | [], _ => Some s
  | _ :: _, [] => None
  | k :: classes', c :: s' =>
      if existsb (N.eqb c) k then match_letters classes' s' else None
  end.

(** The pattern [SCRIPT\s+\d+:] tried at the start of [s]: the length of the
    match.  Whitespace, digits and the colon are disjoint classes, so the
    greedy runs are the only way to match. *)
Definition match_marker (s : str) : option nat :=
  match match_letters marker_letters s with
  | None => None
  | Some r1 =>
      let ws := takewhile isspace r1 in
      let r2 := dropwhile isspace r1 in
      let ds := takewhile isdecimal r2 in
      let r3 := dropwhile isdecimal r2 in
      match ws, ds, r3 with
      | _ :: _, _ :: _, c :: _ =>
          if c =? 0x3a then Some (6 + length ws + length ds + 1)%nat
          else None
      | _, _, _ => None
      end
  end.

(** [re.split(r'SCRIPT\s+\d+:', s, flags=re.IGNORECASE)] *)
Fixpoint re_split_from (skip : nat) (cur : str) (s : str) : list str :=
  match s with
  | [] => [rev cur]
  | c :: s' =>
      match skip with
      | S k => re_split_from k cur s'
      | O =>
          match match_marker s with
          | Some n => rev cur :: re_split_from (Nat.pred n) [] s'
          | None => re_split_from O (c :: cur) s'
          end
      end
  end.

Definition re_split_markers (s : str) : list str := re_split_from O [] s.

Definition is_quote (c : char) : bool := (c =? 0x22) || (c =? 0x27).

Definition meta_prefixes : list str :=
  [py "Here"; py "Note:"; py "Script:"; py "Remember"].

Definition keep_line (line : str) : bool :=
  truthy line && negb (existsb (fun p => startswith p line) meta_prefixes).

Definition _clean_script (script : str) : str :=
  let script := strip_set is_quote script in
  let lines := split_sep nl script in
  let cleaned_lines := List.filter keep_line (List.map strip lines) in
  let script := join (py " ") cleaned_lines in
  let words := split_ws script in
  if (55 <? length words)%nat
  then join (py " ") (firstn 50 words) ++ py "..."
  else script.

(** The value of [script] in [_clean_script] when the limit of words is
    reached: the quotes and the meta-commentary lines gone, the rest on one
    line. *)
Definition joined_lines (script : str) : str :=
  join (py " ")
    (List.filter keep_line
       (List.map strip (split_sep nl (strip_set is_quote script)))).

(** [[p.strip() for p in parts if p.strip()]] *)
Definition stripped_nonblank (parts : list str) : list str :=
  List.map strip (List.filter (fun p => truthy (strip p)) parts).

(** The list [parts] of [_parse_multiple_scripts] when its loops start:
    the segments between the markers or, when these are fewer than
    expected, the paragraphs between blank lines. *)
Definition parse_parts (scripts_text : str) (expected_count : Z) : list str :=
  let parts := stripped_nonblank (re_split_markers scripts_text) in
  if (Z.of_nat (length parts) <? expected_count)%Z
  then stripped_nonblank (split_sep (nl ++ nl) scripts_text)
  else parts.

(** The body of the [for] loop. *)
Definition parsed_candidate (script_text : str) : ScriptCandidate :=
  let script := _clean_script script_text in
  {| script := script; word_count := Z.of_nat (length (split_ws script)) |}.

(** The entry appended by the [while] loop. *)
Definition fallback_candidate (parts : list str) : ScriptCandidate :=
  {| script :=
       py "Check out "
       ++ match parts with
          | p0 :: _ => firstn 50 p0
          | [] => py "this amazing offer"
          end
       ++ py "... Click to learn more!";
     word_count := 10 |}.

(** [while len(scripts) < expected_count: scripts.append(fb)], run for at
    most [fuel] iterations. *)
Fixpoint pad_loop (fuel : nat) (expected_count : Z) (fb : ScriptCandidate)
  (scripts : list ScriptCandidate) : list ScriptCandidate :=
  match fuel with
  | O => scripts
  | S k =>
      if (Z.of_nat (length scripts) <? expected_count)%Z
      then pad_loop k expected_count fb (scripts ++ [fb])
      else scripts
  end.

Definition _parse_multiple_scripts (scripts_text : str) (expected_count : Z)
  : list ScriptCandidate :=
  let parts := parse_parts scripts_text expected_count in
  let scripts := List.map parsed_candidate (slice_to expected_count parts) in
  pad_loop (Z.to_nat expected_count) expected_count
    (fallback_candidate parts) scripts.

Definition _build_multiple_scripts_prompt (link_url link_title
  scraped_content : str) (user_business_context : option str)
  (num_options : Z) : str :=
  let business_context :=
    if otruthy user_business_context then or_empty user_business_context
    else py "No specific business context provided" in
  py "You are a master copywriter in the style of Seth Godin - direct, authentic, no hype.

Generate " ++ str_of_int num_options
  ++ py " different 10-second voice scripts (45-50 words each) for this link.

Link: " ++ link_title ++ py "
Destination: " ++ link_url ++ py "
Page content: " ++ scraped_content ++ py "
Business context: " ++ business_context ++ py "

Each script must:
- Address a specific pain point or desire
- Show urgency, social proof, or scarcity (if relevant)
- End with clear call-to-action
- Sound natural when spoken aloud
- Be conversational and authentic
- Be 45-50 words

Create " ++ str_of_int num_options ++ py " DIFFERENT approaches:
1. First script: Focus on emotional benefit/transformation
2. Second script: Focus on practical value/problem-solving
3. Third script: Focus on urgency/exclusivity

Format your response EXACTLY like this:

SCRIPT 1:
[script text here]

SCRIPT 2:
[script text here]

SCRIPT 3:
[script text here]

Write ONLY the scripts in this format, no explanations.".

(** What one call to a text-generation provider gives: the text of the
    first choice of the reply, a failure of the request, or a reply that
    does not have the expected fields. *)
Inductive provider_reply :=
| ReplyText (content : str)
| RequestFailed (error : str)
| ReplyUnreadable (error : str).

(** [_generate_with_openai_multi] and [_generate_with_anthropic_multi]:
    the reply text stripped, or [ValueError]. *)
Definition _generate_multi (p : provider_name)
  (call : provider_name -> str -> provider_reply) (prompt : str)
  : outcome str :=
  match call p prompt with
  | ReplyText content => Return (strip content)
  | RequestFailed error =>
      ValueError
        (match p with
         | openai => py "Failed to generate scripts with OpenAI: "
         | anthropic => py "Failed to generate scripts with Anthropic: "
         end ++ error)
  | ReplyUnreadable error =>
      ValueError (py "Failed to generate scripts: " ++ error)
  end.

Definition generate_pitch_scripts (provider : option provider_name)
  (call : provider_name -> str -> provider_reply)
  (link_url link_title scraped_content : str)
  (user_business_context : option str) (num_options : Z)
  : outcome (list ScriptCandidate) :=
  match provider with
  | None =>
      ValueError (py "No AI API key configured. Please set OPENAI_API_KEY or ANTHROPIC_API_KEY.")
  | Some p =>
      let prompt :=
        _build_multiple_scripts_prompt link_url link_title scraped_content
          user_business_context num_options in
      match _generate_multi p call prompt with
      | ValueError msg => ValueError msg
      | Return scripts_text =>
          Return (_parse_multiple_scripts scripts_text num_options)
      end
  end.

End ScriptWriter.

(** ** backend/scraper_enhanced.py *)

Module Scraper.

(** The dictionary built by [scrape_page_content]. *)
Record PageContent := {
  title : option str;
  meta_description : option str;
  preview_text : option str;
  full_content : option str
}.

(** What the HTML parser reads off a fetched document: the text of the
    title element when there is one; the [content] attribute (or [''])
    of the description meta element, or else of the Open-Graph one, when
    there is one; and [soup.get_text()] once the script, style, nav, header
    and footer elements are removed. *)
Record Document := {
  title_text : option str;
  meta_content : option str;
  body_text : str
}.

(** What [requests.get] gives for a URL: one of the exceptions of the
    request, or a response. *)
Inductive fetch_result :=
| Timeout
| ConnectionError
| OtherRequestException
| Response (status_code : Z) (doc : Document).

(** [response.raise_for_status()] raises for the 4xx and 5xx codes. *)
Definition raises_for_status (status_code : Z) : bool :=
  ((400 <=? status_code) && (status_code <? 600))%Z.


Definition empty_content : PageContent :=
  {| title := None; meta_description := None;
     preview_text := None; full_content := None |}.

(** The clean-up of the page text: lines stripped, cut at double spaces,
    the non-empty chunks joined by single spaces. *)
Definition clean_text (text : str) : str :=
  let lines := List.map strip (splitlines text) in
  let chunks :=
    List.concat
      (List.map (fun line => List.map strip (split_sep (py "  ") line)) lines) in
  join (py " ") (List.filter truthy chunks).

(** The first 200 words. *)
Definition make_preview (text : str) : str :=
  let words := split_ws text in
  if (200 <? length words)%nat
  then join (py " ") (firstn 200 words) ++ py "..."
  else text.

Definition scrape_page_content (fetch : str -> fetch_result) (url : str)
  : PageContent :=
  match fetch url with
  | Timeout => empty_content
  | ConnectionError => empty_content
  | OtherRequestException => empty_content
  | Response status_code doc =>
      if raises_for_status status_code then empty_content
      else
        let text := clean_text (body_text doc) in
        {| title := option_map strip (title_text doc);
           meta_description := option_map strip (meta_content doc);
           preview_text := Some (make_preview text);
           full_content := Some text |}
  end.

(** [any(word in text for word in words)] *)
Definition any_in (words : list str) (text : str) : bool :=
  existsb (fun word => contains word text) words.

Definition course_words : list str :=
  List.map py ["course"; "learn"; "lesson"; "module"; "curriculum"; "training"]%string.
Definition coaching_words : list str :=
  List.map py ["coaching"; "mentorship"; "1-on-1"; "one-on-one"; "consultation"]%string.
Definition product_words : list str :=
  List.map py ["product"; "buy"; "shop"; "store"; "purchase"; "price"; "$"; "cart"]%string.
Definition newsletter_words : list str :=
  List.map py ["newsletter"; "subscribe"; "email list"; "weekly digest"]%string.
Definition blog_words : list str :=
  List.map py ["blog"; "article"; "post"; "read"]%string.
Definition social_platforms : list str :=
  List.map py ["instagram"; "twitter"; "facebook"; "linkedin"; "tiktok"; "youtube"]%string.

(** The eight values [identify_link_type] documents. *)
Definition link_types : list str :=
  List.map py ["course"; "coaching"; "product"; "newsletter"; "blog"; "video";
               "social"; "website"]%string.

Section Classifier.

(** [str.lower] of the Python runtime. *)
Variable lower : str -> str.

Definition combined_text (url : str) (content : PageContent) : str :=
  let url_lower := lower url in
  let title := lower (or_empty (title content)) in
  let description := lower (or_empty (meta_description content)) in
  let preview := lower (or_empty (preview_text content)) in
  url_lower ++ py " " ++ title ++ py " " ++ description ++ py " " ++ preview.

Definition identify_link_type (url : str) (content : PageContent) : str :=
  let url_lower := lower url in
  let combined := combined_text url content in
  if any_in course_words combined then py "course"
  else if any_in coaching_words combined then py "coaching"
  else if any_in product_words combined then py "product"
  else if any_in newsletter_words combined then py "newsletter"
  else if any_in blog_words combined then py "blog"
  else if contains (py "youtube.com") url_lower
          || contains (py "vimeo.com") url_lower
          || contains (py "video") combined then py "video"
  else if any_in social_platforms url_lower then py "social"
  else py "website".

Definition create_context_summary (content : PageContent) (link_type : str)
  : str :=
  let parts :=
    (if otruthy (title content)
     then [py "Title: " ++ or_empty (title content)] else [])
    ++ (if otruthy (meta_description content)
        then [py "Description: " ++ or_empty (meta_description content)]
        else [])
    ++ [py "Link Type: " ++ link_type]
    ++ (if otruthy (preview_text content)
        then
          let words := firstn 100 (split_ws (or_empty (preview_text content))) in
          [py "Preview: " ++ join (py " ") words]
        else []) in
  join nl parts.

(** The dictionary returned by [scrape_link_content]: the page content
    with the two keys it adds. *)
Record LinkContent := {
  content : PageContent;
  link_type : str;
  context_summary : str
}.

Definition scrape_link_content (fetch : str -> fetch_result) (url : str)
  : LinkContent :=
  let content := scrape_page_content fetch url in
  let link_type := identify_link_type url content in
  {| content := content;
     link_type := link_type;
     context_summary := create_context_summary content link_type |}.

(** The classification as the specification words it: the rules in their
    priority order, each with the type it gives; the first rule that
    matches decides, and [website] is left when none does. *)
Definition spec_priority_rules (url : str) (content : PageContent)
  : list (bool * str) :=
  let url_lower := lower url in
  let combined := combined_text url content in
  [ (any_in course_words combined, py "course");
    (any_in coaching_words combined, py "coaching");
    (any_in product_words combined, py "product");
    (any_in newsletter_words combined, py "newsletter");
    (any_in blog_words combined, py "blog");
    (any_in [py "youtube.com"; py "vimeo.com"] url_lower
     || contains (py "video") combined, py "video");
    (any_in social_platforms url_lower, py "social") ].

Fixpoint spec_first_match (rules : list (bool * str)) (otherwise : str)
  : str :=
  match rules with
  | [] => otherwise
  | (matches, type) :: rest =>
      if matches then type else spec_first_match rest otherwise
  end.

End Classifier.

End Scraper.

(** ** backend/voice_clone.py *)

Module VoiceClone.

(** The audio directory: the content of each file, by its path relative
    to the directory. *)
Abbreviation file_store := (gmap (list N) (list byte)) (only parsing).

(** What the text-to-speech request gives: the request itself fails, or a
    response arrives with a status code and the chunks of its body;
    [stream_breaks] says that reading the body fails after these chunks. *)
Inductive tts_reply :=
| RequestError
| TTSResponse (status_code : Z) (chunks : list (list byte))
    (stream_breaks : bool).

Definition nonempty {A} (l : list A) : bool :=
  match l with [] => false | _ => true end.

(** [AudioGenerator.generate_audio]: the files afterwards and the boolean
    returned. *)
Definition generate_audio (reply : tts_reply) (files : file_store)
  (output_path : str) : file_store * bool :=
  match reply with
  | RequestError => (files, false)
  | TTSResponse status_code chunks stream_breaks =>
      if (status_code =? 200)%Z then
        let written := List.concat (List.filter nonempty chunks) in
        (<[output_path := written]> files, negb stream_breaks)
      else (files, false)
  end.

(** [generate_voice_audio]: without an API key the generator cannot be
    built and the function returns [False]. *)
Definition generate_voice_audio (api_key : option str)
  (text_to_speech : str -> str -> tts_reply) (files : file_store)
  (text voice_id output_path : str) : file_store * bool :=
  if otruthy api_key
  then generate_audio (text_to_speech voice_id text) files output_path
  else (files, false).

End VoiceClone.

(** ** backend/app.py: the select-script and generate-audio handlers *)

Module App.

Import VoiceClone.

(** The columns of a link the handlers read or write. *)
Record Link := {
  user_id : Z;
  script_brief : option str;
  script_standard : option str;
  script_conversational : option str;
  selected_script : option str;
  voice_message_text : option str;
  voice_message_audio : option str
}.

Record User := {
  voice_clone_id : option str
}.

(** The committed tables, by primary key, and the audio directory. *)
Record World := {
  links : gmap Z Link;
  users : gmap Z User;
  files : gmap (list N) (list byte)
}.

(** How a handler ends: a response body, an [HTTPException] it raises, or
    an exception nothing catches. *)
Inductive response (A : Type) :=
| Ok (body : A)
| HTTPException (status_code : Z) (detail : str)
| Unhandled (exception : str).
Arguments Ok {A} body.
Arguments HTTPException {A} status_code detail.
Arguments Unhandled {A} exception.

(** The keys of the request body that [select_script_for_link] uses. *)
Record SelectRequest := {
  script_type : option str;
  custom_text : option str;
  script : option str
}.

Definition set_selection (link : Link) (text : option str) : Link :=
  {| user_id := user_id link;
     script_brief := script_brief link;
     script_standard := script_standard link;
     script_conversational := script_conversational link;
     selected_script := text;
     voice_message_text := text;
     voice_message_audio := voice_message_audio link |}.

Definition set_audio (link : Link) (path text : str) : Link :=
  {| user_id := user_id link;
     script_brief := script_brief link;
     script_standard := script_standard link;
     script_conversational := script_conversational link;
     selected_script := selected_script link;
     voice_message_text := Some text;
     voice_message_audio := Some path |}.

Definition commit_link (w : World) (link_id : Z) (link : Link) : World :=
  {| links := <[link_id := link]> (links w);
     users := users w;
     files := files w |}.

Definition with_files (w : World) (fs : gmap (list N) (list byte)) : World :=
  {| links := links w; users := users w; files := fs |}.

Definition is_type (script_type : option str) (name : string) : bool :=
  bool_decide (script_type = Some (py name)).

(** The branch of the [if]/[elif] chain that saves the selection: the link
    as assigned, or [None] when the chain ends in "Invalid script_type". *)
Definition assign_selection (link : Link) (request : SelectRequest)
  : option Link :=
  if otruthy (script request) then
    Some (set_selection link (script request))
  else if otruthy (custom_text request) then
    Some (set_selection link (custom_text request))
  else if is_type (script_type request) "brief" then
    Some (set_selection link (script_brief link))
  else if is_type (script_type request) "standard" then
    Some (set_selection link (script_standard link))
  else if is_type (script_type request) "conversational" then
    Some (set_selection link (script_conversational link))
  else None.

(** [select_script_for_link]: the world afterwards and the response.  The
    log line after the commit takes [len(link.selected_script)]. *)
Definition select_script_for_link (w : World) (link_id : Z)
  (request : SelectRequest) : World * response str :=
  match links w !! link_id with
  | None => (w, HTTPException 404 (py "Link not found"))
  | Some link =>
      if negb (otruthy (script_type request))
         && negb (otruthy (custom_text request))
         && negb (otruthy (script request))
      then (w, HTTPException 400
                 (py "Either script_type, custom_text, or script is required"))
      else
        match assign_selection link request with
        | None => (w, HTTPException 400 (py "Invalid script_type"))
        | Some link' =>
            let w' := commit_link w link_id link' in
            match selected_script link' with
            | None =>
                (w', Unhandled
                       (py "TypeError: object of type 'NoneType' has no len()"))
            | Some text => (w', Ok text)
            end
        end
  end.

(** What a call of [generate_audio_for_link] finds around it: the API key
    of the environment, the rendering of [datetime.now().timestamp()], the
    provider behind the text-to-speech request (by voice and text), and the
    paths whose [unlink] raises. *)
Record Env := {
  elevenlabs_api_key : option str;
  timestamp : str;
  text_to_speech : str -> str -> tts_reply;
  unlink_fails : str -> bool
}.

(** The effects of a call, in the order the handler performs them. *)
Inductive effect :=
| SynthesisRun (path : str) (success : bool)
| FileChecked (path : str)
| FileDeleted (path : str)
| DeleteFailed (path : str)
| AudioPathSet (link_id : Z) (path : str)
| Committed.

(** [f"link_{link_id}_{datetime.now().timestamp()}.mp3"] *)
Definition audio_filename (link_id : Z) (timestamp : str) : str :=
  py "link_" ++ str_of_int link_id ++ py "_" ++ timestamp ++ py ".mp3".

Definition link_voices_path (link_id : Z) (timestamp : str) : str :=
  py "link_voices/" ++ audio_filename link_id timestamp.

(** "Delete old audio if exists": the files afterwards and the effects. *)
Definition delete_old_audio (env : Env) (link : Link)
  (fs : gmap (list N) (list byte))
  : gmap (list N) (list byte) * list effect :=
  match voice_message_audio link with
  | Some old =>
      if truthy old then
        match fs !! old with
        | Some _ =>
            if unlink_fails env old then (fs, [DeleteFailed old])
            else (delete old fs, [FileDeleted old])
        | None => (fs, [])
        end
      else (fs, [])
  | None => (fs, [])
  end.

Definition generate_audio_for_link (env : Env) (w : World) (link_id : Z)
  : World * list effect * response str :=
  if negb (otruthy (elevenlabs_api_key env)) then
    (w, [], HTTPException 500
      (py "Audio generation is not configured. Please set ELEVENLABS_API_KEY environment variable."))
  else
  match links w !! link_id with
  | None => (w, [], HTTPException 404 (py "Link not found"))
  | Some link =>
  match users w !! user_id link with
  | None => (w, [], HTTPException 404 (py "User not found"))
  | Some user =>
  if negb (otruthy (voice_clone_id user)) then
    (w, [], HTTPException 400
      (py "Voice clone not set up. Please create a voice clone first by recording your voice."))
  else if negb (otruthy (voice_message_text link)) then
    (w, [], HTTPException 400
      (py "No script selected for this link. Please select a script first."))
  else
    let text := or_empty (voice_message_text link) in
    if negb (truthy text) || (length (strip text) =? 0)%nat then
      (w, [], HTTPException 400 (py "Script text is empty"))
    else
      let audio_path := link_voices_path link_id (timestamp env) in
      let '(fs1, success) :=
        generate_voice_audio (elevenlabs_api_key env) (text_to_speech env)
          (files w) text (or_empty (voice_clone_id user)) audio_path in
      let w1 := with_files w fs1 in
      if negb success then
        (w1, [SynthesisRun audio_path false], HTTPException 500
          (py "Failed to generate audio. Please check your voice clone and try again."))
      else
        match fs1 !! audio_path with
        | None =>
            (w1, [SynthesisRun audio_path true; FileChecked audio_path],
             HTTPException 500 (py "Audio file was not created"))
        | Some _ =>
            let '(fs2, deletion) := delete_old_audio env link fs1 in
            let link' := set_audio link audio_path text in
            (commit_link (with_files w fs2) link_id link',
             [SynthesisRun audio_path true; FileChecked audio_path]
               ++ deletion ++ [AudioPathSet link_id audio_path; Committed],
             Ok audio_path)
        end
  end
  end.

(** A world to evaluate the handlers in: one link of one owner who has a
    voice clone; the link has a selected script and the audio of an earlier
    synthesis. *)
Definition demo_link : Link :=
  {| user_id := 7;
     script_brief := None;
     script_standard := None;
     script_conversational := None;
     selected_script := Some (py "Join my free course today");
     voice_message_text := Some (py "Join my free course today");
     voice_message_audio := Some (py "link_voices/link_1_1700000000.5.mp3") |}.

Definition demo_world : World :=
  {| links := {[ 1%Z := demo_link ]};
     users := {[ 7%Z := {| voice_clone_id := Some (py "voice-abc") |} ]};
     files := {[ py "link_voices/link_1_1700000000.5.mp3" := [x49; x44; x33] ]} |}.

Definition demo_env (ts : string) (reply : tts_reply) (unlink_raises : bool) : Env :=
  {| elevenlabs_api_key := Some (py "key");
     timestamp := py ts;
     text_to_speech := fun _ _ => reply;
     unlink_fails := fun _ => unlink_raises |}.

(** The selection a request ends in: [text] is the response and is stored
    in both columns of the committed link. *)
Definition selection_saved (w : World) (link_id : Z)
  (request : SelectRequest) (text : str) : Prop :=
  snd (select_script_for_link w link_id request) = Ok text
  /\ exists link',
       links (fst (select_script_for_link w link_id request)) !! link_id
       = Some link'
       /\ selected_script link' = Some text
       /\ voice_message_text link' = Some text.

(** The effects that change the stored link. *)
Definition persists (e : effect) : bool :=
  match e with
  | AudioPathSet _ _ | Committed => true
  | _ => false
  end.

(** The synthesis did not produce the audio: the request failed, the
    status is not 200, or the body could not be read to its end. *)
Definition synthesis_fails (reply : tts_reply) : Prop :=
  match reply with
  | RequestError => True
  | TTSResponse status_code _ stream_breaks =>
      status_code <> 200%Z \/ stream_breaks = true
  end.

End App.

(** ** backend/auth.py *)

Module Auth.

(** [timedelta(minutes=n)], in microseconds, the resolution of the instants
    of [datetime.utcnow()]. *)
Definition minutes (n : Z) : Z := (n * 60000000)%Z.

(** [check_rate_limit] at the instant [now]: the table [login_attempts]
    afterwards (per email, the attempts counted and the instant of the
    first of them) and the boolean returned. *)
Definition check_rate_limit (now : Z) (login_attempts : gmap (list N) (Z * Z))
  (email : str) (max_attempts window_minutes : Z)
  : gmap (list N) (Z * Z) * bool :=
  match login_attempts !! email with
  | Some (attempts, first_attempt) =>
      if (minutes window_minutes <? now - first_attempt)%Z then
        (<[email := (1%Z, now)]> login_attempts, true)
      else if (max_attempts <=? attempts)%Z then (login_attempts, false)
      else (<[email := ((attempts + 1)%Z, first_attempt)]> login_attempts, true)
  | None => (<[email := (1%Z, now)]> login_attempts, true)
  end.

Definition reset_rate_limit (login_attempts : gmap (list N) (Z * Z))
  (email : str) : gmap (list N) (Z * Z) :=
  delete email login_attempts.

(** The booleans that successive calls of [check_rate_limit] for one
    email return, at the instants given, with the table they leave. *)
Fixpoint check_rate_limit_run (times : list Z)
  (login_attempts : gmap (list N) (Z * Z)) (email : str)
  (max_attempts window_minutes : Z)
  : gmap (list N) (Z * Z) * list bool :=
  match times with
  | [] => (login_attempts, [])
  | now :: later =>
      let '(table, ok) :=
        check_rate_limit now login_attempts email max_attempts window_minutes in
      let '(table', oks) :=
        check_rate_limit_run later table email max_attempts window_minutes in
      (table', ok :: oks)
  end.

(** [s.encode('utf-8')]: the bytes of one character, then of a string;
    [None] stands for the [UnicodeEncodeError] that a surrogate raises. *)
Definition utf8_char (c : N) : option (list N) :=
  if c <? 0x80 then Some [c]
  else if c <? 0x800 then Some [0xc0 + c / 64; 0x80 + c mod 64]
  else if in_range 0xd800 0xdfff c then None
  else if c <? 0x10000 then
    Some [0xe0 + c / 4096; 0x80 + (c / 64) mod 64; 0x80 + c mod 64]
  else if c <? 0x110000 then
    Some [0xf0 + c / 262144; 0x80 + (c / 4096) mod 64;
          0x80 + (c / 64) mod 64; 0x80 + c mod 64]
  else None.

Fixpoint encode_utf8 (s : str) : option (list N) :=
  match s with
  | [] => Some []
  | c :: s' =>
      match utf8_char c, encode_utf8 s' with
      | Some b, Some bs => Some (b ++ bs)
      | _, _ => None
      end
  end.

(** A row of the users table, with the columns the authentication reads
    or writes. *)
Record Account := {
  username : str;
  display_name : str;
  email : option str;
  password_hash : option str;
  last_login : option Z
}.

Section Bcrypt.

(** [bcrypt.checkpw], on the bytes of the password and of the hash; [None]
    when it raises. *)
Variable checkpw : list N -> list N -> option bool.

(** [verify_password]; [None] when the encoding or [bcrypt] raises. *)
Definition verify_password (plain_password hashed_password : str)
  : option bool :=
  match encode_utf8 plain_password, encode_utf8 hashed_password with
  | Some encoded, Some hashed_bytes =>
      let password_bytes := firstn 72 encoded in
      checkpw password_bytes hashed_bytes
  | _, _ => None
  end.

(** [db.query(User).filter(User.email == email).first()] *)
Definition user_by_email (users : list Account) (email_ : str)
  : option Account :=
  List.find (fun u => bool_decide (email u = Some email_)) users.

Definition user_by_username (users : list Account) (name : str)
  : option Account :=
  List.find (fun u => bool_decide (username u = name)) users.

(** [authenticate_user]: the outer [None] is an exception of
    [verify_password], the inner one the [None] that the function
    returns. *)
Definition authenticate_user (users : list Account) (email_ password : str)
  : option (option Account) :=
  match user_by_email users email_ with
  | None => Some None
  | Some user =>
      if negb (otruthy (password_hash user)) then Some None
      else
        match verify_password password (or_empty (password_hash user)) with
        | None => None
        | Some false => Some None
        | Some true => Some (Some user)
        end
  end.

End Bcrypt.

Section PasswordStrength.

(** [str.isdigit] and [str.isalpha] on one character. *)
Variables isdigit isalpha : N -> bool.

Definition validate_password_strength (password : str) : bool * str :=
  if (length password <? 8)%nat then
    (false, py "Password must be at least 8 characters long")
  else if (128 <? length password)%nat then
    (false, py "Password must be less than 128 characters")
  else if negb (existsb isdigit password) then
    (false, py "Password must contain at least one number")
  else if negb (existsb isalpha password) then
    (false, py "Password must contain at least one letter")
  else (true, []).

End PasswordStrength.

(** The cookies of a response, or of the request that sends them back:
    the value by name. *)
Definition set_auth_cookie (cookies : gmap (list N) (list N)) (token : str)
  : gmap (list N) (list N) :=
  <[py "access_token" := py "Bearer " ++ token]> cookies.

Definition clear_auth_cookie (cookies : gmap (list N) (list N))
  : gmap (list N) (list N) :=
  delete (py "access_token") cookies.

Section Tokens.

(** [decode_access_token] as far as its callers use it: [None] for a
    token that does not verify, else the [sub] entry of the payload when
    it has one. *)
Variable decode_access_token : str -> option (option str).

Definition get_current_user_from_cookie (cookies : gmap (list N) (list N))
  (users : list Account) : option Account :=
  match cookies !! py "access_token" with
  | None => None
  | Some token =>
      if negb (truthy token) then None
      else
        let token :=
          if startswith (py "Bearer ") token then skipn 7 token else token in
        match decode_access_token token with
        | None => None
        | Some sub =>
            if negb (otruthy sub) then None
            else user_by_username users (or_empty sub)
        end
  end.

End Tokens.

End Auth.

(** ** backend/app.py: signup and login *)

Module AuthRoutes.

Import Auth App.

(** What the two routes work on: the limiter's table, the users table in
    the order of its rows, and the cookies of the response. *)
Record AuthState := {
  login_attempts : gmap (list N) (Z * Z);
  accounts : list Account;
  cookies : gmap (list N) (list N)
}.

(** The body of the responses: the token with the user's names. *)
Record TokenResponse := {
  access_token : str;
  token_username : str;
  token_display_name : str
}.

(** [user.last_login = ...] on the row that the query by email found. *)
Fixpoint set_last_login (users : list Account) (email_ : str) (now : Z)
  : list Account :=
  match users with
  | [] => []
  | u :: rest =>
      if bool_decide (email u = Some email_) then
        {| username := username u; display_name := display_name u;
           email := email u; password_hash := password_hash u;
           last_login := Some now |} :: rest
      else u :: set_last_login rest email_ now
  end.

(** The candidates of the search for a free username, run for at most
    [fuel] queries: [None] when the fuel is used up. *)
Fixpoint find_username (fuel : nat) (users : list Account)
  (base_username username_ : str) (counter : Z) : option str :=
  match fuel with
  | O => None
  | S k =>
      match user_by_username users username_ with
      | Some _ =>
          find_username k users base_username
            (base_username ++ str_of_int counter) (counter + 1)%Z
      | None => Some username_
      end
  end.

(** The names the search tries, in their order: the base name, then the
    base name followed by 2, 3, ... *)
Definition candidate (base_username : str) (i : nat) : str :=
  match i with
  | O => base_username
  | S _ => base_username ++ str_of_int (Z.of_nat (S i))
  end.

Section Routes.

(** [bcrypt.checkpw]; [bcrypt.hashpw] with the salt it is given, decoded;
    the text of the exception that encoding a password raises;
    [create_access_token] for a [sub]; and [str.lower], [str.isalnum],
    [str.isdigit] and [str.isalpha]. *)
Variable checkpw : list N -> list N -> option bool.
Variable hashpw : list N -> str.
Variable encode_error_text : str -> str.
Variable create_access_token : str -> str.
Variable lower : str -> str.
Variables isalnum isdigit isalpha : N -> bool.

(** [get_password_hash]; [None] when the encoding raises. *)
Definition get_password_hash (password : str) : option str :=
  match encode_utf8 password with
  | Some encoded => Some (hashpw (firstn 72 encoded))
  | None => None
  end.

(** [email.split('@')[0]] *)
Definition local_part (email_ : str) : str :=
  hd [] (split_sep (py "@") email_).

Definition base_username_of (email_ : str) : str :=
  List.filter (fun c => isalnum c || (c =? 0x5f)) (lower (local_part email_)).

(** [login] at the instants [now_utc] (of the limiter) and [now_local]
    (of [last_login]). *)
Definition login (now_utc now_local : Z) (st : AuthState)
  (email_ password : str) (remember_me : bool)
  : AuthState * response TokenResponse :=
  let '(attempts, ok) :=
    check_rate_limit now_utc (login_attempts st) email_ 5 15 in
  let st1 := {| login_attempts := attempts; accounts := accounts st;
                cookies := cookies st |} in
  if negb ok then
    (st1, HTTPException 429
            (py "Too many login attempts. Please try again in 15 minutes."))
  else
    match authenticate_user checkpw (accounts st) email_ password with
    | None => (st1, Unhandled (py "verify_password"))
    | Some None => (st1, HTTPException 401 (py "Invalid email or password"))
    | Some (Some user) =>
        let access_token := create_access_token (username user) in
        ({| login_attempts := reset_rate_limit attempts email_;
            accounts := set_last_login (accounts st) email_ now_local;
            cookies := set_auth_cookie (cookies st) access_token |},
         Ok {| access_token := access_token;
               token_username := username user;
               token_display_name := display_name user |})
    end.

(** [signup]; the account it adds has an empty bio and is not
    published. *)
Definition signup (st : AuthState) (email_ password : str)
  : AuthState * response TokenResponse :=
  if negb (truthy email_) || negb (contains (py "@") email_) then
    (st, HTTPException 400 (py "Valid email is required"))
  else
    match user_by_email (accounts st) email_ with
    | Some _ => (st, HTTPException 400 (py "Email already registered"))
    | None =>
        let '(is_valid, error_message) :=
          validate_password_strength isdigit isalpha password in
        if negb is_valid then (st, HTTPException 400 error_message)
        else
          let base_username := base_username_of email_ in
          match find_username (S (length (accounts st))) (accounts st)
                  base_username base_username 2 with
          | None => (st, Unhandled (py "the search for a username goes on"))
          | Some username_ =>
              match get_password_hash password with
              | None => (st, HTTPException 500 (encode_error_text password))
              | Some hash =>
                  let user :=
                    {| username := username_;
                       display_name := local_part email_;
                       email := Some email_;
                       password_hash := Some hash;
                       last_login := None |} in
                  let access_token := create_access_token username_ in
                  ({| login_attempts := login_attempts st;
                      accounts := accounts st ++ [user];
                      cookies := set_auth_cookie (cookies st) access_token |},
                   Ok {| access_token := access_token;
                         token_username := username_;
                         token_display_name := local_part email_ |})
              end
          end
    end.

End Routes.

End AuthRoutes.

(** A state to evaluate the routes in, with stand-ins for what the
    libraries compute: one account, whose stored hash is its password. *)
Module AuthDemo.

Import Auth AuthRoutes.

Definition ann : Account :=
  {| username := py "ann"; display_name := py "Ann";
     email := Some (py "ann@example.com");
     password_hash := Some (py "s3cret-pass");
     last_login := None |}.

Definition demo_state (attempts : gmap (list N) (Z * Z)) : AuthState :=
  {| login_attempts := attempts; accounts := [ann]; cookies := ∅ |}.

Definition demo_checkpw (password hashed : list N) : option bool :=
  Some (bool_decide (password = hashed)).

Definition demo_token (sub : str) : str := py "token-for-" ++ sub.

Definition demo_isalnum (c : N) : bool :=
  in_range 0x30 0x39 c || in_range 0x41 0x5a c || in_range 0x61 0x7a c.

End AuthDemo.

(** ** backend/scraper.py *)

Module Linktree.

Definition is_slash (c : N) : bool := c =? 0x2f.

(** [s.rstrip(chars)] *)
Definition rstrip_set (p : N -> bool) (s : str) : str :=
  rev (dropwhile p (rev s)).

(** [re.sub(r'^https?://', '', url)] and [re.sub(r'^www\.', '', url)] *)
Definition drop_scheme (url : str) : str :=
  if startswith (py "https://") url then skipn 8 url
  else if startswith (py "http://") url then skipn 7 url
  else url.

Definition drop_www (url : str) : str :=
  if startswith (py "www.") url then skipn 4 url else url.

(** What the scraper reads off an anchor element: [link.get('href', '')]
    and [link.get_text(strip=True)]. *)
Record LinkElement := {
  href : str;
  text : str
}.

Record ScrapedLink := {
  link_title : str;
  link_url : str
}.

Definition skip_keywords : list str :=
  List.map py ["cookie"; "privacy"; "terms"; "report"; "about"; "help"]%string.

Section Lower.

(** [str.lower] of the Python runtime. *)
Variable lower : str -> str.

Definition extract_username_from_url (url : str) : str :=
  let url := rstrip_set is_slash (strip url) in
  let url := drop_scheme url in
  let url := drop_www url in
  let username :=
    if contains (py "linktr.ee/") url
    then List.last (split_sep (py "linktr.ee/") url) []
    else List.last (split_sep (py "/") url) [] in
  lower username.

(** The body of the loop over the link elements: the list [links]
    afterwards. *)
Definition process_link_element (links : list ScrapedLink) (e : LinkElement)
  : list ScrapedLink :=
  let href := href e in
  let title := text e in
  if negb (truthy href) || negb (truthy title) || (length title <? 2)%nat
  then links
  else if existsb (fun keyword => contains keyword (lower title)) skip_keywords
  then links
  else if startswith (py "http") href || startswith (py "//") href then
    let href := if startswith (py "//") href then py "https:" ++ href else href in
    if contains (py "linktr.ee") href || contains (py "linktree.com") href
    then links
    else if existsb (fun l => bool_decide (link_url l = href)) links
    then links
    else links ++ [{| link_title := title; link_url := href |}]
  else links.

(** The end of [scrape_linktree]: the elements are processed when there
    are some and the page data gave no links; the result keeps the first
    20 links. *)
Definition result_links (links : list ScrapedLink)
  (link_elements : list LinkElement) : list ScrapedLink :=
  let links :=
    if VoiceClone.nonempty link_elements && negb (VoiceClone.nonempty links)
    then fold_left process_link_element link_elements links
    else links in
  firstn 20 links.

End Lower.

End Linktree.

(** ** backend/script_generator.py *)

Module ScriptGenerator.

(** The dictionary that [generate_link_scripts] returns. *)
Record LinkScripts := {
  brief : str;
  brief_word_count : Z;
  standard : str;
  standard_word_count : Z;
  conversational : str;
  conversational_word_count : Z
}.

(** The helper [count_words] of [generate_link_scripts]. *)
Definition count_words_stripped (text : str) : Z :=
  Z.of_nat (length (split_ws (strip text))).

(** [scripts_text[i].strip() if len(scripts_text) > i else ""] *)
Definition script_at (scripts_text : list str) (i : nat) : str :=
  match nth_error scripts_text i with
  | Some s => strip s
  | None => []
  end.

(** [generate_link_scripts] from the text of the provider's reply on. *)
Definition link_scripts_of_reply (reply : str) : LinkScripts :=
  let scripts_text := split_sep (py "---") reply in
  let brief := script_at scripts_text 0 in
  let standard := script_at scripts_text 1 in
  let conversational := script_at scripts_text 2 in
  {| brief := brief;
     brief_word_count := count_words_stripped brief;
     standard := standard;
     standard_word_count := count_words_stripped standard;
     conversational := conversational;
     conversational_word_count := count_words_stripped conversational |}.

(** The context lines of the prompt of [generate_link_scripts]. *)
Definition build_context (title description preview_text link_type
  : option str) : str :=
  let context_parts :=
    (if otruthy title then [py "Link title: " ++ or_empty title] else [])
    ++ (if otruthy description
        then [py "Description: " ++ or_empty description] else [])
    ++ (if otruthy preview_text
        then [py "Content preview: " ++ firstn 300 (or_empty preview_text)]
        else [])
    ++ (if otruthy link_type then [py "Type: " ++ or_empty link_type] else [])
  in
  match context_parts with
  | [] => py "No additional context available"
  | _ => join nl context_parts
  end.

End ScriptGenerator.

(** ** backend/script_writer.py: the single script and the page summary *)

Module ScriptWriterLegacy.

Import ScriptWriter.

(** What the HTML parser reads off a fetched document for
    [ScriptWriter.scrape_link_content]: the text of the title when there
    is one, the [content] of the description meta element (or else of the
    Open-Graph one) when there is one, and the texts of the h1 and h2
    elements and of the p elements, in document order. *)
Record Document := {
  title_text : option str;
  meta_content : option str;
  heading_texts : list str;
  paragraph_texts : list str
}.

Inductive fetch_result :=
| Timeout
| RequestException
| Response (status_code : Z) (doc : Document).

(** The dictionary returned: all its keys, or [scraped_content] alone
    when the page could not be loaded. *)
Inductive scrape_result :=
| Scraped (title description : str) (headings paragraphs : list str)
    (scraped_content : str)
| NotLoaded (scraped_content : str).

Definition scraped_content_of (r : scrape_result) : str :=
  match r with
  | Scraped _ _ _ _ scraped_content => scraped_content
  | NotLoaded scraped_content => scraped_content
  end.

Definition scrape_link_content (fetch : str -> fetch_result) (url : str)
  : scrape_result :=
  match fetch url with
  | Timeout => NotLoaded (py "Content could not be loaded (timeout)")
  | RequestException => NotLoaded (py "Content could not be loaded")
  | Response status_code doc =>
      if Scraper.raises_for_status status_code
      then NotLoaded (py "Content could not be loaded")
      else
        let title := strip (or_empty (title_text doc)) in
        let description := strip (or_empty (meta_content doc)) in
        let headings :=
          List.filter (fun text => truthy text && (3 <? length text)%nat)
            (List.map strip (firstn 5 (heading_texts doc))) in
        let paragraphs :=
          List.filter (fun text => truthy text && (20 <? length text)%nat)
            (List.map strip (firstn 10 (paragraph_texts doc))) in
        let content_parts :=
          (if truthy title then [py "Title: " ++ title] else [])
          ++ (if truthy description
              then [py "Description: " ++ description] else [])
          ++ (if VoiceClone.nonempty headings
              then [py "Key Headings: " ++ join (py " | ") (firstn 3 headings)]
              else [])
          ++ (if VoiceClone.nonempty paragraphs
              then [py "Content: "
                    ++ firstn 500 (join (py " ") (firstn 2 paragraphs))]
              else []) in
        Scraped title description headings (firstn 3 paragraphs)
          (join nl content_parts)
  end.

Definition _build_prompt (link_url link_title scraped_content : str)
  (user_business_context : option str) : str :=
  let business_context :=
    if otruthy user_business_context then or_empty user_business_context
    else py "No specific business context provided" in
  py "You are a master copywriter who writes direct, human, authentic copy - no hype, just clear value.

Write a 10-second voice script (50 words max) for this link.

Link: " ++ link_title ++ py "
Destination: " ++ link_url ++ py "
Page content: " ++ scraped_content ++ py "
Business context: " ++ business_context ++ py "

The script must:
- Address a specific pain point or desire
- Show urgency, social proof, or scarcity (if relevant)
- End with clear call-to-action
- Sound natural when spoken aloud
- Be conversational and authentic
- Be exactly 50 words or less

Write ONLY the script, no explanations or meta-commentary.".

(** [generate_pitch_script], with [_generate_with_openai] and
    [_generate_with_anthropic]. *)
Definition generate_pitch_script (provider : option provider_name)
  (call : provider_name -> str -> provider_reply)
  (link_url link_title scraped_content : str)
  (user_business_context : option str) : outcome str :=
  match provider with
  | None =>
      ValueError (py "No AI API key configured. Please set OPENAI_API_KEY or ANTHROPIC_API_KEY.")
  | Some p =>
      match call p (_build_prompt link_url link_title scraped_content
                      user_business_context) with
      | ReplyText content => Return (_clean_script (strip content))
      | RequestFailed error =>
          ValueError
            (match p with
             | openai => py "Failed to generate script with OpenAI: "
             | anthropic => py "Failed to generate script with Anthropic: "
             end ++ error)
      | ReplyUnreadable error =>
          ValueError (py "Failed to generate script: " ++ error)
      end
  end.

End ScriptWriterLegacy.

(** ** backend/app.py: the script routes *)

Module Pipeline.

Import ScriptWriter App.

(** A link with the columns the script routes use beside those of
    [App.Link], and an owner with the bio. *)
Record LinkRow := {
  cols : Link;
  url : str;
  title : str;
  scraped_content : option str;
  ai_generated_script : option str
}.

Record Owner := {
  account : User;
  bio : option str
}.

Record Db := {
  link_rows : gmap Z LinkRow;
  owners : gmap Z Owner
}.

(** The same tables with the columns of [App] alone. *)
Definition app_world (db : Db) (fs : gmap (list N) (list byte)) : World :=
  {| links := cols <$> link_rows db;
     users := account <$> owners db;
     files := fs |}.

Definition commit_row (db : Db) (link_id : Z) (row : LinkRow) : Db :=
  {| link_rows := <[link_id := row]> (link_rows db); owners := owners db |}.

Definition set_scraped_content (row : LinkRow) (text : str) : LinkRow :=
  {| cols := cols row; url := url row; title := title row;
     scraped_content := Some text;
     ai_generated_script := ai_generated_script row |}.

Definition set_ai_script (row : LinkRow) (text : str) : LinkRow :=
  {| cols := cols row; url := url row; title := title row;
     scraped_content := scraped_content row;
     ai_generated_script := Some text |}.

Definition set_variations (row : LinkRow) (b s c : str) : LinkRow :=
  {| cols :=
       {| user_id := user_id (cols row);
          script_brief := Some b;
          script_standard := Some s;
          script_conversational := Some c;
          selected_script := selected_script (cols row);
          voice_message_text := voice_message_text (cols row);
          voice_message_audio := voice_message_audio (cols row) |};
     url := url row; title := title row;
     scraped_content := scraped_content row;
     ai_generated_script := ai_generated_script row |}.

(** An optional text inside an f-string. *)
Definition render (o : option str) : str :=
  match o with Some s => s | None => py "None" end.

(** [scripts_list[i] if len(scripts_list) > i else] the empty entry *)
Definition entry_at (scripts_list : list ScriptCandidate) (i : nat)
  : ScriptCandidate :=
  nth i scripts_list
    {| ScriptWriter.script := []; ScriptWriter.word_count := 0 |}.

(** [user.bio if user.bio else None] *)
Definition business_context (bio_ : option str) : option str :=
  if otruthy bio_ then bio_ else None.

Section Routes.

Variable lower : str -> str.
Variable provider : option provider_name.
Variable call : provider_name -> str -> provider_reply.

(** [generate_scripts_for_link_variations] *)
Definition generate_scripts_for_link_variations
  (fetch : str -> Scraper.fetch_result) (db : Db) (link_id : Z)
  : Db * response (list ScriptCandidate) :=
  match link_rows db !! link_id with
  | None => (db, HTTPException 404 (py "Link not found"))
  | Some link =>
      match owners db !! user_id (cols link) with
      | None => (db, HTTPException 404 (py "User not found"))
      | Some user =>
          let '(db1, link1, link_title) :=
            if negb (otruthy (scraped_content link)) then
              let content := Scraper.scrape_link_content lower fetch (url link) in
              let link1 :=
                set_scraped_content link (Scraper.context_summary content) in
              (commit_row db link_id link1, link1,
               render (Scraper.title (Scraper.content content)))
            else (db, link, title link) in
          match generate_pitch_scripts provider call (url link) link_title
                  (or_empty (scraped_content link1))
                  (business_context (bio user)) 3 with
          | ValueError msg => (db1, HTTPException 500 msg)
          | Return scripts_list =>
              let b := entry_at scripts_list 0 in
              let s := entry_at scripts_list 1 in
              let c := entry_at scripts_list 2 in
              (commit_row db1 link_id
                 (set_variations link1 (ScriptWriter.script b)
                    (ScriptWriter.script s) (ScriptWriter.script c)),
               Ok [b; s; c])
          end
      end
  end.

(** [generate_script_for_link], the route of the single script. *)
Definition generate_script_for_link
  (fetch : str -> ScriptWriterLegacy.fetch_result) (db : Db) (link_id : Z)
  : Db * response str :=
  match link_rows db !! link_id with
  | None => (db, HTTPException 404 (py "Link not found"))
  | Some link =>
      let scraped :=
        ScriptWriterLegacy.scraped_content_of
          (ScriptWriterLegacy.scrape_link_content fetch (url link)) in
      let context :=
        match owners db !! user_id (cols link) with
        | Some user => business_context (bio user)
        | None => None
        end in
      match ScriptWriterLegacy.generate_pitch_script provider call (url link)
              (title link) scraped context with
      | ValueError msg => (db, HTTPException 400 msg)
      | Return script_ =>
          (commit_row db link_id
             (set_scraped_content (set_ai_script link script_) scraped),
           Ok script_)
      end
  end.

(** [regenerate_script_for_link] *)
Definition regenerate_script_for_link
  (fetch : str -> ScriptWriterLegacy.fetch_result) (db : Db) (link_id : Z)
  : Db * response str :=
  match link_rows db !! link_id with
  | None => (db, HTTPException 404 (py "Link not found"))
  | Some link =>
      let '(scraped, link1) :=
        if otruthy (scraped_content link)
        then (or_empty (scraped_content link), link)
        else
          let scraped :=
            ScriptWriterLegacy.scraped_content_of
              (ScriptWriterLegacy.scrape_link_content fetch (url link)) in
          (scraped, set_scraped_content link scraped) in
      let context :=
        match owners db !! user_id (cols link) with
        | Some user => business_context (bio user)
        | None => None
        end in
      match ScriptWriterLegacy.generate_pitch_script provider call (url link)
              (title link) scraped context with
      | ValueError msg => (db, HTTPException 400 msg)
      | Return script_ =>
          (commit_row db link_id (set_ai_script link1 script_), Ok script_)
      end
  end.

End Routes.

End Pipeline.

(** A database to evaluate the script routes in: the link and the owner
    of [App.demo_world], the link without cached content. *)
Module PipelineDemo.

Import Pipeline.

Definition demo_row (cached : option str) : LinkRow :=
  {| cols := App.demo_link;
     url := py "https://example.com/course";
     title := py "My course";
     scraped_content := cached;
     ai_generated_script := None |}.

Definition demo_db (cached : option str) : Db :=
  {| link_rows := {[ 1%Z := demo_row cached ]};
     owners := {[ 7%Z := {| account := {| App.voice_clone_id := None |};
                            bio := Some (py "I teach Python") |} ]} |}.

Definition demo_reply : str :=
  py "SCRIPT 1:
Learn Python with me.

SCRIPT 2:
Stuck on loops? Start here.

SCRIPT 3:
Doors close Friday. Join now.".

End PipelineDemo.

(** ** backend/voice_clone.py and backend/app.py: the voice clone of the
    onboarding, and the recorded voice of a link *)

Module Onboarding.

Import VoiceClone App.

(** What the request that adds a voice gives: the request fails, or a
    response arrives with a status code and, when its body has one, the
    [voice_id]. *)
Inductive clone_reply :=
| CloneRequestError
| CloneResponse (status_code : Z) (voice_id : option str).

(** [VoiceCloneManager.create_voice_clone], the sample read from the
    audio directory. *)
Definition create_voice_clone
  (add_voice : str -> str -> list byte -> clone_reply)
  (files : gmap (list N) (list byte)) (voice_name audio_file_path : str)
  (description : str) : option str :=
  match files !! audio_file_path with
  | None => None
  | Some audio_data =>
      match add_voice voice_name description audio_data with
      | CloneRequestError => None
      | CloneResponse status_code voice_id =>
          if (status_code =? 200)%Z then voice_id else None
      end
  end.

(** [create_voice_from_sample] *)
Definition create_voice_from_sample (api_key : option str)
  (add_voice : str -> str -> list byte -> clone_reply)
  (files : gmap (list N) (list byte)) (sample_path voice_name : str)
  (user_id : Z) : option str :=
  if otruthy api_key then
    create_voice_clone add_voice files
      (voice_name ++ py "_user" ++ str_of_int user_id) sample_path
      (py "Voice clone for user " ++ str_of_int user_id)
  else None.

(** A row of the users table with the columns of the voice. *)
Record Member := {
  member_id : Z;
  display_name : str;
  voice_clone_id : option str;
  voice_sample_path : option str
}.

(** The users, by username, and the audio directory. *)
Record State := {
  members : gmap (list N) Member;
  audio : gmap (list N) (list byte)
}.

Record CloneEnv := {
  api_key : option str;
  now : str;
  add_voice : str -> str -> list byte -> clone_reply
}.

(** [create_voice_clone_onboarding], for an upload with the content type
    and the bytes given. *)
Definition create_voice_clone_onboarding (env : CloneEnv) (st : State)
  (content_type : option str) (audio_data : list byte) (username : str)
  : State * response str :=
  match members st !! username with
  | None => (st, HTTPException 404 (py "User not found"))
  | Some user =>
      if negb (otruthy (api_key env)) then
        (st, HTTPException 500
               (py "Voice cloning is not configured. Please set ELEVENLABS_API_KEY environment variable."))
      else if negb (otruthy content_type)
              || negb (startswith (py "audio/") (or_empty content_type)) then
        (st, HTTPException 400
               (py "Invalid audio file type. Please upload an audio file."))
      else
        let sample_filename :=
          username ++ py "_sample_" ++ now env ++ py ".mp3" in
        let sample_path := py "voice_samples/" ++ sample_filename in
        if (Z.of_nat (length audio_data) <? 100000)%Z then
          (st, HTTPException 400
                 (py "Audio file too short. Please record at least 30 seconds."))
        else if (10000000 <? Z.of_nat (length audio_data))%Z then
          (st, HTTPException 400
                 (py "Audio file too large. Please keep recording under 2 minutes."))
        else
          let files1 := <[sample_path := audio_data]> (audio st) in
          let st1 := {| members := members st; audio := files1 |} in
          match create_voice_from_sample (api_key env) (add_voice env) files1
                  sample_path (display_name user) (member_id user) with
          | None =>
              (st1, HTTPException 500
                      (py "Failed to create voice clone. Please check your audio quality and try again."))
          | Some voice_id =>
              if negb (truthy voice_id) then
                (st1, HTTPException 500
                        (py "Failed to create voice clone. Please check your audio quality and try again."))
              else
                ({| members :=
                      <[username :=
                          {| member_id := member_id user;
                             display_name := display_name user;
                             voice_clone_id := Some voice_id;
                             voice_sample_path := Some sample_path |}]>
                        (members st);
                    audio := files1 |},
                 Ok voice_id)
          end
  end.

(** [record_voice_for_link], for an upload with the content type and the
    bytes given; [unlink_error] is the text of the exception of a deletion
    that fails. *)
Definition record_voice_for_link (timestamp : str)
  (unlink_fails : str -> bool) (unlink_error : str -> str) (w : World)
  (link_id : Z) (content_type : option str) (audio_data : list byte)
  (text : str) : World * response (str * str) :=
  match links w !! link_id with
  | None => (w, HTTPException 404 (py "Link not found"))
  | Some link =>
      if negb (otruthy content_type)
         || negb (startswith (py "audio/") (or_empty content_type)) then
        (w, HTTPException 400 (py "Invalid audio file type"))
      else if (5 * 1024 * 1024 <? Z.of_nat (length audio_data))%Z then
        (w, HTTPException 400 (py "Audio file too large (max 5MB)"))
      else
        let filename :=
          py "link_" ++ str_of_int link_id ++ py "_" ++ timestamp
          ++ py ".webm" in
        let audio_path := py "link_voices/" ++ filename in
        let files1 := <[audio_path := audio_data]> (files w) in
        let after_delete :=
          match voice_message_audio link with
          | Some old =>
              if truthy old then
                match files1 !! old with
                | Some _ =>
                    if unlink_fails old then None else Some (delete old files1)
                | None => Some files1
                end
              else Some files1
          | None => Some files1
          end in
        match after_delete with
        | None =>
            (with_files w files1,
             HTTPException 500
               (py "Failed to save recording: "
                ++ unlink_error (or_empty (voice_message_audio link))))
        | Some files2 =>
            (commit_link (with_files w files2) link_id
               (set_audio link audio_path text),
             Ok (audio_path, text))
        end
  end.

(** The paths, relative to the audio directory, under which the two
    routes store an upload. *)
Definition sample_path_of (username now_ : str) : str :=
  py "voice_samples/" ++ username ++ py "_sample_" ++ now_ ++ py ".mp3".

Definition recording_path_of (link_id : Z) (timestamp : str) : str :=
  py "link_voices/" ++ py "link_" ++ str_of_int link_id ++ py "_" ++ timestamp
  ++ py ".webm".

(** An upload declared as audio. *)
Definition is_audio (content_type : option str) : bool :=
  otruthy content_type && startswith (py "audio/") (or_empty content_type).

(** A state to evaluate the onboarding in. *)
Definition demo_state : State :=
  {| members := {[ py "ann" := {| member_id := 7; display_name := py "Ann";
                                  voice_clone_id := Some (py "old-voice");
                                  voice_sample_path := None |} ]};
     audio := ∅ |}.

Definition demo_clone_env (reply : clone_reply) : CloneEnv :=
  {| api_key := Some (py "key"); now := py "1700000000.5";
     add_voice := fun _ _ _ => reply |}.

End Onboarding.

(** * Properties *)

Local Open Scope nat_scope.

(** ** Facts about the string operations *)

Section SplitFacts.

Lemma nospace_app (a b : str) : nospace a -> nospace b -> nospace (a ++ b).
Proof. unfold nospace. intros Ha Hb. apply Forall_app. split; assumption. Qed.

Lemma nospace_rev (a : str) : nospace a -> nospace (rev a).
Proof.
  unfold nospace. rewrite !List.Forall_forall. intros H c Hc.
  apply H. apply in_rev. exact Hc.
Qed.

Lemma nospace_py_dots : nospace (py "...").
Proof. repeat constructor. Qed.

Lemma split_ws_from_nonempty (cur : str) :
  cur <> [] -> split_ws_from cur [] = [rev cur].
Proof. destruct cur; [congruence | reflexivity]. Qed.

(** Reading a run of non-whitespace characters only grows the word being
    read. *)
Lemma split_ws_from_run (w cur s : str) :
  nospace w -> split_ws_from cur (w ++ s) = split_ws_from (rev w ++ cur) s.
Proof.
  revert cur. induction w as [|c w IH]; intros cur Hw; [reflexivity|].
  inversion Hw as [|? ? Hc Hw']; subst. simpl. rewrite Hc.
  rewrite IH by assumption. rewrite <- app_assoc. reflexivity.
Qed.

Lemma split_ws_single (w : str) : is_word w -> split_ws w = [w].
Proof.
  intros [Hne Hw]. unfold split_ws.
  rewrite <- (app_nil_r w) at 1. rewrite split_ws_from_run by assumption.
  rewrite app_nil_r. rewrite split_ws_from_nonempty.
  - rewrite rev_involutive. reflexivity.
  - intros E. apply Hne. rewrite <- (rev_involutive w), E. reflexivity.
Qed.

Lemma split_ws_word_space (w s : str) :
  is_word w -> split_ws (w ++ py " " ++ s) = w :: split_ws s.
Proof.
  intros [Hne Hw]. unfold split_ws.
  rewrite split_ws_from_run by assumption. rewrite app_nil_r.
  assert (Hr : rev w <> []).
  { intros E. apply Hne. rewrite <- (rev_involutive w), E. reflexivity. }
  simpl. destruct (rev w) eqn:E; [congruence|].
  rewrite <- E, rev_involutive. reflexivity.
Qed.

(** Every element of [s.split()] is a word. *)
Lemma split_ws_from_words (cur s : str) :
  nospace cur -> Forall is_word (split_ws_from cur s).
Proof.
  revert cur. induction s as [|c s IH]; intros cur Hcur; simpl.
  - destruct cur as [|x cur]; constructor; [|constructor].
    split; [|apply nospace_rev; assumption].
    intros E. apply (f_equal (@length N)) in E.
    rewrite length_rev in E. discriminate.
  - destruct (isspace c) eqn:Hc.
    + destruct cur as [|x cur]; [apply IH; constructor|].
      constructor; [|apply IH; constructor].
      split; [|apply nospace_rev; assumption].
      intros E. apply (f_equal (@length N)) in E.
      rewrite length_rev in E. discriminate.
    + apply IH. constructor; assumption.
Qed.

Lemma split_ws_words (s : str) : Forall is_word (split_ws s).
Proof. apply split_ws_from_words. constructor. Qed.

(** Joining words by single spaces and splitting again gives the words
    back, also when a suffix without whitespace is glued to the last. *)
Lemma split_ws_join_suffix (ws : list str) (t : str) :
  ws <> [] -> Forall is_word ws -> nospace t ->
  length (split_ws (join (py " ") ws ++ t)) = length ws.
Proof.
  intros Hne Hws Ht. induction ws as [|w ws IH]; [congruence|].
  inversion Hws as [|? ? Hw Hws']; subst.
  destruct ws as [|w2 ws].
  - simpl. rewrite split_ws_single; [reflexivity|].
    destruct Hw as [Hn Hs]. split.
    + destruct w; [congruence | discriminate].
    + apply nospace_app; assumption.
  - change (join (py " ") (w :: w2 :: ws))
      with (w ++ py " " ++ join (py " ") (w2 :: ws)).
    rewrite <- !app_assoc. rewrite split_ws_word_space by assumption.
    cbn [length]. rewrite IH; [reflexivity | discriminate | assumption].
Qed.

Lemma split_ws_join (ws : list str) :
  Forall is_word ws -> split_ws (join (py " ") ws) = ws.
Proof.
  induction ws as [|w ws IH]; intros Hws; [reflexivity|].
  inversion Hws as [|? ? Hw Hws']; subst.
  destruct ws as [|w2 ws].
  - simpl. apply split_ws_single. assumption.
  - change (join (py " ") (w :: w2 :: ws))
      with (w ++ py " " ++ join (py " ") (w2 :: ws)).
    rewrite split_ws_word_space by assumption. rewrite IH by assumption.
    reflexivity.
Qed.

(** The number of words only depends on whether a word is being read. *)
Lemma split_ws_from_length_cur (x y : N) (cur cur' s : str) :
  length (split_ws_from (x :: cur) s) = length (split_ws_from (y :: cur') s).
Proof.
  revert x y cur cur'. induction s as [|c s IH]; intros; simpl; [reflexivity|].
  destruct (isspace c); [reflexivity | apply IH].
Qed.

Lemma split_ws_from_length_le (cur s : str) :
  length (split_ws_from cur s)
  <= (match cur with [] => 0 | _ => 1 end) + length (split_ws s).
Proof.
  unfold split_ws. destruct s as [|c s]; simpl.
  - destruct cur; simpl; lia.
  - destruct (isspace c).
    + destruct cur; simpl; lia.
    + destruct cur as [|x cur]; [simpl; lia|].
      rewrite (split_ws_from_length_cur c c (x :: cur) [] s). simpl. lia.
Qed.

(** Splitting a concatenation gives at most the words of both parts. *)
Lemma split_ws_from_app_le (cur a b : str) :
  length (split_ws_from cur (a ++ b))
  <= length (split_ws_from cur a) + length (split_ws b).
Proof.
  revert cur. induction a as [|c a IH]; intros cur.
  - simpl app. pose proof (split_ws_from_length_le cur b).
    destruct cur; simpl in *; lia.
  - simpl. destruct (isspace c).
    + destruct cur; simpl; [apply IH|]. specialize (IH []). lia.
    + apply IH.
Qed.

Lemma split_ws_app_le (a b : str) :
  length (split_ws (a ++ b)) <= length (split_ws a) + length (split_ws b).
Proof. apply split_ws_from_app_le. Qed.

(** A string of [n] characters has at most [(n + 1) / 2] words. *)
Lemma split_ws_from_length_bound (cur s : str) :
  2 * length (split_ws_from cur s)
  <= length s + (match cur with [] => 1 | _ => 2 end).
Proof.
  revert cur. induction s as [|c s IH]; intros cur; simpl.
  - destruct cur; simpl; lia.
  - destruct (isspace c).
    + specialize (IH []). destruct cur; simpl in *; lia.
    + specialize (IH (c :: cur)). destruct cur; simpl in *; lia.
Qed.

Lemma split_ws_length_bound (s : str) :
  2 * length (split_ws s) <= length s + 1.
Proof. apply (split_ws_from_length_bound [] s). Qed.

Lemma startswith_app (p s : str) : startswith p (p ++ s) = true.
Proof.
  induction p as [|c p IH]; [reflexivity|].
  simpl. rewrite N.eqb_refl. exact IH.
Qed.

Lemma endswith_app (s t : str) : endswith t (s ++ t) = true.
Proof. unfold endswith. rewrite rev_app_distr. apply startswith_app. Qed.

End SplitFacts.

(** ** The script generator *)

Section ScriptWriterFacts.

Import ScriptWriter.

Lemma clean_script_unfold (s : str) :
  _clean_script s =
  if 55 <? length (split_ws (joined_lines s))
  then join (py " ") (firstn 50 (split_ws (joined_lines s))) ++ py "..."
  else joined_lines s.
Proof. reflexivity. Qed.

(** The [while] loop stops because the list has reached the expected
    length, having appended one fallback entry per missing slot. *)
Lemma pad_loop_repeat (fuel : nat) (n : Z) (fb : ScriptCandidate)
  (scripts : list ScriptCandidate) :
  Z.to_nat (n - Z.of_nat (length scripts)) <= fuel ->
  pad_loop fuel n fb scripts
  = scripts ++ repeat fb (Z.to_nat (n - Z.of_nat (length scripts))).
Proof.
  revert scripts. induction fuel as [|k IH]; intros scripts Hfuel.
  - replace (Z.to_nat (n - Z.of_nat (length scripts))) with 0 by lia.
    simpl. rewrite app_nil_r. reflexivity.
  - simpl. destruct (Z.ltb_spec (Z.of_nat (length scripts)) n) as [Hlt|Hge].
    + rewrite IH by (rewrite length_app; simpl; lia).
      rewrite length_app. simpl length.
      replace (Z.to_nat (n - Z.of_nat (length scripts)))
        with (S (Z.to_nat (n - Z.of_nat (length scripts + 1)))) by lia.
      simpl. rewrite <- app_assoc. reflexivity.
    + replace (Z.to_nat (n - Z.of_nat (length scripts))) with 0 by lia.
      simpl. rewrite app_nil_r. reflexivity.
Qed.

Lemma parse_multiple_scripts_shape (text : str) (n : nat) :
  let parts := parse_parts text (Z.of_nat n) in
  let parsed := List.map parsed_candidate (firstn n parts) in
  _parse_multiple_scripts text (Z.of_nat n)
  = parsed ++ repeat (fallback_candidate parts) (n - length parsed).
Proof.
  intros parts parsed. unfold _parse_multiple_scripts, slice_to.
  destruct (Z.ltb_spec (Z.of_nat n) 0) as [Hneg|_]; [lia|].
  rewrite Nat2Z.id. fold parts. fold parsed.
  rewrite pad_loop_repeat by lia. f_equal. f_equal. lia.
Qed.

Lemma parse_multiple_scripts_length (text : str) (n : nat) :
  length (_parse_multiple_scripts text (Z.of_nat n)) = n.
Proof.
  rewrite parse_multiple_scripts_shape. rewrite length_app, repeat_length.
  rewrite length_map, length_firstn. lia.
Qed.

Lemma clean_script_count (s : str) : count_words (_clean_script s) <= 55.
Proof.
  unfold count_words. rewrite clean_script_unfold.
  destruct (Nat.ltb_spec 55 (length (split_ws (joined_lines s)))) as [Hlt|Hle];
    [|exact Hle].
  rewrite split_ws_join_suffix.
  - rewrite length_firstn. lia.
  - intros E. apply (f_equal (@length (list N))) in E.
    rewrite length_firstn in E. cbn [length] in E. lia.
  - apply Forall_take. apply split_ws_words.
  - apply nospace_py_dots.
Qed.

Lemma clean_script_truncated (s : str) :
  55 < count_words (joined_lines s) ->
  _clean_script s
  = join (py " ") (firstn 50 (split_ws (joined_lines s))) ++ py "..."
  /\ count_words (_clean_script s) = 50
  /\ endswith (py "...") (_clean_script s) = true.
Proof.
  unfold count_words. intros Hlt. rewrite clean_script_unfold.
  destruct (Nat.ltb_spec 55 (length (split_ws (joined_lines s)))) as [_|Hle];
    [|lia].
  split; [reflexivity|]. split; [|apply endswith_app].
  rewrite split_ws_join_suffix.
  - rewrite length_firstn. lia.
  - intros E. apply (f_equal (@length (list N))) in E.
    rewrite length_firstn in E. cbn [length] in E. lia.
  - apply Forall_take. apply split_ws_words.
  - apply nospace_py_dots.
Qed.

Lemma clean_script_untouched (s : str) :
  count_words (joined_lines s) <= 55 -> _clean_script s = joined_lines s.
Proof.
  unfold count_words. intros Hle. rewrite clean_script_unfold.
  destruct (Nat.ltb_spec 55 (length (split_ws (joined_lines s)))) as [Hlt|_];
    [lia | reflexivity].
Qed.

Lemma fallback_candidate_count (parts : list str) :
  count_words (script (fallback_candidate parts)) <= 32.
Proof.
  unfold count_words, fallback_candidate. cbn [script].
  set (x := match parts with p0 :: _ => firstn 50 p0 | [] => _ end).
  assert (Hx : length (split_ws x) <= 25).
  { subst x. destruct parts as [|p0 parts]; [vm_compute; lia|].
    pose proof (split_ws_length_bound (firstn 50 p0)) as H.
    pose proof (firstn_le_length 50 p0) as H1. rewrite length_firstn in H. lia. }
  pose proof (split_ws_app_le (py "Check out ")
                (x ++ py "... Click to learn more!")) as H1.
  pose proof (split_ws_app_le x (py "... Click to learn more!")) as H2.
  change (length (split_ws (py "Check out "))) with 2 in H1.
  change (length (split_ws (py "... Click to learn more!"))) with 5 in H2.
  lia.
Qed.

End ScriptWriterFacts.

Section ScriptWriterClaims.

Import ScriptWriter.

(** C1. Whatever text the provider replies with, the empty string
    included, [generate_pitch_scripts] (called for 3 options) returns a
    list of exactly 3 candidates: the candidates parsed from the first
    segments that the marker split or, failing that, the blank-line split
    yields, and the templated fallback candidate in each slot that is
    left. *)
Theorem generate_pitch_scripts_returns_three
  (p : provider_name) (call : provider_name -> str -> provider_reply)
  (link_url link_title scraped_content : str)
  (user_business_context : option str) (reply_text : str) :
  call p (_build_multiple_scripts_prompt link_url link_title scraped_content
            user_business_context 3) = ReplyText reply_text ->
  let parts := parse_parts (strip reply_text) 3 in
  let parsed := List.map parsed_candidate (firstn 3 parts) in
  exists scripts,
    generate_pitch_scripts (Some p) call link_url link_title scraped_content
      user_business_context 3 = Return scripts
    /\ length scripts = 3
    /\ scripts = parsed ++ repeat (fallback_candidate parts) (3 - length parsed).
Proof.
  intros Hcall parts parsed.
  exists (_parse_multiple_scripts (strip reply_text) 3). repeat split.
  - unfold generate_pitch_scripts, _generate_multi. rewrite Hcall. reflexivity.
  - apply (parse_multiple_scripts_length (strip reply_text) 3).
  - apply (parse_multiple_scripts_shape (strip reply_text) 3).
Qed.

Lemma generate_pitch_scripts_returns_three_witness :
  exists scripts,
    generate_pitch_scripts (Some openai) (fun _ _ => ReplyText [])
      (py "https://example.com") (py "Example") [] None 3 = Return scripts
    /\ length scripts = 3
    /\ scripts = repeat (fallback_candidate []) 3.
Proof.
  apply (generate_pitch_scripts_returns_three openai
           (fun _ _ => ReplyText []) (py "https://example.com") (py "Example")
           [] None []).
  reflexivity.
Defined.

(** C2, at the empty provider reply: the three entries returned are the
    padded fallback candidate, whose [word_count] is the constant 10 while
    its [script] splits into 9 words.  A parsed candidate, in contrast,
    carries the count of its own words. *)
Theorem fallback_word_count_differs :
  let fb := {| script := py "Check out this amazing offer... Click to learn more!";
               word_count := 10 |} in
  generate_pitch_scripts (Some openai) (fun _ _ => ReplyText [])
    (py "https://example.com") (py "Example") [] None 3 = Return [fb; fb; fb]
  /\ count_words (script fb) = 9
  /\ word_count fb <> Z.of_nat (count_words (script fb))
  /\ (forall script_text,
        word_count (parsed_candidate script_text)
        = Z.of_nat (count_words (script (parsed_candidate script_text)))).
Proof.
  intros fb. split; [reflexivity|]. split; [reflexivity|].
  split; [|reflexivity]. vm_compute. discriminate.
Qed.

(** C10. Every candidate that [generate_pitch_scripts] returns has at most
    55 words.  A cleaned script of more than 55 words is cut to its first
    50 words with "..." appended; one of at most 55 words, so also one of
    51 to 55 words, is returned as it is (a reply of 53 words gives a
    candidate of 53 words); the fallback candidate has at most 32 words. *)
Theorem script_candidates_at_most_55_words :
  (forall provider call link_url link_title scraped_content
          user_business_context,
      match generate_pitch_scripts provider call link_url link_title
              scraped_content user_business_context 3 with
      | Return scripts =>
          Forall (fun c => count_words (script c) <= 55) scripts
      | ValueError _ => True
      end)
  /\ (forall s, 55 < count_words (joined_lines s) ->
        _clean_script s
        = join (py " ") (firstn 50 (split_ws (joined_lines s))) ++ py "..."
        /\ count_words (_clean_script s) = 50)
  /\ (forall s, count_words (joined_lines s) <= 55 ->
        _clean_script s = joined_lines s)
  /\ (let reply := join (py " ") (repeat (py "word") 53) in
      _parse_multiple_scripts reply 3
      = {| script := reply; word_count := 53 |}
          :: repeat (fallback_candidate [reply]) 2
      /\ count_words reply = 53)
  /\ (forall parts, count_words (script (fallback_candidate parts)) <= 32).
Proof.
  split; [|split; [|split; [|split]]].
  - intros provider call link_url link_title scraped_content ctx.
    unfold generate_pitch_scripts. destruct provider as [p|]; [|exact I].
    destruct (_generate_multi p call _) as [text|msg]; [|exact I].
    change (_parse_multiple_scripts text 3)
      with (_parse_multiple_scripts text (Z.of_nat 3)).
    rewrite (parse_multiple_scripts_shape text 3).
    apply Forall_app. split.
    + apply List.Forall_forall. intros c Hc. apply in_map_iff in Hc.
      destruct Hc as [t [<- _]]. apply clean_script_count.
    + apply List.Forall_forall. intros c Hc. apply repeat_spec in Hc. subst c.
      pose proof (fallback_candidate_count (parse_parts text (Z.of_nat 3))).
      lia.
  - intros s Hs. destruct (clean_script_truncated s Hs) as [H1 [H2 _]].
    split; assumption.
  - apply clean_script_untouched.
  - split; vm_compute; reflexivity.
  - apply fallback_candidate_count.
Qed.

Lemma script_candidates_at_most_55_words_witness :
  let s := join (py " ") (repeat (py "word") 60) in
  (_clean_script s = join (py " ") (repeat (py "word") 50) ++ py "..."
   /\ count_words (_clean_script s) = 50)
  /\ _clean_script (py "Buy it now") = py "Buy it now".
Proof.
  pose proof script_candidates_at_most_55_words as [_ [Hcut [Hkeep _]]].
  split.
  - apply (Hcut (join (py " ") (repeat (py "word") 60))). vm_compute. lia.
  - apply (Hkeep (py "Buy it now")). vm_compute. lia.
Defined.

End ScriptWriterClaims.

(** ** The content extractor *)

Section ScraperFacts.

Import Scraper.

Lemma make_preview_count (text : str) : count_words (make_preview text) <= 200.
Proof.
  unfold count_words, make_preview.
  destruct (Nat.ltb_spec 200 (length (split_ws text))) as [Hlt|Hle];
    [|exact Hle].
  rewrite split_ws_join_suffix.
  - rewrite length_firstn. lia.
  - intros E. apply (f_equal (@length (list N))) in E.
    rewrite length_firstn in E. cbn [length] in E. lia.
  - apply Forall_take. apply split_ws_words.
  - apply nospace_py_dots.
Qed.

Lemma make_preview_long (text : str) :
  200 < count_words text ->
  make_preview text = join (py " ") (firstn 200 (split_ws text)) ++ py "..."
  /\ endswith (py "...") (make_preview text) = true.
Proof.
  unfold count_words, make_preview. intros Hlt.
  destruct (Nat.ltb_spec 200 (length (split_ws text))) as [_|Hle]; [|lia].
  split; [reflexivity | apply endswith_app].
Qed.

Lemma make_preview_short (text : str) :
  count_words text <= 200 -> make_preview text = text.
Proof.
  unfold count_words, make_preview. intros Hle.
  destruct (Nat.ltb_spec 200 (length (split_ws text))) as [Hlt|_];
    [lia | reflexivity].
Qed.

Lemma scrape_page_content_fetched (fetch : str -> fetch_result) (url : str)
  (status_code : Z) (doc : Document) :
  fetch url = Response status_code doc ->
  raises_for_status status_code = false ->
  scrape_page_content fetch url
  = {| title := option_map strip (title_text doc);
       meta_description := option_map strip (meta_content doc);
       preview_text := Some (make_preview (clean_text (body_text doc)));
       full_content := Some (clean_text (body_text doc)) |}.
Proof.
  intros Hfetch Hstatus. unfold scrape_page_content.
  rewrite Hfetch, Hstatus. reflexivity.
Qed.

Lemma identify_link_type_first_match (lower : str -> str) (url : str)
  (c : PageContent) :
  identify_link_type lower url c
  = spec_first_match (spec_priority_rules lower url c) (py "website").
Proof.
  unfold identify_link_type, spec_priority_rules, spec_first_match.
  repeat match goal with
         | |- (if ?b then _ else _) = (if ?b then _ else _) =>
             destruct b; [reflexivity|]
         end.
  change (any_in [py "youtube.com"; py "vimeo.com"] (lower url))
    with (contains (py "youtube.com") (lower url)
          || (contains (py "vimeo.com") (lower url) || false)).
  rewrite orb_false_r. reflexivity.
Qed.

Lemma identify_link_type_in_enum (lower : str -> str) (url : str)
  (c : PageContent) :
  In (identify_link_type lower url c) link_types.
Proof.
  unfold identify_link_type, link_types.
  repeat match goal with
         | |- In (if ?b then _ else _) _ => destruct b
         end; cbn [List.map In]; tauto.
Qed.

End ScraperFacts.

Section ScraperClaims.

Import Scraper.

(** C4. For every URL and page content, [identify_link_type] returns one
    of the eight link types, namely the type of the first rule that
    matches in the order course, coaching, product, newsletter, blog,
    video, social, with website when none matches.  In particular a page
    whose combined lowercased text contains both "course" and "buy now"
    is a course and not a product. *)
Theorem identify_link_type_priority_order (lower : str -> str) (url : str)
  (c : PageContent) :
  In (identify_link_type lower url c) link_types
  /\ identify_link_type lower url c
     = spec_first_match (spec_priority_rules lower url c) (py "website")
  /\ List.map snd (spec_priority_rules lower url c) ++ [py "website"]
     = link_types
  /\ (contains (py "course") (combined_text lower url c) = true ->
      contains (py "buy now") (combined_text lower url c) = true ->
      identify_link_type lower url c = py "course"
      /\ identify_link_type lower url c <> py "product").
Proof.
  split; [apply identify_link_type_in_enum|].
  split; [apply identify_link_type_first_match|].
  split; [reflexivity|].
  intros Hcourse _. unfold identify_link_type.
  assert (H : any_in course_words (combined_text lower url c) = true).
  { unfold any_in, course_words. cbn [List.map existsb].
    rewrite Hcourse. reflexivity. }
  rewrite H. split; [reflexivity | discriminate].
Qed.

Lemma identify_link_type_priority_order_witness :
  let page := {| title := Some (py "Complete Python Course - Buy Now");
                 meta_description := None;
                 preview_text := None;
                 full_content := None |} in
  identify_link_type lower_ascii (py "https://shop.example.com") page
  = py "course"
  /\ identify_link_type lower_ascii (py "https://shop.example.com") page
     <> py "product".
Proof.
  intros page.
  apply (identify_link_type_priority_order lower_ascii
           (py "https://shop.example.com") page); reflexivity.
Defined.

(** C5, as amended.  For every fetched document the preview has at most
    200 words.  When the cleaned text has more than 200 words the preview
    is its first 200 words joined by single spaces with "..." appended, so
    it ends with the ellipsis; when the cleaned text has at most 200 words
    the preview is the cleaned text itself, and then it ends with an
    ellipsis exactly when that text does. *)
Theorem preview_text_first_200_words (fetch : str -> fetch_result)
  (url : str) (status_code : Z) (doc : Document) :
  fetch url = Response status_code doc ->
  raises_for_status status_code = false ->
  exists text preview,
    full_content (scrape_page_content fetch url) = Some text
    /\ preview_text (scrape_page_content fetch url) = Some preview
    /\ text = clean_text (body_text doc)
    /\ count_words preview <= 200
    /\ (200 < count_words text ->
        preview = join (py " ") (firstn 200 (split_ws text)) ++ py "..."
        /\ endswith (py "...") preview = true)
    /\ (count_words text <= 200 -> preview = text).
Proof.
  intros Hfetch Hstatus.
  rewrite (scrape_page_content_fetched fetch url status_code doc Hfetch Hstatus).
  exists (clean_text (body_text doc)), (make_preview (clean_text (body_text doc))).
  cbn [full_content preview_text].
  repeat split; try reflexivity.
  - apply make_preview_count.
  - apply make_preview_long; assumption.
  - apply make_preview_long; assumption.
  - apply make_preview_short.
Qed.

Lemma preview_text_first_200_words_witness :
  let doc := {| title_text := Some (py "Example Domain");
                meta_content := None;
                body_text := py "  Example Domain  This domain is for use in examples. " |} in
  exists text preview,
    full_content (scrape_page_content (fun _ => Response 200 doc)
                    (py "https://example.com")) = Some text
    /\ preview_text (scrape_page_content (fun _ => Response 200 doc)
                       (py "https://example.com")) = Some preview
    /\ text = py "Example Domain This domain is for use in examples."
    /\ count_words preview <= 200
    /\ (200 < count_words text ->
        preview = join (py " ") (firstn 200 (split_ws text)) ++ py "..."
        /\ endswith (py "...") preview = true)
    /\ (count_words text <= 200 -> preview = text).
Proof.
  intros doc.
  apply (preview_text_first_200_words (fun _ => Response 200 doc)
           (py "https://example.com") 200 doc); reflexivity.
Defined.

(** C5 as stated fails from right to left: a page whose whole text is the
    one word "wait..." gets a preview that ends with an ellipsis although
    the text has not more than 200 words. *)
Lemma preview_ellipsis_without_truncation :
  let doc := {| title_text := None; meta_content := None;
                body_text := py "wait..." |} in
  let page := scrape_page_content (fun _ => Response 200 doc)
                (py "https://example.com") in
  full_content page = Some (py "wait...")
  /\ preview_text page = Some (py "wait...")
  /\ ~ (endswith (py "...") (py "wait...") = true
        <-> 200 < count_words (py "wait...")).
Proof.
  intros doc page. split; [reflexivity|]. split; [reflexivity|].
  intros [H _]. specialize (H eq_refl). vm_compute in H. lia.
Qed.




End ScraperClaims.

(** ** The pipeline handlers *)

Section AppFacts.

Import VoiceClone App.

Lemma link_voices_path_inj (link_id : Z) (t1 t2 : str) :
  link_voices_path link_id t1 = link_voices_path link_id t2 -> t1 = t2.
Proof.
  unfold link_voices_path, audio_filename. intros H.
  repeat apply app_inv_head in H. apply app_inv_tail in H. exact H.
Qed.

Lemma link_voices_path_truthy (link_id : Z) (t : str) :
  truthy (link_voices_path link_id t) = true.
Proof. reflexivity. Qed.

(** A call that answers [Ok]: what it read, wrote and did. *)
Lemma generate_audio_for_link_ok (env : Env) (w w' : World) (link_id : Z)
  (trace : list effect) (p : str) :
  generate_audio_for_link env w link_id = (w', trace, Ok p) ->
  exists link user text written,
    links w !! link_id = Some link
    /\ users w !! user_id link = Some user
    /\ voice_message_text link = Some text
    /\ p = link_voices_path link_id (timestamp env)
    /\ w' = commit_link
              (with_files w
                 (fst (delete_old_audio env link (<[p := written]> (files w)))))
              link_id (set_audio link p text)
    /\ trace = [SynthesisRun p true; FileChecked p]
               ++ snd (delete_old_audio env link (<[p := written]> (files w)))
               ++ [AudioPathSet link_id p; Committed].
Proof.
  unfold generate_audio_for_link.
  destruct (otruthy (elevenlabs_api_key env)) eqn:Hkey; cbn [negb];
    [|discriminate].
  destruct (links w !! link_id) as [link|] eqn:Hlink; [|discriminate].
  destruct (users w !! user_id link) as [user|] eqn:Huser; [|discriminate].
  destruct (otruthy (voice_clone_id user)); cbn [negb]; [|discriminate].
  destruct (voice_message_text link) as [text|] eqn:Htext;
    cbn [otruthy negb or_empty]; [|discriminate].
  destruct (truthy text); cbn [negb orb]; [|discriminate].
  destruct (length (strip text) =? 0); [discriminate|].
  unfold generate_voice_audio, generate_audio. rewrite Hkey.
  destruct (text_to_speech env _ text) as [|status_code chunks stream_breaks];
    cbn [negb]; [discriminate|].
  destruct (status_code =? 200)%Z; cbn [negb]; [|discriminate].
  destruct stream_breaks; cbn [negb]; [discriminate|].
  rewrite lookup_insert_eq.
  destruct (delete_old_audio env link _) as [fs2 deletion] eqn:Hdel.
  intros H. injection H as <- <- <-.
  exists link, user, text, (List.concat (List.filter nonempty chunks)).
  rewrite Hdel. cbn [fst snd]. repeat split; first [assumption | reflexivity].
Qed.

(** A call that does not answer [Ok] commits nothing. *)
Lemma generate_audio_for_link_failure (env : Env) (w : World) (link_id : Z) :
  (forall p, snd (generate_audio_for_link env w link_id) <> Ok p) ->
  links (fst (fst (generate_audio_for_link env w link_id))) = links w
  /\ users (fst (fst (generate_audio_for_link env w link_id))) = users w
  /\ existsb persists (snd (fst (generate_audio_for_link env w link_id)))
     = false.
Proof.
  unfold generate_audio_for_link.
  destruct (otruthy (elevenlabs_api_key env)); cbn [negb];
    [|intros _; repeat split].
  destruct (links w !! link_id) as [link|]; [|intros _; repeat split].
  destruct (users w !! user_id link) as [user|]; [|intros _; repeat split].
  destruct (otruthy (voice_clone_id user)); cbn [negb];
    [|intros _; repeat split].
  destruct (otruthy (voice_message_text link)); cbn [negb];
    [|intros _; repeat split].
  destruct (negb (truthy _) || _); [intros _; repeat split|].
  destruct (generate_voice_audio _ _ _ _ _ _) as [fs1 success].
  destruct success; cbn [negb]; [|intros _; repeat split].
  destruct (fs1 !! _); [|intros _; repeat split].
  destruct (delete_old_audio env link fs1) as [fs2 deletion].
  cbn [fst snd]. intros H. exfalso. eapply H. reflexivity.
Qed.

End AppFacts.

Section AppClaims.

Import VoiceClone App.

(** C3, evaluated.  A link without generated scripts holds a custom
    selection; the request [{script_type: "brief"}] overwrites both
    [selected_script] and [voice_message_text] with the unset
    [script_brief], commits, and then ends in the [TypeError] of
    [len(None)] instead of an error response of the handler. *)
Theorem select_brief_without_scripts :
  let link := {| user_id := 7;
                 script_brief := None;
                 script_standard := None;
                 script_conversational := None;
                 selected_script := Some (py "My own pitch");
                 voice_message_text := Some (py "My own pitch");
                 voice_message_audio := None |} in
  let w := {| links := {[ 1%Z := link ]}; users := ∅; files := ∅ |} in
  let request := {| script_type := Some (py "brief");
                    custom_text := None; script := None |} in
  snd (select_script_for_link w 1 request)
  = Unhandled (py "TypeError: object of type 'NoneType' has no len()")
  /\ links (fst (select_script_for_link w 1 request)) !! 1%Z
     = Some (set_selection link None)
  /\ selected_script (set_selection link None) = None
  /\ voice_message_text (set_selection link None) = None.
Proof.
  intros link w request. repeat split.
Qed.

(** C9. With a link that exists, a request that supplies [script] (a
    non-empty text) selects it whatever [custom_text] and [script_type]
    are, and a request without [script] that supplies [custom_text]
    selects that whatever [script_type] is; the selected text is the
    response and is stored in both [selected_script] and
    [voice_message_text]. *)
Theorem select_script_precedence (w : World) (link_id : Z) (link : Link)
  (request : SelectRequest) (text : str) :
  links w !! link_id = Some link ->
  text <> [] ->
  (script request = Some text -> selection_saved w link_id request text)
  /\ (otruthy (script request) = false ->
      custom_text request = Some text ->
      selection_saved w link_id request text).
Proof.
  intros Hlink Htext.
  assert (Htruthy : truthy text = true).
  { destruct text; [exfalso; apply Htext; reflexivity | reflexivity]. }
  split.
  - intros Hscript. unfold selection_saved, select_script_for_link.
    rewrite Hlink. unfold assign_selection. rewrite Hscript.
    cbn [otruthy]. rewrite Htruthy. cbn [negb]. rewrite !andb_false_r.
    cbn [set_selection selected_script fst snd commit_link links].
    split; [reflexivity|]. eexists. split; [apply lookup_insert_eq|].
    split; reflexivity.
  - intros Hnoscript Hcustom. unfold selection_saved, select_script_for_link.
    rewrite Hlink. unfold assign_selection. rewrite Hnoscript, Hcustom.
    cbn [otruthy]. rewrite Htruthy. cbn [negb]. rewrite andb_false_r.
    cbn [andb set_selection selected_script fst snd commit_link links].
    split; [reflexivity|]. eexists. split; [apply lookup_insert_eq|].
    split; reflexivity.
Qed.

Lemma select_script_precedence_witness :
  let link := {| user_id := 7;
                 script_brief := Some (py "Brief pitch");
                 script_standard := Some (py "Standard pitch");
                 script_conversational := Some (py "Chatty pitch");
                 selected_script := None;
                 voice_message_text := None;
                 voice_message_audio := None |} in
  let w := {| links := {[ 1%Z := link ]}; users := ∅; files := ∅ |} in
  selection_saved w 1
    {| script_type := Some (py "brief");
       custom_text := Some (py "Edited pitch");
       script := Some (py "Wizard pitch") |} (py "Wizard pitch")
  /\ selection_saved w 1
       {| script_type := Some (py "brief");
          custom_text := Some (py "Edited pitch");
          script := None |} (py "Edited pitch").
Proof.
  intros link w. split.
  - refine (proj1 (select_script_precedence w 1 link
                     {| script_type := Some (py "brief");
                        custom_text := Some (py "Edited pitch");
                        script := Some (py "Wizard pitch") |}
                     (py "Wizard pitch") _ _) _).
    + apply lookup_singleton_eq.
    + discriminate.
    + reflexivity.
  - refine (proj2 (select_script_precedence w 1 link
                     {| script_type := Some (py "brief");
                        custom_text := Some (py "Edited pitch");
                        script := None |}
                     (py "Edited pitch") _ _) _ _).
    + apply lookup_singleton_eq.
    + discriminate.
    + reflexivity.
    + reflexivity.
Defined.

End AppClaims.

Section AudioClaims.

Import VoiceClone App.

(** C6, as amended.  When the synthesis fails (the request fails, the status
    is not 200, so in particular not a 2xx one, or the body cannot be read
    to its end) and the checks before it pass, the handler answers with the
    500 "Failed to generate audio" and the stored links are untouched.
    Every call that does not answer [Ok], the one that finds the output
    file missing included, leaves the stored links untouched and sets no
    path.  A call that answers [Ok] sets the path and commits only after
    the synthesis has returned success and the file has been found, with
    nothing but the deletion of the old file in between. *)
Theorem failed_synthesis_leaves_link_untouched (env : Env) (w : World)
  (link_id : Z) :
  (forall link user text,
      links w !! link_id = Some link ->
      users w !! user_id link = Some user ->
      otruthy (elevenlabs_api_key env) = true ->
      otruthy (voice_clone_id user) = true ->
      voice_message_text link = Some text ->
      strip text <> [] ->
      synthesis_fails
        (text_to_speech env (or_empty (voice_clone_id user)) text) ->
      snd (generate_audio_for_link env w link_id)
      = HTTPException 500
          (py "Failed to generate audio. Please check your voice clone and try again.")
      /\ links (fst (fst (generate_audio_for_link env w link_id))) = links w)
  /\ ((forall p, snd (generate_audio_for_link env w link_id) <> Ok p) ->
      links (fst (fst (generate_audio_for_link env w link_id))) = links w
      /\ existsb persists (snd (fst (generate_audio_for_link env w link_id)))
         = false)
  /\ (forall w' trace p,
        generate_audio_for_link env w link_id = (w', trace, Ok p) ->
        exists deletion,
          trace = [SynthesisRun p true; FileChecked p] ++ deletion
                  ++ [AudioPathSet link_id p; Committed]
          /\ existsb persists deletion = false).
Proof.
  split; [|split].
  - intros link user text Hlink Huser Hkey Hvoice Htext Hstrip Hfail.
    assert (Htruthy : truthy text = true).
    { destruct text; [exfalso; apply Hstrip; reflexivity | reflexivity]. }
    assert (Hlen : (length (strip text) =? 0) = false).
    { destruct (strip text); [exfalso; apply Hstrip; reflexivity | reflexivity]. }
    unfold generate_audio_for_link.
    rewrite Hkey, Hlink, Huser, Hvoice, Htext. cbn [negb otruthy or_empty].
    rewrite Htruthy, Hlen. cbn [negb orb].
    unfold generate_voice_audio, generate_audio. rewrite Hkey.
    destruct (text_to_speech env _ text) as [|status_code chunks stream_breaks];
      [split; reflexivity|].
    destruct (Z.eqb_spec status_code 200) as [->|Hne];
      [|split; reflexivity].
    destruct Hfail as [Hne | ->]; [congruence | split; reflexivity].
  - intros Hfail.
    destruct (generate_audio_for_link_failure env w link_id Hfail)
      as [H1 [_ H2]].
    split; assumption.
  - intros w' trace p Hok.
    destruct (generate_audio_for_link_ok env w w' link_id trace p Hok)
      as [link [user [text [written [_ [_ [_ [_ [_ Htrace]]]]]]]]].
    eexists. split; [exact Htrace|].
    unfold delete_old_audio.
    destruct (voice_message_audio link) as [old|]; [|reflexivity].
    destruct (truthy old); [|reflexivity].
    destruct (_ !! old); [|reflexivity].
    destruct (unlink_fails env old); reflexivity.
Qed.

Lemma failed_synthesis_leaves_link_untouched_witness :
  let env := demo_env "1700000100.25" (TTSResponse 503 [] false) false in
  snd (generate_audio_for_link env demo_world 1)
  = HTTPException 500
      (py "Failed to generate audio. Please check your voice clone and try again.")
  /\ links (fst (fst (generate_audio_for_link env demo_world 1)))
     = links demo_world.
Proof.
  intros env.
  refine (proj1 (failed_synthesis_leaves_link_untouched env demo_world 1)
            demo_link {| voice_clone_id := Some (py "voice-abc") |}
            (py "Join my free course today") _ _ _ _ _ _ _).
  - apply lookup_singleton_eq.
  - apply lookup_singleton_eq.
  - reflexivity.
  - reflexivity.
  - reflexivity.
  - vm_compute. discriminate.
  - left. discriminate.
Defined.

(** C6 as stated fails for the empty body: a 200 response without any byte
    is no failure for the handler, which answers [Ok], deletes the old
    audio and stores the path of the new, empty file. *)
Lemma empty_body_is_persisted :
  let env := demo_env "1700000100.25" (TTSResponse 200 [] false) false in
  let new_path := py "link_voices/link_1_1700000100.25.mp3" in
  let w' := fst (fst (generate_audio_for_link env demo_world 1)) in
  snd (generate_audio_for_link env demo_world 1) = Ok new_path
  /\ files w' !! new_path = Some []
  /\ (voice_message_audio <$> links w' !! 1%Z) = Some (Some new_path)
  /\ (voice_message_audio <$> links demo_world !! 1%Z)
     = Some (Some (py "link_voices/link_1_1700000000.5.mp3")).
Proof. vm_compute. repeat split. Qed.

End AudioClaims.

Section ResynthesisClaims.

Import VoiceClone App.

Lemma delete_old_audio_other (env : Env) (link : Link)
  (fs : gmap (list N) (list byte)) (old p : str) :
  voice_message_audio link = Some old -> old <> p ->
  fst (delete_old_audio env link fs) !! p = fs !! p.
Proof.
  intros Hold Hne. unfold delete_old_audio. rewrite Hold.
  destruct (truthy old); [|reflexivity].
  destruct (fs !! old); [|reflexivity].
  destruct (unlink_fails env old); [reflexivity|].
  cbn [fst]. apply lookup_delete_ne. exact Hne.
Qed.

Lemma delete_old_audio_old (env : Env) (link : Link)
  (fs : gmap (list N) (list byte)) (old : str) :
  voice_message_audio link = Some old -> truthy old = true ->
  (unlink_fails env old = false ->
   fst (delete_old_audio env link fs) !! old = None)
  /\ (unlink_fails env old = true -> fst (delete_old_audio env link fs) = fs)
  /\ (is_Some (fs !! old) ->
      snd (delete_old_audio env link fs)
      = [if unlink_fails env old then DeleteFailed old else FileDeleted old]).
Proof.
  intros Hold Htruthy. unfold delete_old_audio. rewrite Hold, Htruthy.
  destruct (fs !! old) as [data|] eqn:Hfs.
  - destruct (unlink_fails env old).
    + split; [discriminate|]. split; reflexivity.
    + split; [intros _; cbn [fst]; apply lookup_delete_eq|].
      split; [discriminate | reflexivity].
  - split; [intros _; exact Hfs|]. split; [reflexivity|].
    intros [data' Hdata]. discriminate.
Qed.

(** C7, as amended.  Two successive calls that both answer [Ok], made at
    different timestamps, leave the link with the path of the second call
    and no other, and that file exists.  The file of the first call is
    gone when its deletion succeeds; when the deletion raises, the handler
    goes on and the file stays on disk, no longer referenced.  The new path
    is written to the link after the deletion of the old file was tried;
    the old reference is overwritten, not cleared beforehand. *)
Theorem resynthesis_replaces_audio (env1 env2 : Env) (w0 w1 w2 : World)
  (link_id : Z) (t1 t2 : list effect) (p1 p2 : str) :
  generate_audio_for_link env1 w0 link_id = (w1, t1, Ok p1) ->
  generate_audio_for_link env2 w1 link_id = (w2, t2, Ok p2) ->
  timestamp env1 <> timestamp env2 ->
  p1 <> p2
  /\ (voice_message_audio <$> links w1 !! link_id) = Some (Some p1)
  /\ (voice_message_audio <$> links w2 !! link_id) = Some (Some p2)
  /\ is_Some (files w2 !! p2)
  /\ (unlink_fails env2 p1 = false -> files w2 !! p1 = None)
  /\ (unlink_fails env2 p1 = true -> files w2 !! p1 = files w1 !! p1)
  /\ (is_Some (files w1 !! p1) ->
      t2 = [SynthesisRun p2 true; FileChecked p2;
            if unlink_fails env2 p1 then DeleteFailed p1 else FileDeleted p1;
            AudioPathSet link_id p2; Committed]).
Proof.
  intros Hcall1 Hcall2 Hts.
  destruct (generate_audio_for_link_ok _ _ _ _ _ _ Hcall1)
    as [link0 [user0 [text0 [written1 [_ [_ [_ [Hp1 [Hw1 _]]]]]]]]].
  destruct (generate_audio_for_link_ok _ _ _ _ _ _ Hcall2)
    as [link1 [user1 [text1 [written2 [Hlink1 [_ [_ [Hp2 [Hw2 Ht2]]]]]]]]].
  assert (Hne : p1 <> p2).
  { rewrite Hp1, Hp2. intros E. apply Hts.
    apply (link_voices_path_inj link_id). exact E. }
  assert (Hstored : links w1 !! link_id = Some (set_audio link0 p1 text0)).
  { rewrite Hw1. cbn [links commit_link]. apply lookup_insert_eq. }
  rewrite Hstored in Hlink1. injection Hlink1 as <-.
  assert (Hold : voice_message_audio (set_audio link0 p1 text0) = Some p1)
    by reflexivity.
  assert (Htruthy : truthy p1 = true)
    by (rewrite Hp1; apply link_voices_path_truthy).
  destruct (delete_old_audio_old env2 (set_audio link0 p1 text0)
              (<[p2 := written2]> (files w1)) p1 Hold Htruthy)
    as [Hgone [Hkept Htrace]].
  split; [exact Hne|]. split; [rewrite Hstored; reflexivity|].
  split; [rewrite Hw2; cbn [links commit_link]; rewrite lookup_insert_eq;
          reflexivity|].
  split.
  { rewrite Hw2. cbn [files commit_link with_files].
    rewrite (delete_old_audio_other env2 _ _ p1 p2 Hold Hne).
    rewrite lookup_insert_eq. eexists. reflexivity. }
  split.
  { intros Hunlink. rewrite Hw2. cbn [files commit_link with_files].
    apply Hgone. exact Hunlink. }
  split.
  { intros Hunlink. rewrite Hw2. cbn [files commit_link with_files].
    rewrite (Hkept Hunlink). apply lookup_insert_ne. congruence. }
  intros Hexists. rewrite Ht2. rewrite Htrace; [reflexivity|].
  rewrite lookup_insert_ne by congruence. exact Hexists.
Qed.

Lemma resynthesis_replaces_audio_witness :
  let env1 := demo_env "1700000100.25" (TTSResponse 200 [[x49; x44]] false) false in
  let env2 := demo_env "1700000200.75" (TTSResponse 200 [[x33]] false) false in
  let r1 := generate_audio_for_link env1 demo_world 1 in
  let r2 := generate_audio_for_link env2 (fst (fst r1)) 1 in
  let p1 := py "link_voices/link_1_1700000100.25.mp3" in
  let p2 := py "link_voices/link_1_1700000200.75.mp3" in
  (voice_message_audio <$> links (fst (fst r2)) !! 1%Z) = Some (Some p2)
  /\ is_Some (files (fst (fst r2)) !! p2)
  /\ files (fst (fst r2)) !! p1 = None.
Proof.
  intros env1 env2 r1 r2 p1 p2.
  destruct (resynthesis_replaces_audio env1 env2 demo_world
              (fst (fst r1)) (fst (fst r2)) 1 (snd (fst r1)) (snd (fst r2))
              p1 p2)
    as [_ [_ [H2 [H3 [H4 _]]]]].
  - vm_compute. reflexivity.
  - vm_compute. reflexivity.
  - vm_compute. discriminate.
  - split; [exact H2|]. split; [exact H3|]. apply H4. reflexivity.
Defined.

(** C7 as stated fails when the deletion of the first file raises: both
    calls answer [Ok] and the link holds the second path, but the file of
    the first call is still in the audio directory. *)
Lemma first_audio_survives_failed_deletion :
  let env1 := demo_env "1700000100.25" (TTSResponse 200 [[x49; x44]] false) false in
  let env2 := demo_env "1700000200.75" (TTSResponse 200 [[x33]] false) true in
  let r1 := generate_audio_for_link env1 demo_world 1 in
  let r2 := generate_audio_for_link env2 (fst (fst r1)) 1 in
  let p1 := py "link_voices/link_1_1700000100.25.mp3" in
  let p2 := py "link_voices/link_1_1700000200.75.mp3" in
  snd r1 = Ok p1
  /\ snd r2 = Ok p2
  /\ (voice_message_audio <$> links (fst (fst r2)) !! 1%Z) = Some (Some p2)
  /\ files (fst (fst r2)) !! p1 = Some [x49; x44]
  /\ snd (fst r2) = [SynthesisRun p2 true; FileChecked p2; DeleteFailed p1;
                     AudioPathSet 1 p2; Committed].
Proof. vm_compute. repeat split. Qed.

End ResynthesisClaims.

(** ** Authentication *)

Section AuthFacts.

Import Auth.

(** The calls for an email that is already counted, within the window of
    its first attempt: the [k]-th of them passes when fewer than
    [max_attempts] attempts were counted before it. *)
Lemma check_rate_limit_run_counted (times : list Z)
  (m : gmap (list N) (Z * Z)) (e : str) (M W a t0 : Z) :
  m !! e = Some (a, t0) ->
  Forall (fun t => (t - t0 <= minutes W)%Z) times ->
  snd (check_rate_limit_run times m e M W)
  = List.map (fun k => (a + Z.of_nat k <? M)%Z) (seq 0 (length times)).
Proof.
  revert m a. induction times as [|t times IH]; intros m a Hm Hwin;
    [reflexivity|].
  inversion Hwin as [|? ? Ht Hwin']; subst.
  cbn [check_rate_limit_run]. unfold check_rate_limit at 1. rewrite Hm.
  destruct (Z.ltb_spec (minutes W) (t - t0)) as [Hexp|_]; [lia|].
  cbn [length seq List.map]. rewrite <- seq_shift, List.map_map.
  destruct (Z.leb_spec M a) as [Hfull|Hroom].
  - specialize (IH m a Hm Hwin').
    destruct (check_rate_limit_run times m e M W) as [m' oks].
    cbn [snd] in *. rewrite IH. f_equal.
    + symmetry. apply Z.ltb_ge. lia.
    + apply map_ext_in. intros k Hk.
      rewrite (proj2 (Z.ltb_ge _ _)) by lia.
      rewrite (proj2 (Z.ltb_ge _ _)) by lia. reflexivity.
  - specialize (IH (<[e := ((a + 1)%Z, t0)]> m) (a + 1)%Z
                  (lookup_insert_eq _ _ _) Hwin').
    destruct (check_rate_limit_run times _ e M W) as [m' oks].
    cbn [snd] in *. rewrite IH. f_equal.
    + symmetry. apply Z.ltb_lt. lia.
    + apply map_ext_in. intros k Hk. f_equal. lia.
Qed.

(** The calls for an email that is locked, within the window: all are
    refused and the table stays as it is. *)
Lemma check_rate_limit_run_locked (times : list Z)
  (m : gmap (list N) (Z * Z)) (e : str) (M W a t0 : Z) :
  m !! e = Some (a, t0) -> (M <= a)%Z ->
  Forall (fun t => (t - t0 <= minutes W)%Z) times ->
  check_rate_limit_run times m e M W = (m, repeat false (length times)).
Proof.
  intros Hm Hfull. induction times as [|t times IH]; intros Hwin;
    [reflexivity|].
  inversion Hwin as [|? ? Ht Hwin']; subst.
  cbn [check_rate_limit_run]. unfold check_rate_limit at 1. rewrite Hm.
  destruct (Z.ltb_spec (minutes W) (t - t0)) as [Hexp|_]; [lia|].
  destruct (Z.leb_spec M a) as [_|Hroom]; [|lia].
  rewrite (IH Hwin'). reflexivity.
Qed.

Lemma encode_utf8_app (a b : str) :
  encode_utf8 (a ++ b)
  = match encode_utf8 a, encode_utf8 b with
    | Some x, Some y => Some (x ++ y)
    | _, _ => None
    end.
Proof.
  induction a as [|c a IH]; simpl.
  - destruct (encode_utf8 b); reflexivity.
  - rewrite IH. destruct (utf8_char c) as [x|]; [|reflexivity].
    destruct (encode_utf8 a) as [xs|]; [|reflexivity].
    destruct (encode_utf8 b) as [ys|]; [|reflexivity].
    rewrite app_assoc. reflexivity.
Qed.

End AuthFacts.

Section AuthProperties.

Import Auth.

(** X1. For an email without an entry, of the attempts made within the
    window that the first one opens exactly the first [max_attempts] pass
    [check_rate_limit]: the attempt number [i] (from 0) is accepted when
    [i < max_attempts]. *)
Theorem rate_limit_passes_first_attempts
  (m : gmap (list N) (Z * Z)) (e : str) (M W t0 : Z) (times : list Z) :
  m !! e = None ->
  (1 <= M)%Z ->
  Forall (fun t => (t - t0 <= minutes W)%Z) times ->
  snd (check_rate_limit_run (t0 :: times) m e M W)
  = List.map (fun i => (Z.of_nat i <? M)%Z) (seq 0 (S (length times))).
Proof.
  intros Hnone HM Hwin.
  cbn [check_rate_limit_run]. unfold check_rate_limit at 1. rewrite Hnone.
  pose proof (check_rate_limit_run_counted times (<[e := (1%Z, t0)]> m) e M W
                1 t0 (lookup_insert_eq _ _ _) Hwin) as Hrun.
  destruct (check_rate_limit_run times _ e M W) as [m' oks].
  cbn [snd] in *. rewrite Hrun.
  cbn [seq List.map]. f_equal; [symmetry; apply Z.ltb_lt; lia|].
  rewrite <- seq_shift, List.map_map. apply map_ext_in. intros k _.
  f_equal. lia.
Qed.

Lemma rate_limit_passes_first_attempts_witness :
  snd (check_rate_limit_run [0; 1000000; 2000000; 3000000; 4000000;
                             5000000; 6000000]%Z ∅ (py "a@b.c") 5 15)
  = [true; true; true; true; true; false; false].
Proof.
  refine (rate_limit_passes_first_attempts ∅ (py "a@b.c") 5 15 0
            [1000000; 2000000; 3000000; 4000000; 5000000; 6000000]%Z _ _ _).
  - apply lookup_empty.
  - lia.
  - repeat constructor; unfold minutes; lia.
Defined.

(** X2. An email that is locked stays locked, and its entry untouched, for
    every attempt made until the window of its first attempt is over,
    however many they are; the first attempt after the window passes and
    starts a new count at 1. *)
Theorem rate_limit_lock_lasts_one_window
  (m : gmap (list N) (Z * Z)) (e : str) (M W a t0 t : Z) (times : list Z) :
  m !! e = Some (a, t0) ->
  (M <= a)%Z ->
  Forall (fun t' => (t' - t0 <= minutes W)%Z) times ->
  (minutes W < t - t0)%Z ->
  check_rate_limit_run (times ++ [t]) m e M W
  = (<[e := (1%Z, t)]> m, repeat false (length times) ++ [true]).
Proof.
  intros Hm Hfull Hwin Hexp.
  induction times as [|t' times IH].
  - cbn [app check_rate_limit_run]. unfold check_rate_limit. rewrite Hm.
    destruct (Z.ltb_spec (minutes W) (t - t0)); [reflexivity | lia].
  - inversion Hwin as [|? ? Ht Hwin']; subst.
    cbn [app check_rate_limit_run]. unfold check_rate_limit at 1. rewrite Hm.
    destruct (Z.ltb_spec (minutes W) (t' - t0)) as [?|_]; [lia|].
    destruct (Z.leb_spec M a) as [_|?]; [|lia].
    rewrite (IH Hwin'). reflexivity.
Qed.

Lemma rate_limit_lock_lasts_one_window_witness :
  check_rate_limit_run [100; 899000000; 900000001]%Z
    {[ py "a@b.c" := (5, 0)%Z ]} (py "a@b.c") 5 15
  = (<[py "a@b.c" := (1, 900000001)%Z]> {[ py "a@b.c" := (5, 0)%Z ]},
     [false; false; true]).
Proof.
  refine (rate_limit_lock_lasts_one_window {[ py "a@b.c" := (5, 0)%Z ]}
            (py "a@b.c") 5 15 5 0 900000001 [100; 899000000]%Z _ _ _ _).
  - apply lookup_singleton_eq.
  - lia.
  - repeat constructor; unfold minutes; lia.
  - unfold minutes. lia.
Defined.

(** X3. The limiter keeps emails apart: a check or a reset for one email
    leaves the entry of every other email as it was; and after a reset the
    next check of that email passes and counts 1. *)
Theorem rate_limit_is_per_email
  (m : gmap (list N) (Z * Z)) (e e' : str) (M W now : Z) :
  e <> e' ->
  fst (check_rate_limit now m e M W) !! e' = m !! e'
  /\ reset_rate_limit m e !! e' = m !! e'
  /\ reset_rate_limit m e !! e = None
  /\ check_rate_limit now (reset_rate_limit m e) e M W
     = (<[e := (1%Z, now)]> (reset_rate_limit m e), true).
Proof.
  intros Hne. repeat split.
  - unfold check_rate_limit. destruct (m !! e) as [[a f]|]; cbn [fst].
    + destruct (_ <? _)%Z; cbn [fst]; [apply lookup_insert_ne; exact Hne|].
      destruct (_ <=? _)%Z; cbn [fst]; [reflexivity|].
      apply lookup_insert_ne; exact Hne.
    + apply lookup_insert_ne; exact Hne.
  - apply lookup_delete_ne. exact Hne.
  - apply lookup_delete_eq.
  - unfold check_rate_limit, reset_rate_limit. rewrite lookup_delete_eq.
    reflexivity.
Qed.

Lemma rate_limit_is_per_email_witness :
  let m : gmap (list N) (Z * Z) :=
    {[ py "a@b.c" := (5, 0)%Z; py "x@y.z" := (2, 7)%Z ]} in
  fst (check_rate_limit 50 m (py "a@b.c") 5 15) !! py "x@y.z" = m !! py "x@y.z"
  /\ reset_rate_limit m (py "a@b.c") !! py "x@y.z" = m !! py "x@y.z"
  /\ reset_rate_limit m (py "a@b.c") !! py "a@b.c" = None
  /\ check_rate_limit 50 (reset_rate_limit m (py "a@b.c")) (py "a@b.c") 5 15
     = (<[py "a@b.c" := (1%Z, 50%Z)]> (reset_rate_limit m (py "a@b.c")), true).
Proof.
  intros m.
  apply (rate_limit_is_per_email m (py "a@b.c") (py "x@y.z") 5 15 50).
  discriminate.
Defined.

(** X4. [validate_password_strength] accepts a password exactly when it
    has between 8 and 128 characters, both bounds included, and contains
    a digit and a letter; it then returns no message.  A password of less
    than 8 characters is reported as too short whatever else it lacks. *)
Theorem password_strength_accepts (isdigit isalpha : N -> bool)
  (password : str) :
  (fst (validate_password_strength isdigit isalpha password) = true
   <-> 8 <= length password <= 128
       /\ existsb isdigit password = true
       /\ existsb isalpha password = true)
  /\ (fst (validate_password_strength isdigit isalpha password) = true ->
      snd (validate_password_strength isdigit isalpha password) = [])
  /\ (length password < 8 ->
      validate_password_strength isdigit isalpha password
      = (false, py "Password must be at least 8 characters long")).
Proof.
  unfold validate_password_strength.
  destruct (Nat.ltb_spec (length password) 8) as [Hs|Hs];
    [cbn [fst snd]; intuition (try discriminate; try lia)|].
  destruct (Nat.ltb_spec 128 (length password)) as [Hl|Hl];
    [cbn [fst snd]; intuition (try discriminate; try lia)|].
  destruct (existsb isdigit password); cbn [negb];
    [|cbn [fst snd]; intuition (try discriminate; try lia)].
  destruct (existsb isalpha password); cbn [negb];
    cbn [fst snd]; intuition (try discriminate; try lia).
Qed.

Lemma password_strength_accepts_witness :
  validate_password_strength (in_range 0x30 0x39) (in_range 0x61 0x7a)
    (py "abc12")
  = (false, py "Password must be at least 8 characters long").
Proof.
  apply (password_strength_accepts (in_range 0x30 0x39) (in_range 0x61 0x7a)
           (py "abc12")).
  vm_compute. lia.
Defined.

(** X5. [verify_password] looks at the first 72 bytes of the encoded
    password only: once a password fills 72 bytes, whatever is appended to
    it gives the same answer for every stored hash. *)
Theorem verify_password_ignores_past_72_bytes
  (checkpw : list N -> list N -> option bool)
  (password extra hashed : str) (encoded encoded_extra : list N) :
  encode_utf8 password = Some encoded ->
  encode_utf8 extra = Some encoded_extra ->
  72 <= length encoded ->
  verify_password checkpw (password ++ extra) hashed
  = verify_password checkpw password hashed.
Proof.
  intros Hp He Hlen. unfold verify_password.
  rewrite encode_utf8_app, Hp, He.
  destruct (encode_utf8 hashed); [|reflexivity].
  rewrite firstn_app. replace (72 - length encoded) with 0 by lia.
  rewrite firstn_O, app_nil_r. reflexivity.
Qed.

Lemma verify_password_ignores_past_72_bytes_witness :
  let checkpw := fun pw h : list N => Some (bool_decide (pw = h)) in
  verify_password checkpw (repeat 0x61%N 72 ++ py "-2024") (py "stored")
  = verify_password checkpw (repeat 0x61%N 72) (py "stored").
Proof.
  intros checkpw.
  refine (verify_password_ignores_past_72_bytes checkpw (repeat 0x61%N 72)
            (py "-2024") (py "stored") (repeat 0x61%N 72) (py "-2024") _ _ _).
  - reflexivity.
  - reflexivity.
  - vm_compute. lia.
Defined.

(** X6. Reading the cookie that [set_auth_cookie] wrote gives the user
    that the token names, for every token: the "Bearer " put in front is
    taken off again.  Once [clear_auth_cookie] has run, nobody is
    found. *)
Theorem auth_cookie_round_trip
  (decode_access_token : str -> option (option str))
  (cookies : gmap (list N) (list N)) (token : str) (users : list Account) :
  get_current_user_from_cookie decode_access_token
    (set_auth_cookie cookies token) users
  = match decode_access_token token with
    | None => None
    | Some sub =>
        if otruthy sub then user_by_username users (or_empty sub) else None
    end
  /\ get_current_user_from_cookie decode_access_token
       (clear_auth_cookie (set_auth_cookie cookies token)) users = None.
Proof.
  unfold get_current_user_from_cookie, set_auth_cookie, clear_auth_cookie.
  split.
  - rewrite lookup_insert_eq.
    change (truthy (py "Bearer " ++ token)) with true. cbn [negb].
    rewrite startswith_app.
    change (skipn 7 (py "Bearer " ++ token)) with token.
    destruct (decode_access_token token) as [sub|]; [|reflexivity].
    destruct (otruthy sub); reflexivity.
  - rewrite lookup_delete_eq. reflexivity.
Qed.

End AuthProperties.

Section AuthRoutesFacts.

Import Auth App AuthRoutes.

Lemma py_inj (s1 s2 : string) : py s1 = py s2 -> s1 = s2.
Proof.
  unfold py. intros H.
  rewrite <- (string_of_list_ascii_of_string s1).
  rewrite <- (string_of_list_ascii_of_string s2). f_equal.
  revert H. generalize (list_ascii_of_string s1) (list_ascii_of_string s2).
  induction l as [|a l IH]; intros [|b l'] H; try discriminate; [reflexivity|].
  injection H as Hab Hl. f_equal; [|apply IH; exact Hl].
  rewrite <- (ascii_N_embedding a), <- (ascii_N_embedding b), Hab.
  reflexivity.
Qed.

Lemma to_int_not_nil (z : Z) :
  Z.to_int z <> Decimal.Pos Decimal.Nil /\ Z.to_int z <> Decimal.Neg Decimal.Nil.
Proof.
  pose proof (DecimalZ.to_of (Z.to_int z)) as H.
  rewrite DecimalZ.of_to in H.
  split; intros E; rewrite E in H; discriminate.
Qed.

Lemma str_of_int_inj (a b : Z) : str_of_int a = str_of_int b -> a = b.
Proof.
  unfold str_of_int. intros H. apply py_inj in H.
  apply (f_equal NilZero.int_of_string) in H.
  destruct (to_int_not_nil a) as [Ha1 Ha2].
  destruct (to_int_not_nil b) as [Hb1 Hb2].
  rewrite !NilZero.isi in H by assumption.
  injection H as H. apply DecimalZ.to_int_inj. exact H.
Qed.

Lemma str_of_int_not_empty (a : Z) : str_of_int a <> [].
Proof.
  unfold str_of_int. intros H.
  change (@nil N) with (py "") in H. apply py_inj in H.
  apply (f_equal NilZero.int_of_string) in H.
  destruct (to_int_not_nil a) as [Ha1 Ha2].
  rewrite NilZero.isi in H by assumption. discriminate.
Qed.

Lemma candidate_inj (base : str) (i j : nat) :
  candidate base i = candidate base j -> i = j.
Proof.
  destruct i as [|i], j as [|j]; cbn [candidate]; intros H.
  - reflexivity.
  - exfalso. rewrite <- (app_nil_r base) in H at 1.
    apply app_inv_head in H. symmetry in H.
    exact (str_of_int_not_empty _ H).
  - exfalso. rewrite <- (app_nil_r base) in H at 2.
    apply app_inv_head in H. exact (str_of_int_not_empty _ H).
  - apply app_inv_head in H. apply str_of_int_inj in H. lia.
Qed.

Lemma user_by_username_taken (users : list Account) (name : str) :
  user_by_username users name <> None <-> In name (List.map username users).
Proof.
  unfold user_by_username. induction users as [|u users IH]; cbn.
  - split; [congruence | tauto].
  - destruct (bool_decide_reflect (username u = name)) as [E|E].
    + split; [intros _; left; exact E | discriminate].
    + rewrite IH. split; [tauto | intros [?|?]; [congruence | assumption]].
Qed.

(** The search from the [i]-th candidate: it either stops at a free
    candidate, all earlier ones being taken, or uses up its fuel on
    candidates that are all taken. *)
Lemma find_username_from (fuel : nat) (users : list Account) (base : str)
  (i : nat) :
  match find_username fuel users base (candidate base i) (Z.of_nat i + 2) with
  | Some u =>
      exists j, i <= j < i + fuel /\ u = candidate base j
                /\ user_by_username users u = None
                /\ (forall k, i <= k < j ->
                      user_by_username users (candidate base k) <> None)
  | None =>
      forall k, i <= k < i + fuel ->
        user_by_username users (candidate base k) <> None
  end.
Proof.
  revert i. induction fuel as [|fuel IH]; intros i; cbn [find_username].
  - intros k Hk. lia.
  - destruct (user_by_username users (candidate base i)) as [u|] eqn:Hi.
    + specialize (IH (S i)).
      replace (Z.of_nat i + 2 + 1)%Z with (Z.of_nat (S i) + 2)%Z by lia.
      replace (base ++ str_of_int (Z.of_nat i + 2))
        with (candidate base (S i))
        by (cbn [candidate]; do 2 f_equal; lia).
      destruct (find_username fuel users base _ _) as [v|].
      * destruct IH as [j [Hj [Hv [Hfree Hbefore]]]].
        exists j. split; [lia|]. split; [assumption|].
        split; [assumption|].
        intros k Hk. destruct (Nat.eq_dec k i) as [->|Hne];
          [rewrite Hi; discriminate | apply Hbefore; lia].
      * intros k Hk. destruct (Nat.eq_dec k i) as [->|Hne];
          [rewrite Hi; discriminate | apply IH; lia].
    + exists i. split; [lia|]. split; [reflexivity|].
      split; [assumption|]. intros k Hk. lia.
Qed.

(** With one query more than there are users the search finds a name. *)
Lemma find_username_finds (users : list Account) (base : str) :
  exists j, j <= length users
    /\ find_username (S (length users)) users base base 2
       = Some (candidate base j)
    /\ user_by_username users (candidate base j) = None
    /\ (forall k, k < j -> user_by_username users (candidate base k) <> None).
Proof.
  pose proof (find_username_from (S (length users)) users base 0) as H.
  change (candidate base 0) with base in H.
  change (Z.of_nat 0 + 2)%Z with 2%Z in H.
  destruct (find_username (S (length users)) users base base 2) as [u|].
  - destruct H as [j [Hj [-> [Hfree Hbefore]]]].
    exists j. split; [lia|]. split; [reflexivity|].
    split; [assumption|]. intros k Hk. apply Hbefore. lia.
  - exfalso.
    assert (Hincl : incl (List.map (candidate base) (seq 0 (S (length users))))
                         (List.map username users)).
    { intros name Hname. apply in_map_iff in Hname.
      destruct Hname as [k [<- Hk]]. apply in_seq in Hk.
      apply user_by_username_taken. apply H. lia. }
    assert (Hnodup : List.NoDup (List.map (candidate base)
                                   (seq 0 (S (length users))))).
    { apply Finite.Injective_map_NoDup; [|apply seq_NoDup].
      intros a b. apply candidate_inj. }
    pose proof (List.NoDup_incl_length Hnodup Hincl) as Hlen.
    rewrite !length_map, length_seq in Hlen. lia.
Qed.

End AuthRoutesFacts.

Section AuthRoutesProperties.

Import Auth App AuthRoutes.

Variable checkpw : list N -> list N -> option bool.
Variable hashpw : list N -> str.
Variable encode_error_text : str -> str.
Variable create_access_token : str -> str.
Variable lower : str -> str.
Variables isalnum isdigit isalpha : N -> bool.

(** X7. While an email is locked (5 attempts counted, the first of them
    at most 15 minutes ago), [login] answers 429 for every password, the
    right one included: the password is not looked at, and nothing in the
    state changes. *)
Theorem login_locked_out_before_password_check (now_utc now_local : Z)
  (st : AuthState) (email_ password : str) (remember_me : bool)
  (attempts first_attempt : Z) :
  login_attempts st !! email_ = Some (attempts, first_attempt) ->
  (5 <= attempts)%Z ->
  (now_utc - first_attempt <= minutes 15)%Z ->
  login checkpw create_access_token now_utc now_local st email_ password
    remember_me
  = (st, HTTPException 429
           (py "Too many login attempts. Please try again in 15 minutes.")).
Proof.
  intros Hentry Hfull Hwin. unfold login, check_rate_limit. rewrite Hentry.
  destruct (Z.ltb_spec (minutes 15) (now_utc - first_attempt)); [lia|].
  destruct (Z.leb_spec 5 attempts); [|lia].
  cbn [negb]. destruct st; reflexivity.
Qed.


(** X9. [signup] always finds a username: the search ends within one
    query more than there are users.  When it succeeds, it appends one
    account whose username no existing account has, namely the first free
    one among the base name and the base name followed by 2, 3, ..., and
    whose email no existing account has; when it answers anything else,
    the state is unchanged. *)
Theorem signup_username_is_free (st : AuthState) (email_ password : str) :
  let r := signup hashpw encode_error_text create_access_token lower isalnum
             isdigit isalpha st email_ password in
  let base := base_username_of lower isalnum email_ in
  (forall text, snd r <> Unhandled text)
  /\ (forall body, snd r = Ok body ->
        exists user j,
          accounts (fst r) = accounts st ++ [user]
          /\ username user = token_username body
          /\ username user = candidate base j
          /\ j <= length (accounts st)
          /\ user_by_username (accounts st) (username user) = None
          /\ (forall k, k < j ->
                user_by_username (accounts st) (candidate base k) <> None)
          /\ email user = Some email_
          /\ user_by_email (accounts st) email_ = None)
  /\ ((forall body, snd r <> Ok body) -> fst r = st).
Proof.
  intros r base. subst r. unfold signup. fold base.
  destruct (negb (truthy email_) || negb (contains (py "@") email_)).
  { split; [discriminate|]. split; [discriminate | reflexivity]. }
  destruct (user_by_email (accounts st) email_) eqn:Hemail.
  { split; [discriminate|]. split; [discriminate | reflexivity]. }
  destruct (validate_password_strength isdigit isalpha password)
    as [is_valid error_message].
  destruct is_valid; cbn [negb].
  2:{ split; [discriminate|]. split; [discriminate | reflexivity]. }
  destruct (find_username_finds (accounts st) base)
    as [j [Hj [Hfind [Hfree Hbefore]]]].
  rewrite Hfind.
  destruct (get_password_hash hashpw password) as [hash|].
  2:{ split; [discriminate|]. split; [discriminate | reflexivity]. }
  split; [discriminate|]. split.
  - intros body H. cbn [snd] in H. injection H as <-.
    eexists _, j. cbn [fst accounts username email token_username].
    repeat split; try reflexivity; assumption.
  - intros H. exfalso. eapply H. reflexivity.
Qed.

End AuthRoutesProperties.

Section AuthRoutesWitnesses.

Import Auth App AuthRoutes AuthDemo.

Lemma login_locked_out_before_password_check_witness :
  login demo_checkpw demo_token 600000000 600000000
    (demo_state {[ py "ann@example.com" := (5, 0)%Z ]})
    (py "ann@example.com") (py "s3cret-pass") false
  = (demo_state {[ py "ann@example.com" := (5, 0)%Z ]},
     HTTPException 429
       (py "Too many login attempts. Please try again in 15 minutes.")).
Proof.
  refine (login_locked_out_before_password_check demo_checkpw demo_token
            600000000 600000000
            (demo_state {[ py "ann@example.com" := (5, 0)%Z ]})
            (py "ann@example.com") (py "s3cret-pass") false 5 0 _ _ _).
  - apply lookup_singleton_eq.
  - lia.
  - unfold minutes. lia.
Defined.


Lemma signup_username_is_free_witness :
  let r := signup (fun b => py "hash") (fun _ => py "error") demo_token
             lower_ascii demo_isalnum (in_range 0x30 0x39)
             (in_range 0x61 0x7a) (demo_state ∅)
             (py "Ann@mail.example") (py "passw0rd") in
  exists user j,
    accounts (fst r) = [ann; user]
    /\ username user = py "ann2"
    /\ username user
       = candidate (base_username_of lower_ascii demo_isalnum
                      (py "Ann@mail.example")) j.
Proof.
  intros r.
  destruct (proj1 (proj2 (signup_username_is_free (fun b => py "hash")
                            (fun _ => py "error") demo_token lower_ascii
                            demo_isalnum (in_range 0x30 0x39)
                            (in_range 0x61 0x7a) (demo_state ∅)
                            (py "Ann@mail.example") (py "passw0rd")))
              {| access_token := py "token-for-ann2";
                 token_username := py "ann2";
                 token_display_name := py "Ann" |})
    as [user [j [H1 [H2 [H3 _]]]]].
  - vm_compute. reflexivity.
  - exists user, j. split; [exact H1|]. split; [exact H2 | exact H3].
Defined.

End AuthRoutesWitnesses.

(** ** The Linktree importer *)

Section LinktreeFacts.

Import Linktree.

Lemma dropwhile_none (p : N -> bool) (s : str) :
  Forall (fun c => p c = false) s -> dropwhile p s = s.
Proof.
  intros H. destruct H as [|c s Hc _]; [reflexivity|].
  simpl. rewrite Hc. reflexivity.
Qed.

Lemma dropwhile_all (p : N -> bool) (w s : str) :
  Forall (fun c => p c = true) w -> dropwhile p (w ++ s) = dropwhile p s.
Proof.
  induction 1 as [|c w Hc _ IH]; [reflexivity|].
  simpl. rewrite Hc. exact IH.
Qed.

Lemma strip_nospace (s : str) : nospace s -> strip s = s.
Proof.
  intros H. unfold strip, strip_set. rewrite (dropwhile_none isspace s H).
  rewrite dropwhile_none by (apply nospace_rev; exact H).
  apply rev_involutive.
Qed.

Lemma startswith_incl (p s : str) :
  startswith p s = true -> incl p s.
Proof.
  revert s. induction p as [|a p IH]; intros s H x Hx; [destruct Hx|].
  destruct s as [|b s]; [discriminate|]. simpl in H.
  apply andb_true_iff in H. destruct H as [Hab Hps].
  apply N.eqb_eq in Hab. subst b.
  destruct Hx as [<-|Hx]; [left; reflexivity | right; apply (IH s Hps x Hx)].
Qed.

Lemma contains_prefix (p s : str) : contains p (p ++ s) = true.
Proof.
  pose proof (startswith_app p s) as H.
  destruct (p ++ s); simpl; rewrite H; reflexivity.
Qed.

Lemma split_sep_from_skip (sep a cur s : str) :
  split_sep_from sep (length a) cur (a ++ s) = split_sep_from sep 0 cur s.
Proof.
  induction a as [|c a IH]; [reflexivity | exact IH].
Qed.

Lemma split_sep_prefix (sep s : str) :
  sep <> [] -> split_sep sep (sep ++ s) = [] :: split_sep sep s.
Proof.
  intros Hne. destruct sep as [|c sep]; [congruence|].
  unfold split_sep. change ((c :: sep) ++ s) with (c :: (sep ++ s)).
  cbn [split_sep_from].
  pose proof (startswith_app (c :: sep) s) as Hstart.
  change ((c :: sep) ++ s) with (c :: (sep ++ s)) in Hstart.
  rewrite Hstart.
  cbn [length Nat.pred rev]. f_equal. apply split_sep_from_skip.
Qed.

(** A string that lacks one of the characters of the separator is not
    cut. *)
Lemma split_sep_from_absent (sep cur s : str) (x : N) :
  In x sep -> ~ In x s -> split_sep_from sep 0 cur s = [rev cur ++ s].
Proof.
  intros Hx. revert cur. induction s as [|c s IH]; intros cur Hs.
  - simpl. rewrite app_nil_r. reflexivity.
  - cbn [split_sep_from].
    destruct (startswith sep (c :: s)) eqn:Hstart.
    + exfalso. apply Hs. apply (startswith_incl _ _ Hstart). exact Hx.
    + rewrite IH by (intros H; apply Hs; right; exact H).
      simpl. rewrite <- app_assoc. reflexivity.
Qed.

Lemma rstrip_slashes (t name : str) (k : nat) :
  name <> [] -> ~ In 0x2f%N name ->
  rstrip_set is_slash (t ++ name ++ repeat 0x2f%N k) = t ++ name.
Proof.
  intros Hne Hslash. unfold rstrip_set.
  rewrite !rev_app_distr. rewrite <- app_assoc.
  rewrite dropwhile_all.
  2:{ apply List.Forall_forall. intros c Hc. apply in_rev in Hc.
      apply repeat_spec in Hc. subst c. reflexivity. }
  destruct (rev name) as [|c r] eqn:Hrev.
  { exfalso. apply Hne. rewrite <- (rev_involutive name), Hrev. reflexivity. }
  assert (Hc : is_slash c = false).
  { unfold is_slash. apply N.eqb_neq. intros ->. apply Hslash.
    apply in_rev. rewrite Hrev. left. reflexivity. }
  cbn [app dropwhile]. rewrite Hc.
  change (c :: r ++ rev t) with ((c :: r) ++ rev t).
  rewrite <- Hrev, <- rev_app_distr. apply rev_involutive.
Qed.

Lemma process_link_element_invariant (lower : str -> str)
  (links : list ScrapedLink) (e : LinkElement) :
  let good := fun l =>
    startswith (py "http") (link_url l) = true
    /\ contains (py "linktr.ee") (link_url l) = false
    /\ contains (py "linktree.com") (link_url l) = false
    /\ 2 <= length (link_title l) in
  List.NoDup (List.map link_url links) -> Forall good links ->
  List.NoDup (List.map link_url (process_link_element lower links e))
  /\ Forall good (process_link_element lower links e).
Proof.
  intros good Hnodup Hgood. unfold process_link_element.
  destruct (negb (truthy (href e)) || negb (truthy (text e))
            || (length (text e) <? 2)) eqn:Hskip; [split; assumption|].
  destruct (existsb _ skip_keywords); [split; assumption|].
  destruct (startswith (py "http") (href e) || startswith (py "//") (href e))
    eqn:Hproto; [|split; assumption].
  set (url := if startswith (py "//") (href e)
              then py "https:" ++ href e else href e).
  destruct (contains (py "linktr.ee") url || contains (py "linktree.com") url)
    eqn:Hown; [split; assumption|].
  destruct (existsb (fun l => bool_decide (link_url l = url)) links) eqn:Hdup;
    [split; assumption|].
  apply orb_false_iff in Hown. destruct Hown as [Hown1 Hown2].
  apply orb_false_iff in Hskip. destruct Hskip as [_ Hlen].
  apply Nat.ltb_ge in Hlen.
  split.
  - rewrite List.map_app. cbn [List.map link_url].
    apply List.NoDup_app; repeat split.
    + exact Hnodup.
    + repeat constructor. intros [].
    + intros x Hx [<-|[]]. apply in_map_iff in Hx.
      destruct Hx as [l [Hl Hin]].
      assert (existsb (fun l => bool_decide (link_url l = url)) links = true).
      { apply existsb_exists. exists l. split; [exact Hin|].
        apply bool_decide_eq_true. exact Hl. }
      congruence.
  - apply Forall_app. split; [exact Hgood|]. constructor; [|constructor].
    unfold good. cbn [link_url link_title]. repeat split; try assumption.
    subst url. destruct (startswith (py "//") (href e)) eqn:Hrel.
    + reflexivity.
    + rewrite orb_false_r in Hproto. exact Hproto.
Qed.

End LinktreeFacts.

Section LinktreeProperties.

Import Linktree.

(** X10. For a profile address in one of the usual forms (with or without
    "http://" or "https://", with or without "www.", with any number of
    slashes at the end), [extract_username_from_url] returns the
    lowercased name after "linktr.ee/", the name being non-empty and
    without slash or whitespace. *)
Theorem extract_username_of_profile_url (lower : str -> str)
  (scheme www name : str) (k : nat) :
  In scheme [[]; py "http://"; py "https://"] ->
  In www [[]; py "www."] ->
  name <> [] ->
  ~ In 0x2f%N name ->
  nospace name ->
  extract_username_from_url lower
    (scheme ++ www ++ py "linktr.ee/" ++ name ++ repeat 0x2f%N k)
  = lower name.
Proof.
  intros Hscheme Hwww Hne Hslash Hspace. unfold extract_username_from_url.
  assert (Hplain : nospace (scheme ++ www ++ py "linktr.ee/" ++ name
                            ++ repeat 0x2f%N k)).
  { repeat apply nospace_app; try assumption.
    - destruct Hscheme as [<-|[<-|[<-|[]]]]; repeat constructor.
    - destruct Hwww as [<-|[<-|[]]]; repeat constructor.
    - repeat constructor.
    - apply List.Forall_forall. intros c Hc. apply repeat_spec in Hc.
      subst c. reflexivity. }
  rewrite (strip_nospace _ Hplain).
  replace (scheme ++ www ++ py "linktr.ee/" ++ name ++ repeat 0x2f%N k)
    with ((scheme ++ www ++ py "linktr.ee/") ++ name ++ repeat 0x2f%N k)
    by (rewrite <- !app_assoc; reflexivity).
  rewrite (rstrip_slashes _ name k Hne Hslash).
  assert (Hcut : drop_www (drop_scheme ((scheme ++ www ++ py "linktr.ee/")
                                        ++ name))
                 = py "linktr.ee/" ++ name).
  { destruct Hscheme as [<-|[<-|[<-|[]]]];
      destruct Hwww as [<-|[<-|[]]]; reflexivity. }
  rewrite Hcut.
  rewrite contains_prefix.
  rewrite split_sep_prefix by discriminate.
  unfold split_sep.
  rewrite (split_sep_from_absent (py "linktr.ee/") [] name 0x2f%N);
    [reflexivity | | exact Hslash].
  vm_compute. tauto.
Qed.

Lemma extract_username_of_profile_url_witness :
  extract_username_from_url lower_ascii (py "https://www.linktr.ee/AnnLee//")
  = py "annlee".
Proof.
  refine (extract_username_of_profile_url lower_ascii (py "https://")
            (py "www.") (py "AnnLee") 2 _ _ _ _ _).
  - right. right. left. reflexivity.
  - right. left. reflexivity.
  - discriminate.
  - vm_compute. intuition discriminate.
  - repeat constructor.
Defined.

(** X11. The links that [scrape_linktree] collects from the elements of a
    page (the page data having given none) are at most 20; no two of them
    have the same address; every address starts with "http" and contains
    neither "linktr.ee" nor "linktree.com"; every title has at least two
    characters. *)
Theorem collected_links_are_distinct_and_external (lower : str -> str)
  (link_elements : list LinkElement) :
  let links := result_links lower [] link_elements in
  length links <= 20
  /\ List.NoDup (List.map link_url links)
  /\ Forall (fun l =>
       startswith (py "http") (link_url l) = true
       /\ contains (py "linktr.ee") (link_url l) = false
       /\ contains (py "linktree.com") (link_url l) = false
       /\ 2 <= length (link_title l)) links.
Proof.
  intros links. subst links. unfold result_links.
  split; [rewrite length_firstn; lia|].
  set (good := fun l => _ /\ _ /\ _ /\ _).
  assert (Hinv : forall es acc,
            List.NoDup (List.map link_url acc) -> Forall good acc ->
            List.NoDup (List.map link_url
                          (fold_left (process_link_element lower) es acc))
            /\ Forall good (fold_left (process_link_element lower) es acc)).
  { induction es as [|e es IH]; intros acc Hn Hg; [split; assumption|].
    cbn [fold_left].
    destruct (process_link_element_invariant lower acc e Hn Hg) as [Hn' Hg'].
    apply IH; assumption. }
  destruct (VoiceClone.nonempty link_elements && negb (VoiceClone.nonempty []));
    [|split; constructor].
  destruct (Hinv link_elements [] (List.NoDup_nil _) (List.Forall_nil _))
    as [Hn Hg].
  split.
  - rewrite <- (firstn_skipn 20 (fold_left _ link_elements [])) in Hn.
    rewrite List.map_app in Hn. apply List.NoDup_app_remove_r in Hn. exact Hn.
  - apply Forall_take. exact Hg.
Qed.

End LinktreeProperties.

(** ** Words under cleaning *)

Section WordFacts.

Import Scraper.

Lemma split_ws_from_spaces (cur w : str) :
  Forall (fun c => isspace c = true) w ->
  split_ws_from cur w = split_ws_from cur [].
Proof.
  intros Hw. revert cur. induction Hw as [|c w Hc _ IH]; intros cur;
    [reflexivity|].
  cbn [split_ws_from]. rewrite Hc. destruct cur; rewrite IH; reflexivity.
Qed.

Lemma split_ws_from_app_spaces (cur t w : str) :
  Forall (fun c => isspace c = true) w ->
  split_ws_from cur (t ++ w) = split_ws_from cur t.
Proof.
  intros Hw. revert cur. induction t as [|c t IH]; intros cur.
  - apply split_ws_from_spaces. exact Hw.
  - cbn [app split_ws_from]. destruct (isspace c); [|apply IH].
    destruct cur; rewrite IH; reflexivity.
Qed.

Lemma split_ws_dropwhile (s : str) :
  split_ws (dropwhile isspace s) = split_ws s.
Proof.
  unfold split_ws. induction s as [|c s IH]; [reflexivity|].
  cbn [dropwhile split_ws_from]. destruct (isspace c) eqn:Hc; [exact IH|].
  cbn [split_ws_from]. rewrite Hc. reflexivity.
Qed.

Lemma dropwhile_decompose (p : N -> bool) (l : str) :
  exists w, Forall (fun c => p c = true) w /\ l = w ++ dropwhile p l.
Proof.
  induction l as [|c l [w [Hw Hl]]].
  - exists []. split; [constructor | reflexivity].
  - cbn [dropwhile]. destruct (p c) eqn:Hc.
    + exists (c :: w). split; [constructor; assumption|].
      cbn [app]. f_equal. exact Hl.
    + exists []. split; [constructor | reflexivity].
Qed.

(** Stripping a string does not change its words. *)
Lemma split_ws_strip (s : str) : split_ws (strip s) = split_ws s.
Proof.
  unfold strip, strip_set.
  destruct (dropwhile_decompose isspace (rev (dropwhile isspace s)))
    as [w [Hw Hl]].
  rewrite <- (split_ws_dropwhile s).
  set (t := dropwhile isspace s) in *.
  apply (f_equal (@rev N)) in Hl. rewrite rev_involutive, rev_app_distr in Hl.
  rewrite Hl at 2. unfold split_ws. symmetry.
  apply split_ws_from_app_spaces.
  apply List.Forall_forall. intros c Hc. apply in_rev in Hc.
  rewrite List.Forall_forall in Hw. apply Hw. exact Hc.
Qed.

Lemma split_ws_from_app_space (cur a b : str) (c : N) :
  isspace c = true ->
  split_ws_from cur (a ++ c :: b) = split_ws_from cur a ++ split_ws b.
Proof.
  intros Hc. revert cur. induction a as [|x a IH]; intros cur.
  - cbn [app split_ws_from]. rewrite Hc. destruct cur; reflexivity.
  - cbn [app split_ws_from]. destruct (isspace x); [|apply IH].
    destruct cur; rewrite IH; reflexivity.
Qed.

Lemma split_ws_app_space (a b : str) (c : N) :
  isspace c = true -> split_ws (a ++ c :: b) = split_ws a ++ split_ws b.
Proof. apply split_ws_from_app_space. Qed.

Lemma split_ws_cons_space (b : str) (c : N) :
  isspace c = true -> split_ws (c :: b) = split_ws b.
Proof. intros Hc. apply (split_ws_app_space [] b c Hc). Qed.

(** The words of chunks joined by single spaces are the words of the
    chunks. *)
Lemma split_ws_join_concat (chunks : list str) :
  split_ws (join (py " ") chunks) = List.concat (List.map split_ws chunks).
Proof.
  induction chunks as [|p chunks IH]; [reflexivity|].
  destruct chunks as [|q chunks].
  - cbn [join List.map List.concat]. rewrite app_nil_r. reflexivity.
  - change (join (py " ") (p :: q :: chunks))
      with (p ++ 0x20%N :: join (py " ") (q :: chunks)).
    rewrite split_ws_app_space by reflexivity. rewrite IH. reflexivity.
Qed.

Lemma concat_split_ws_filter (chunks : list str) :
  List.concat (List.map split_ws (List.filter truthy chunks))
  = List.concat (List.map split_ws chunks).
Proof.
  induction chunks as [|p chunks IH]; [reflexivity|].
  cbn [List.filter]. destruct p as [|c p]; cbn [truthy].
  - exact IH.
  - cbn [List.map List.concat]. rewrite IH. reflexivity.
Qed.

Lemma startswith_firstn (p s : str) :
  startswith p s = true -> firstn (length p) s = p.
Proof.
  revert s. induction p as [|a p IH]; intros s H; [reflexivity|].
  destruct s as [|b s]; [discriminate|]. simpl in H.
  apply andb_true_iff in H. destruct H as [Hab Hps].
  apply N.eqb_eq in Hab. subst b. cbn [length firstn]. f_equal.
  apply IH. exact Hps.
Qed.

(** Cutting at a separator made of whitespace keeps the words. *)
Lemma split_sep_from_words (sep : str) :
  sep <> [] -> Forall (fun c => isspace c = true) sep ->
  forall s,
    (forall cur, List.concat (List.map split_ws (split_sep_from sep 0 cur s))
                 = split_ws (rev cur ++ s))
    /\ (forall k, Forall (fun c => isspace c = true) (firstn k s) ->
          List.concat (List.map split_ws (split_sep_from sep k [] s))
          = split_ws s).
Proof.
  intros Hne Hsep. destruct sep as [|x sep']; [congruence|].
  inversion Hsep as [|? ? Hx Hsep']; subst.
  induction s as [|c s [IHA IHB]].
  - split.
    + intros cur. cbn. rewrite !app_nil_r. reflexivity.
    + intros k _. destruct k; reflexivity.
  - assert (A : forall cur,
               List.concat (List.map split_ws
                              (split_sep_from (x :: sep') 0 cur (c :: s)))
               = split_ws (rev cur ++ c :: s)).
    { intros cur. cbn [split_sep_from].
      destruct (startswith (x :: sep') (c :: s)) eqn:Hstart.
      - cbn [List.map List.concat length Nat.pred].
        pose proof Hstart as Hstart'. simpl in Hstart'.
        apply andb_true_iff in Hstart'. destruct Hstart' as [Hxc Hrest].
        apply N.eqb_eq in Hxc. subst c.
        rewrite IHB by (rewrite (startswith_firstn _ _ Hrest); exact Hsep').
        rewrite split_ws_app_space by exact Hx. reflexivity.
      - rewrite IHA. cbn [rev]. rewrite <- app_assoc. reflexivity. }
    split; [exact A|].
    intros k Hk. destruct k as [|k]; [apply (A [])|].
    cbn [split_sep_from]. cbn [firstn] in Hk.
    inversion Hk as [|? ? Hc Hk']; subst.
    rewrite IHB by exact Hk'. symmetry. apply split_ws_cons_space. exact Hc.
Qed.

Lemma split_sep_words (sep s : str) :
  sep <> [] -> Forall (fun c => isspace c = true) sep ->
  List.concat (List.map split_ws (split_sep sep s)) = split_ws s.
Proof.
  intros Hne Hsep.
  destruct (split_sep_from_words sep Hne Hsep s) as [A _]. apply (A []).
Qed.

Lemma in_range_true (lo hi c : N) :
  in_range lo hi c = true <-> (lo <= c <= hi)%N.
Proof.
  unfold in_range. rewrite andb_true_iff, !N.leb_le. tauto.
Qed.

Lemma linebreak_is_space (c : N) : is_linebreak c = true -> isspace c = true.
Proof.
  unfold is_linebreak, isspace.
  rewrite !orb_true_iff, !in_range_true, !N.eqb_eq.
  intros [[[[H|H]|H]|H]|H]; lia.
Qed.

Lemma splitlines_from_words (n : nat) :
  forall s cur, length s <= n ->
    List.concat (List.map split_ws (splitlines_from cur s))
    = split_ws (rev cur ++ s).
Proof.
  induction n as [|n IH]; intros s cur Hlen.
  - destruct s; [|cbn in Hlen; lia]. cbn [splitlines_from].
    rewrite app_nil_r. destruct cur; [reflexivity|].
    cbn [List.map List.concat]. apply app_nil_r.
  - destruct s as [|c s].
    { cbn [splitlines_from]. rewrite app_nil_r. destruct cur; [reflexivity|].
      cbn [List.map List.concat]. apply app_nil_r. }
    cbn [length] in Hlen. cbn [splitlines_from].
    destruct (N.eqb_spec c 0x0d) as [->|Hcr].
    + destruct s as [|c' s'].
      * cbn [List.map List.concat]. rewrite app_nil_r.
        rewrite (split_ws_app_space (rev cur) [] 0x0d) by reflexivity.
        rewrite app_nil_r. reflexivity.
      * destruct (N.eqb_spec c' 0x0a) as [->|Hlf];
          cbn [List.map List.concat].
        -- rewrite (IH s' []) by (cbn [length] in Hlen; lia).
           rewrite (split_ws_app_space (rev cur) (0x0a%N :: s') 0x0d)
             by reflexivity.
           rewrite (split_ws_cons_space s' 0x0a) by reflexivity. reflexivity.
        -- rewrite (IH (c' :: s') []) by lia.
           rewrite (split_ws_app_space (rev cur) (c' :: s') 0x0d)
             by reflexivity.
           reflexivity.
    + destruct (is_linebreak c) eqn:Hbreak.
      * cbn [List.map List.concat]. rewrite (IH s []) by lia.
        rewrite (split_ws_app_space (rev cur) s c)
          by (apply linebreak_is_space; exact Hbreak).
        reflexivity.
      * rewrite (IH s (c :: cur)) by lia. cbn [rev].
        rewrite <- app_assoc. reflexivity.
Qed.

Lemma concat_map_concat {A B} (f : A -> list B) (ll : list (list A)) :
  List.concat (List.map f (List.concat ll))
  = List.concat (List.map (fun l => List.concat (List.map f l)) ll).
Proof.
  induction ll as [|l ll IH]; [reflexivity|].
  cbn [List.concat List.map]. rewrite List.map_app, List.concat_app, IH.
  reflexivity.
Qed.

Lemma concat_split_ws_strip (l : list str) :
  List.concat (List.map split_ws (List.map strip l))
  = List.concat (List.map split_ws l).
Proof.
  rewrite List.map_map. f_equal. apply List.map_ext. intros s.
  apply split_ws_strip.
Qed.

Lemma clean_text_words (text : str) :
  split_ws (clean_text text) = split_ws text.
Proof.
  unfold clean_text.
  rewrite split_ws_join_concat, concat_split_ws_filter, concat_map_concat.
  rewrite List.map_map.
  rewrite (List.map_ext _ split_ws).
  - rewrite concat_split_ws_strip. unfold splitlines.
    apply (splitlines_from_words (length text) text []). lia.
  - intros line. rewrite concat_split_ws_strip.
    apply split_sep_words; [discriminate | repeat constructor].
Qed.

End WordFacts.

Section CleaningFacts.

Import ScriptWriter.

Lemma dropwhile_incl (p : N -> bool) (s : str) : incl (dropwhile p s) s.
Proof.
  induction s as [|c s IH]; [intros x Hx; exact Hx|].
  cbn [dropwhile]. destruct (p c); [|intros x Hx; exact Hx].
  intros x Hx. right. apply IH. exact Hx.
Qed.

Lemma strip_set_incl (p : N -> bool) (s : str) : incl (strip_set p s) s.
Proof.
  unfold strip_set. intros x Hx. apply in_rev in Hx.
  apply dropwhile_incl in Hx. apply in_rev in Hx.
  apply dropwhile_incl in Hx. exact Hx.
Qed.

Lemma in_join (x : N) (sep : str) (parts : list str) :
  In x (join sep parts) -> In x sep \/ exists p, In p parts /\ In x p.
Proof.
  induction parts as [|p parts IH]; [intros []|].
  destruct parts as [|q parts].
  - cbn [join]. intros H. right. exists p. split; [left; reflexivity | exact H].
  - change (join sep (p :: q :: parts)) with (p ++ sep ++ join sep (q :: parts)).
    rewrite !in_app_iff. intros [H|[H|H]].
    + right. exists p. split; [left; reflexivity | exact H].
    + left. exact H.
    + destruct (IH H) as [Hs|[r [Hr Hx]]]; [left; exact Hs|].
      right. exists r. split; [right; exact Hr | exact Hx].
Qed.

(** The pieces between the occurrences of a one-character separator do
    not contain it. *)
Lemma split_sep_char_pieces (x : N) (s cur : str) :
  ~ In x cur ->
  Forall (fun piece => ~ In x piece) (split_sep_from [x] 0 cur s).
Proof.
  revert cur. induction s as [|c s IH]; intros cur Hcur.
  - cbn. constructor; [|constructor]. intros H. apply Hcur.
    apply in_rev. exact H.
  - cbn [split_sep_from startswith length Nat.pred].
    destruct (N.eqb_spec x c) as [->|Hne]; cbn [andb].
    + constructor; [|apply IH; intros []].
      intros H. apply Hcur. apply in_rev. exact H.
    + apply IH. intros [H|H]; [congruence | exact (Hcur H)].
Qed.

Lemma joined_lines_no_line_feed (s : str) : ~ In 0x0a%N (joined_lines s).
Proof.
  unfold joined_lines. intros H. apply in_join in H.
  destruct H as [H|[line [Hline Hin]]].
  - vm_compute in H. intuition discriminate.
  - apply filter_In in Hline. destruct Hline as [Hline _].
    apply in_map_iff in Hline. destruct Hline as [piece [<- Hpiece]].
    apply strip_set_incl in Hin.
    pose proof (split_sep_char_pieces 0x0a%N (strip_set is_quote s) []
                  (fun F => F)) as Hall.
    rewrite List.Forall_forall in Hall. exact (Hall piece Hpiece Hin).
Qed.

Lemma word_no_space_char (w : str) (x : N) :
  is_word w -> isspace x = true -> ~ In x w.
Proof.
  intros [_ Hw] Hx Hin. unfold nospace in Hw.
  rewrite List.Forall_forall in Hw. specialize (Hw x Hin). congruence.
Qed.

Lemma dropwhile_app (p : N -> bool) (x y : str) :
  dropwhile p (x ++ y)
  = match dropwhile p x with
    | [] => dropwhile p y
    | _ => dropwhile p x ++ y
    end.
Proof.
  induction x as [|c x IH]; cbn [app dropwhile].
  - destruct (dropwhile p y); reflexivity.
  - destruct (p c); [exact IH | reflexivity].
Qed.

(** Stripping a string that begins with a block whose first and last
    characters are kept: the block stays in front. *)
Lemma strip_set_keeps_prefix (p : N -> bool) (a t : str) (first last_ : N)
  (middle : str) :
  a = first :: middle ++ [last_] \/ (a = [first] /\ last_ = first) ->
  p first = false -> p last_ = false ->
  exists t', strip_set p (a ++ t) = a ++ t' /\ incl t' t.
Proof.
  intros Ha Hfirst Hlast. unfold strip_set.
  assert (Hhead : dropwhile p (a ++ t) = a ++ t).
  { destruct Ha as [->|[-> _]]; cbn [app dropwhile]; rewrite Hfirst;
      reflexivity. }
  rewrite Hhead, rev_app_distr, dropwhile_app.
  assert (Hkeep : dropwhile p (rev a) = rev a).
  { destruct Ha as [->|[-> ->]].
    - change (first :: middle ++ [last_]) with ((first :: middle) ++ [last_]).
      rewrite rev_app_distr. cbn [rev app dropwhile]. rewrite Hlast.
      reflexivity.
    - cbn. rewrite Hfirst. reflexivity. }
  destruct (dropwhile p (rev t)) as [|c r] eqn:Hdrop.
  - exists []. rewrite Hkeep, rev_involutive, app_nil_r.
    split; [reflexivity | intros x []].
  - exists (rev (c :: r)). rewrite rev_app_distr, rev_involutive.
    split; [reflexivity|]. intros x Hx. apply in_rev in Hx.
    rewrite <- Hdrop in Hx. apply dropwhile_incl in Hx. apply in_rev.
    exact Hx.
Qed.

(** A string without any occurrence of the separator is not cut. *)
Lemma split_sep_from_no_occurrence (sep s cur : str) :
  contains sep s = false -> split_sep_from sep 0 cur s = [rev cur ++ s].
Proof.
  revert cur. induction s as [|c s IH]; intros cur Hno.
  - cbn. rewrite app_nil_r. reflexivity.
  - cbn [contains] in Hno. apply orb_false_iff in Hno.
    destruct Hno as [Hstart Hrest]. cbn [split_sep_from]. rewrite Hstart.
    rewrite IH by exact Hrest. cbn [rev]. rewrite <- app_assoc. reflexivity.
Qed.

Lemma join_snoc (sep : str) (parts : list str) (p : str) :
  parts <> [] -> join sep (parts ++ [p]) = join sep parts ++ sep ++ p.
Proof.
  induction parts as [|q parts IH]; [congruence|]. intros _.
  destruct parts as [|q' parts]; [reflexivity|].
  change (join sep ((q :: q' :: parts) ++ [p]))
    with (q ++ sep ++ join sep ((q' :: parts) ++ [p])).
  rewrite IH by discriminate.
  change (join sep (q :: q' :: parts)) with (q ++ sep ++ join sep (q' :: parts)).
  rewrite <- !app_assoc. reflexivity.
Qed.

End CleaningFacts.

Section CleaningProperties.

Import Scraper ScriptWriter ScriptGenerator.

(** X12. [generate_link_scripts] counts what it returns: each of the
    three word counts is the number of words of its own script.  A reply
    without the separator "---" gives the stripped reply as the brief
    script and two empty scripts with count 0. *)
Theorem link_scripts_counts_match (reply : str) :
  let r := link_scripts_of_reply reply in
  brief_word_count r = Z.of_nat (count_words (brief r))
  /\ standard_word_count r = Z.of_nat (count_words (standard r))
  /\ conversational_word_count r = Z.of_nat (count_words (conversational r))
  /\ (contains (py "---") reply = false ->
      brief r = strip reply
      /\ standard r = [] /\ standard_word_count r = 0%Z
      /\ conversational r = [] /\ conversational_word_count r = 0%Z).
Proof.
  intros r. subst r. unfold link_scripts_of_reply, count_words_stripped,
    count_words. cbn [brief brief_word_count standard standard_word_count
                        conversational conversational_word_count].
  rewrite !split_ws_strip.
  split; [reflexivity|]. split; [reflexivity|]. split; [reflexivity|].
  intros Hno. unfold split_sep.
  rewrite (split_sep_from_no_occurrence _ reply [] Hno).
  repeat split.
Qed.

Lemma link_scripts_counts_match_witness :
  let r := link_scripts_of_reply (py " Tap the link to hear more. ") in
  brief r = py "Tap the link to hear more."
  /\ standard r = [] /\ standard_word_count r = 0%Z
  /\ conversational r = [] /\ conversational_word_count r = 0%Z.
Proof.
  intros r.
  apply (link_scripts_counts_match (py " Tap the link to hear more. ")).
  reflexivity.
Defined.

(** X13. The cleaning of the page text keeps its words: the cleaned text
    splits into exactly the words of the raw text, in their order.  So a
    page of at most 200 words has all of them in its preview, and the
    preview of a longer page is made of the first 200 words of the raw
    text. *)
Theorem clean_text_keeps_words (text : str) :
  split_ws (clean_text text) = split_ws text
  /\ (count_words text <= 200 ->
      split_ws (make_preview (clean_text text)) = split_ws text)
  /\ (200 < count_words text ->
      make_preview (clean_text text)
      = join (py " ") (firstn 200 (split_ws text)) ++ py "...").
Proof.
  pose proof (clean_text_words text) as Hwords. split; [exact Hwords|].
  unfold count_words. split; intros Hcount.
  - rewrite make_preview_short; [exact Hwords|].
    unfold count_words. rewrite Hwords. exact Hcount.
  - destruct (make_preview_long (clean_text text)) as [Hlong _].
    + unfold count_words. rewrite Hwords. exact Hcount.
    + rewrite Hlong, Hwords. reflexivity.
Qed.

Lemma clean_text_keeps_words_witness :
  let text := [0x20; 0x41; 0x0d; 0x0a; 0x0a; 0x42; 0x20; 0x20; 0x20; 0x43;
               0x09; 0x44; 0x0a]%N in
  split_ws (make_preview (clean_text text))
  = [[0x41]; [0x42]; [0x43]; [0x44]]%N.
Proof.
  intros text.
  apply (proj1 (proj2 (clean_text_keeps_words text))).
  vm_compute. lia.
Defined.

(** X14. When the page content has a preview, the context summary ends
    with a line "Preview: " that quotes the first 100 words of the preview
    and no more, the lines before it ending with the link type. *)
Theorem context_summary_quotes_100_words (content : PageContent)
  (link_type : str) :
  otruthy (preview_text content) = true ->
  exists before quoted,
    create_context_summary content link_type
    = before ++ py "Link Type: " ++ link_type ++ nl ++ py "Preview: " ++ quoted
    /\ split_ws quoted
       = firstn 100 (split_ws (or_empty (preview_text content)))
    /\ count_words quoted <= 100.
Proof.
  intros Hpreview. unfold create_context_summary. rewrite Hpreview.
  set (quoted := join (py " ")
                   (firstn 100 (split_ws (or_empty (preview_text content))))).
  assert (Hq : split_ws quoted
               = firstn 100 (split_ws (or_empty (preview_text content)))).
  { apply split_ws_join. apply Forall_take. apply split_ws_words. }
  assert (Hcount : count_words quoted <= 100).
  { unfold count_words. rewrite Hq, length_firstn. lia. }
  destruct (otruthy (title content)), (otruthy (meta_description content));
    cbn [app join].
  - exists ((py "Title: " ++ or_empty (title content)) ++ nl
            ++ (py "Description: " ++ or_empty (meta_description content))
            ++ nl), quoted.
    split; [rewrite <- !app_assoc; reflexivity | split; assumption].
  - exists ((py "Title: " ++ or_empty (title content)) ++ nl), quoted.
    split; [rewrite <- !app_assoc; reflexivity | split; assumption].
  - exists ((py "Description: " ++ or_empty (meta_description content))
            ++ nl), quoted.
    split; [rewrite <- !app_assoc; reflexivity | split; assumption].
  - exists [], quoted.
    split; [rewrite <- !app_assoc; reflexivity | split; assumption].
Qed.

Lemma context_summary_quotes_100_words_witness :
  exists before quoted,
    create_context_summary
      {| title := Some (py "Shop"); meta_description := None;
         preview_text := Some (py "Hand made  mugs"); full_content := None |}
      (py "product")
    = before ++ py "Link Type: " ++ py "product" ++ nl ++ py "Preview: "
      ++ quoted
    /\ split_ws quoted = firstn 100 (split_ws (py "Hand made  mugs"))
    /\ count_words quoted <= 100.
Proof.
  apply (context_summary_quotes_100_words
           {| title := Some (py "Shop"); meta_description := None;
              preview_text := Some (py "Hand made  mugs");
              full_content := None |} (py "product")).
  reflexivity.
Defined.

End CleaningProperties.

Section ScriptCleaningProperties.

Import ScriptWriter.

Lemma meta_prefix_shape (prefix : str) :
  In prefix meta_prefixes ->
  exists first middle last_,
    prefix = first :: middle ++ [last_]
    /\ is_quote first = false /\ is_quote last_ = false
    /\ isspace first = false /\ isspace last_ = false
    /\ ~ In 0x0a%N prefix.
Proof.
  intros [<-|[<-|[<-|[<-|[]]]]].
  - exists 0x48%N, [0x65; 0x72]%N, 0x65%N.
    repeat split; try reflexivity. vm_compute. intuition discriminate.
  - exists 0x4e%N, [0x6f; 0x74; 0x65]%N, 0x3a%N.
    repeat split; try reflexivity. vm_compute. intuition discriminate.
  - exists 0x53%N, [0x63; 0x72; 0x69; 0x70; 0x74]%N, 0x3a%N.
    repeat split; try reflexivity. vm_compute. intuition discriminate.
  - exists 0x52%N, [0x65; 0x6d; 0x65; 0x6d; 0x62; 0x65]%N, 0x72%N.
    repeat split; try reflexivity. vm_compute. intuition discriminate.
Qed.

(** X15. A cleaned script is a single line: [_clean_script] never returns
    a text with a line feed in it, so no candidate parsed from the reply
    has one. *)
Theorem clean_script_is_one_line (script_text : str) :
  ~ In 0x0a%N (_clean_script script_text)
  /\ ~ In 0x0a%N (script (parsed_candidate script_text)).
Proof.
  assert (H : ~ In 0x0a%N (_clean_script script_text)); [|split; exact H].
  rewrite clean_script_unfold.
  destruct (55 <? length (split_ws (joined_lines script_text)));
    [|apply joined_lines_no_line_feed].
  rewrite in_app_iff. intros [H|H].
  - apply in_join in H. destruct H as [H|[w [Hw Hin]]].
    + vm_compute in H. intuition discriminate.
    + apply (word_no_space_char w 0x0a%N); [|reflexivity | exact Hin].
      pose proof (split_ws_words (joined_lines script_text)) as Hall.
      rewrite List.Forall_forall in Hall. apply Hall.
      rewrite <- (firstn_skipn 50 (split_ws (joined_lines script_text))).
      apply in_or_app. left. exact Hw.
  - vm_compute in H. intuition discriminate.
Qed.

(** X16. A script of one line that begins with one of "Here", "Note:",
    "Script:" or "Remember" is dropped as meta-commentary: the cleaned
    script is empty and the candidate made of it has 0 words. *)
Theorem meta_commentary_line_gives_empty_script (prefix rest : str) :
  In prefix meta_prefixes ->
  ~ In 0x0a%N rest ->
  _clean_script (prefix ++ rest) = []
  /\ parsed_candidate (prefix ++ rest) = {| script := []; word_count := 0 |}.
Proof.
  intros Hprefix Hrest.
  assert (H : _clean_script (prefix ++ rest) = []).
  2:{ split; [exact H|]. unfold parsed_candidate. rewrite H. reflexivity. }
  destruct (meta_prefix_shape prefix Hprefix)
    as [first [middle [last_ [Hshape [Hq1 [Hq2 [Hs1 [Hs2 Hnl]]]]]]]].
  rewrite clean_script_unfold. unfold joined_lines.
  destruct (strip_set_keeps_prefix is_quote prefix rest first last_ middle
              (or_introl Hshape) Hq1 Hq2) as [t1 [-> Ht1]].
  unfold split_sep.
  rewrite (split_sep_from_absent nl [] (prefix ++ t1) 0x0a%N).
  2:{ left. reflexivity. }
  2:{ rewrite in_app_iff. intros [F|F]; [exact (Hnl F) | exact (Hrest (Ht1 _ F))]. }
  cbn [rev app List.map]. unfold strip.
  destruct (strip_set_keeps_prefix isspace prefix t1 first last_ middle
              (or_introl Hshape) Hs1 Hs2) as [t2 [-> _]].
  assert (Hdrop : keep_line (prefix ++ t2) = false).
  { unfold keep_line. apply andb_false_iff. right. apply negb_false_iff.
    apply existsb_exists. exists prefix. split; [exact Hprefix|].
    apply startswith_app. }
  cbn [List.filter]. rewrite Hdrop. reflexivity.
Qed.

Lemma meta_commentary_line_gives_empty_script_witness :
  _clean_script (py "Here is a script for your link: tap now!") = []
  /\ parsed_candidate (py "Here is a script for your link: tap now!")
     = {| script := []; word_count := 0 |}.
Proof.
  refine (meta_commentary_line_gives_empty_script (py "Here")
            (py " is a script for your link: tap now!") _ _).
  - left. reflexivity.
  - vm_compute. intuition discriminate.
Defined.

End ScriptCleaningProperties.

(** ** The script routes *)

Section PipelineFacts.

Import ScriptWriter App Pipeline.

Lemma three_entries (l : list ScriptCandidate) :
  length l = 3 -> [entry_at l 0; entry_at l 1; entry_at l 2] = l.
Proof.
  destruct l as [|a [|b [|c [|d l]]]]; try discriminate. reflexivity.
Qed.

Lemma context_summary_truthy (content : Scraper.PageContent) (lt : str) :
  truthy (Scraper.create_context_summary content lt) = true.
Proof.
  unfold Scraper.create_context_summary.
  destruct (otruthy (Scraper.title content)),
    (otruthy (Scraper.meta_description content)),
    (otruthy (Scraper.preview_text content)); reflexivity.
Qed.

Lemma select_stored_variation (db : Db) (fs : gmap (list N) (list byte))
  (link_id : Z) (row : LinkRow) (name : string)
  (field : Link -> option str) (text : str) :
  link_rows db !! link_id = Some row ->
  In (name, field)
    [("brief"%string, script_brief); ("standard"%string, script_standard);
     ("conversational"%string, script_conversational)] ->
  field (cols row) = Some text ->
  snd (select_script_for_link (app_world db fs) link_id
         {| script_type := Some (py name); custom_text := None;
            script := None |})
  = Ok text.
Proof.
  intros Hrow Hname Hfield. unfold select_script_for_link, app_world.
  cbn [links]. rewrite lookup_fmap, Hrow. cbn [fmap option_fmap option_map].
  destruct Hname as [E|[E|[E|[]]]]; injection E as <- <-;
    cbn; rewrite Hfield; reflexivity.
Qed.

Lemma cached_routes_ignore_fetch (lower : str -> str)
  (provider : option provider_name)
  (call : provider_name -> str -> provider_reply)
  (fetch fetch' : str -> Scraper.fetch_result)
  (lfetch lfetch' : str -> ScriptWriterLegacy.fetch_result)
  (db : Db) (link_id : Z) (link : LinkRow) :
  link_rows db !! link_id = Some link ->
  otruthy (scraped_content link) = true ->
  generate_scripts_for_link_variations lower provider call fetch db link_id
  = generate_scripts_for_link_variations lower provider call fetch' db link_id
  /\ regenerate_script_for_link provider call lfetch db link_id
     = regenerate_script_for_link provider call lfetch' db link_id.
Proof.
  intros Hlink Hcached.
  unfold generate_scripts_for_link_variations, regenerate_script_for_link.
  rewrite Hlink, Hcached. split; reflexivity.
Qed.

End PipelineFacts.

Section PipelineProperties.

Import ScriptWriter App Pipeline.

Variable lower : str -> str.
Variable provider : option provider_name.
Variable call : provider_name -> str -> provider_reply.

(** X17. A link whose scraped content is cached is never fetched again:
    the variations route and the regenerate route give the same result
    whatever the network would answer, and leave the cached content as it
    is. *)
Theorem cached_content_is_not_fetched_again
  (fetch fetch' : str -> Scraper.fetch_result)
  (lfetch lfetch' : str -> ScriptWriterLegacy.fetch_result)
  (db : Db) (link_id : Z) (link : LinkRow) :
  link_rows db !! link_id = Some link ->
  otruthy (scraped_content link) = true ->
  generate_scripts_for_link_variations lower provider call fetch db link_id
  = generate_scripts_for_link_variations lower provider call fetch' db link_id
  /\ regenerate_script_for_link provider call lfetch db link_id
     = regenerate_script_for_link provider call lfetch' db link_id
  /\ (scraped_content <$>
        link_rows (fst (generate_scripts_for_link_variations lower provider
                          call fetch db link_id)) !! link_id)
     = Some (scraped_content link)
  /\ (scraped_content <$>
        link_rows (fst (regenerate_script_for_link provider call lfetch db
                          link_id)) !! link_id)
     = Some (scraped_content link).
Proof.
  intros Hlink Hcached.
  destruct (cached_routes_ignore_fetch lower provider call fetch fetch'
              lfetch lfetch' db link_id link Hlink Hcached) as [H1 H2].
  split; [exact H1|]. split; [exact H2|]. clear H1 H2.
  unfold generate_scripts_for_link_variations, regenerate_script_for_link.
  rewrite Hlink, Hcached. cbn [negb]. split.
  - destruct (owners db !! user_id (cols link)) as [user|];
      [|cbn [fst]; rewrite Hlink; reflexivity].
    destruct (generate_pitch_scripts _ _ _ _ _ _ _);
      cbn [fst commit_row link_rows].
    + rewrite lookup_insert_eq. reflexivity.
    + rewrite Hlink. reflexivity.
  - destruct (ScriptWriterLegacy.generate_pitch_script _ _ _ _ _ _);
      cbn [fst commit_row link_rows].
    + rewrite lookup_insert_eq. reflexivity.
    + rewrite Hlink. reflexivity.
Qed.

(** X18. When the provider replies, the variations route returns the 3
    candidates parsed from the reply and stores their scripts in
    [script_brief], [script_standard] and [script_conversational], with
    the scraped content cached; selecting any of the three afterwards
    answers with that script. *)
Theorem generated_variations_are_stored_and_selectable
  (fetch : str -> Scraper.fetch_result) (db : Db) (link_id : Z)
  (link : LinkRow) (user : Owner) (p : provider_name) (reply_text : str) :
  provider = Some p ->
  link_rows db !! link_id = Some link ->
  owners db !! user_id (cols link) = Some user ->
  (forall prompt, call p prompt = ReplyText reply_text) ->
  let r := generate_scripts_for_link_variations lower provider call fetch db
             link_id in
  let scripts := _parse_multiple_scripts (strip reply_text) 3 in
  snd r = Ok scripts
  /\ length scripts = 3
  /\ exists row,
       link_rows (fst r) !! link_id = Some row
       /\ script_brief (cols row) = Some (ScriptWriter.script (entry_at scripts 0))
       /\ script_standard (cols row)
          = Some (ScriptWriter.script (entry_at scripts 1))
       /\ script_conversational (cols row)
          = Some (ScriptWriter.script (entry_at scripts 2))
       /\ otruthy (scraped_content row) = true
       /\ forall fs name field,
            In (name, field)
              [("brief"%string, script_brief);
               ("standard"%string, script_standard);
               ("conversational"%string, script_conversational)] ->
            exists text,
              field (cols row) = Some text
              /\ snd (select_script_for_link (app_world (fst r) fs) link_id
                        {| script_type := Some (py name);
                           custom_text := None; App.script := None |})
                 = Ok text.
Proof.
  intros Hp Hlink Huser Hcall r scripts.
  assert (Hlen : length scripts = 3)
    by apply (parse_multiple_scripts_length (strip reply_text) 3).
  subst r. unfold generate_scripts_for_link_variations.
  rewrite Hlink, Huser.
  set (fetched := negb (otruthy (scraped_content link))).
  set (state := if fetched then _ else _).
  assert (Hstate : exists db1 link1 link_title,
            state = (db1, link1, link_title)
            /\ otruthy (scraped_content link1) = true
            /\ cols link1 = cols link).
  { subst state fetched.
    destruct (otruthy (scraped_content link)) eqn:Hc; cbn [negb].
    - eexists _, _, _. split; [reflexivity|]. split; [exact Hc | reflexivity].
    - eexists _, _, _. split; [reflexivity|]. split; [|reflexivity].
      cbn [set_scraped_content scraped_content otruthy].
      apply context_summary_truthy. }
  destruct Hstate as [db1 [link1 [link_title [-> [Hcached Hcols]]]]].
  unfold generate_pitch_scripts, _generate_multi. rewrite Hp, Hcall.
  fold scripts. rewrite (three_entries scripts Hlen).
  cbn [fst snd]. split; [reflexivity|]. split; [exact Hlen|].
  eexists. split; [cbn [commit_row link_rows]; apply lookup_insert_eq|].
  cbn [set_variations cols scraped_content script_brief script_standard
         script_conversational].
  repeat split; try reflexivity; try exact Hcached.
  intros fs name field Hname.
  assert (Hfield : exists text,
            field (cols (set_variations link1
                           (ScriptWriter.script (entry_at scripts 0))
                           (ScriptWriter.script (entry_at scripts 1))
                           (ScriptWriter.script (entry_at scripts 2))))
            = Some text).
  { destruct Hname as [E|[E|[E|[]]]]; injection E as <- <-;
      eexists; reflexivity. }
  destruct Hfield as [text Hfield]. exists text. split; [exact Hfield|].
  eapply select_stored_variation; [|exact Hname | exact Hfield].
  cbn [commit_row link_rows]. apply lookup_insert_eq.
Qed.

(** X19. When the provider call fails, the variations route answers 500
    and stores no script; what it scraped for a link without cached
    content stays committed all the same. *)
Theorem failed_generation_keeps_scraped_content
  (fetch : str -> Scraper.fetch_result) (db : Db) (link_id : Z)
  (link : LinkRow) (user : Owner) (p : provider_name) (error : str) :
  provider = Some p ->
  link_rows db !! link_id = Some link ->
  owners db !! user_id (cols link) = Some user ->
  (forall prompt, call p prompt = RequestFailed error) ->
  let r := generate_scripts_for_link_variations lower provider call fetch db
             link_id in
  (exists msg, snd r = HTTPException 500 msg)
  /\ (cols <$> link_rows (fst r) !! link_id) = Some (cols link)
  /\ (otruthy (scraped_content link) = true -> fst r = db)
  /\ (otruthy (scraped_content link) = false ->
      (scraped_content <$> link_rows (fst r) !! link_id)
      = Some (Some (Scraper.context_summary
                      (Scraper.scrape_link_content lower fetch (url link))))).
Proof.
  intros Hp Hlink Huser Hcall r. subst r.
  unfold generate_scripts_for_link_variations. rewrite Hlink, Huser.
  destruct (otruthy (scraped_content link)) eqn:Hc; cbn [negb];
    unfold generate_pitch_scripts, _generate_multi; rewrite Hp, Hcall;
    cbn [fst snd].
  - split; [eexists; reflexivity|]. rewrite Hlink.
    repeat split; try reflexivity. discriminate.
  - split; [eexists; reflexivity|]. cbn [commit_row link_rows].
    rewrite lookup_insert_eq. repeat split; try reflexivity. discriminate.
Qed.

(** X20. The placeholder of a failed fetch is cached like content: when
    the page times out in the route of the single script and the provider
    replies, the link is stored with "Content could not be loaded
    (timeout)" as its scraped content, and from then on neither the
    variations route nor the regenerate route fetches the page again. *)
Theorem timeout_placeholder_is_cached
  (lfetch : str -> ScriptWriterLegacy.fetch_result) (db : Db) (link_id : Z)
  (link : LinkRow) (p : provider_name) (reply_text : str) :
  provider = Some p ->
  link_rows db !! link_id = Some link ->
  lfetch (url link) = ScriptWriterLegacy.Timeout ->
  (forall prompt, call p prompt = ReplyText reply_text) ->
  let r := generate_script_for_link provider call lfetch db link_id in
  snd r = Ok (_clean_script (strip reply_text))
  /\ (scraped_content <$> link_rows (fst r) !! link_id)
     = Some (Some (py "Content could not be loaded (timeout)"))
  /\ (forall fetch fetch',
        generate_scripts_for_link_variations lower provider call fetch (fst r)
          link_id
        = generate_scripts_for_link_variations lower provider call fetch'
            (fst r) link_id)
  /\ (forall lfetch1 lfetch2,
        regenerate_script_for_link provider call lfetch1 (fst r) link_id
        = regenerate_script_for_link provider call lfetch2 (fst r) link_id).
Proof.
  intros Hp Hlink Htimeout Hcall r. subst r.
  unfold generate_script_for_link. rewrite Hlink.
  unfold ScriptWriterLegacy.scrape_link_content. rewrite Htimeout.
  unfold ScriptWriterLegacy.generate_pitch_script. rewrite Hp, Hcall.
  cbn [fst snd ScriptWriterLegacy.scraped_content_of].
  split; [reflexivity|].
  set (row := set_scraped_content _ _).
  assert (Hrow : link_rows (commit_row db link_id row) !! link_id = Some row)
    by (cbn [commit_row link_rows]; apply lookup_insert_eq).
  split; [rewrite Hrow; reflexivity|].
  split.
  - intros fetch fetch'.
    apply (proj1 (cached_routes_ignore_fetch lower (Some p) call fetch fetch'
                    lfetch lfetch _ link_id row Hrow eq_refl)).
  - intros lfetch1 lfetch2.
    apply (proj2 (cached_routes_ignore_fetch lower (Some p) call
                    (fun _ => Scraper.Timeout) (fun _ => Scraper.Timeout)
                    lfetch1 lfetch2 _ link_id row Hrow eq_refl)).
Qed.

End PipelineProperties.

Section PipelineWitnesses.

Import ScriptWriter App Pipeline PipelineDemo.

Lemma cached_content_is_not_fetched_again_witness :
  let call := fun (_ : provider_name) (_ : list N) => ReplyText demo_reply in
  generate_scripts_for_link_variations lower_ascii (Some openai) call
    (fun _ => Scraper.Timeout) (demo_db (Some (py "Title: My course"))) 1
  = generate_scripts_for_link_variations lower_ascii (Some openai) call
      (fun _ => Scraper.ConnectionError)
      (demo_db (Some (py "Title: My course"))) 1.
Proof.
  intros call.
  refine (proj1 (cached_content_is_not_fetched_again lower_ascii (Some openai)
                   call (fun _ => Scraper.Timeout)
                   (fun _ => Scraper.ConnectionError)
                   (fun _ => ScriptWriterLegacy.Timeout)
                   (fun _ => ScriptWriterLegacy.Timeout)
                   (demo_db (Some (py "Title: My course"))) 1
                   (demo_row (Some (py "Title: My course"))) _ _)).
  - apply lookup_singleton_eq.
  - reflexivity.
Defined.

Lemma generated_variations_are_stored_and_selectable_witness :
  let call := fun (_ : provider_name) (_ : list N) => ReplyText demo_reply in
  let r := generate_scripts_for_link_variations lower_ascii (Some openai) call
             (fun _ => Scraper.Timeout) (demo_db None) 1 in
  snd r
  = Ok [ {| ScriptWriter.script := py "Learn Python with me.";
            word_count := 4 |};
         {| ScriptWriter.script := py "Stuck on loops? Start here.";
            word_count := 5 |};
         {| ScriptWriter.script := py "Doors close Friday. Join now.";
            word_count := 5 |} ].
Proof.
  intros call r.
  refine (proj1 (generated_variations_are_stored_and_selectable lower_ascii
                   (Some openai) call (fun _ => Scraper.Timeout) (demo_db None)
                   1 (demo_row None)
                   {| account := {| voice_clone_id := None |};
                      bio := Some (py "I teach Python") |}
                   openai demo_reply _ _ _ _)).
  - reflexivity.
  - apply lookup_singleton_eq.
  - apply lookup_singleton_eq.
  - intros prompt. reflexivity.
Defined.

Lemma failed_generation_keeps_scraped_content_witness :
  let call := fun (_ : provider_name) (_ : list N) =>
                RequestFailed (py "503 Server Error") in
  let r := generate_scripts_for_link_variations lower_ascii (Some openai) call
             (fun _ => Scraper.Timeout) (demo_db None) 1 in
  (scraped_content <$> link_rows (fst r) !! 1%Z)
  = Some (Some (py "Link Type: course")).
Proof.
  intros call r.
  refine (proj2 (proj2 (proj2
            (failed_generation_keeps_scraped_content lower_ascii (Some openai)
               call (fun _ => Scraper.Timeout) (demo_db None) 1 (demo_row None)
               {| account := {| voice_clone_id := None |};
                  bio := Some (py "I teach Python") |}
               openai (py "503 Server Error") _ _ _ _))) _).
  - reflexivity.
  - apply lookup_singleton_eq.
  - apply lookup_singleton_eq.
  - intros prompt. reflexivity.
  - reflexivity.
Defined.

Lemma timeout_placeholder_is_cached_witness :
  let call := fun (_ : provider_name) (_ : list N) =>
                ReplyText (py "Join my course today.") in
  let r := generate_script_for_link (Some openai) call
             (fun _ => ScriptWriterLegacy.Timeout) (demo_db None) 1 in
  snd r = Ok (py "Join my course today.")
  /\ (scraped_content <$> link_rows (fst r) !! 1%Z)
     = Some (Some (py "Content could not be loaded (timeout)")).
Proof.
  intros call r.
  destruct (timeout_placeholder_is_cached lower_ascii (Some openai) call
              (fun _ => ScriptWriterLegacy.Timeout) (demo_db None) 1
              (demo_row None) openai (py "Join my course today."))
    as [H1 [H2 _]].
  - reflexivity.
  - apply lookup_singleton_eq.
  - reflexivity.
  - intros prompt. reflexivity.
  - split; [exact H1 | exact H2].
Defined.

End PipelineWitnesses.

(** ** Uploaded audio *)

Section OnboardingProperties.

Import VoiceClone App Onboarding.

(** X21. An upload for the voice clone is validated before anything
    happens: when it is not declared as audio, or is smaller than 100000
    bytes, or larger than 10000000 bytes, the route answers without
    [Ok], leaves users and files as they were, and does not depend on
    what the voice provider would answer. *)
Theorem voice_sample_is_validated_first (env env' : CloneEnv) (st : State)
  (content_type : option str) (audio_data : list byte) (username : str) :
  api_key env' = api_key env ->
  now env' = now env ->
  is_audio content_type = false
  \/ (Z.of_nat (length audio_data) < 100000)%Z
  \/ (10000000 < Z.of_nat (length audio_data))%Z ->
  fst (create_voice_clone_onboarding env st content_type audio_data username)
  = st
  /\ (forall voice_id,
        snd (create_voice_clone_onboarding env st content_type audio_data
               username) <> Ok voice_id)
  /\ create_voice_clone_onboarding env' st content_type audio_data username
     = create_voice_clone_onboarding env st content_type audio_data username.
Proof.
  intros Hkey Hnow Hbad. unfold create_voice_clone_onboarding.
  rewrite Hkey, Hnow.
  destruct (members st !! username) as [user|];
    [|repeat split; discriminate].
  destruct (otruthy (api_key env)); cbn [negb];
    [|repeat split; discriminate].
  unfold is_audio in Hbad.
  destruct (otruthy content_type); cbn [negb orb andb] in *;
    [|repeat split; discriminate].
  destruct (startswith (py "audio/") (or_empty content_type));
    cbn [negb] in *; [|repeat split; discriminate].
  destruct (Z.ltb_spec (Z.of_nat (length audio_data)) 100000);
    [repeat split; discriminate|].
  destruct (Z.ltb_spec 10000000 (Z.of_nat (length audio_data)));
    [repeat split; discriminate|].
  exfalso. destruct Hbad as [H1|[H1|H1]]; [discriminate | lia | lia].
Qed.

Lemma voice_sample_is_validated_first_witness :
  let env := demo_clone_env (CloneResponse 200 (Some (py "new-voice"))) in
  let data := repeat x00 (Z.to_nat 10240) in
  fst (create_voice_clone_onboarding env demo_state (Some (py "audio/webm"))
         data (py "ann")) = demo_state
  /\ snd (create_voice_clone_onboarding env demo_state
            (Some (py "audio/webm")) data (py "ann"))
     = HTTPException 400
         (py "Audio file too short. Please record at least 30 seconds.").
Proof.
  intros env data.
  destruct (voice_sample_is_validated_first env env demo_state
              (Some (py "audio/webm")) data (py "ann") eq_refl eq_refl)
    as [H1 _].
  - right. left. vm_compute. reflexivity.
  - split; [exact H1 | vm_compute; reflexivity].
Defined.

(** X22. For an upload that passes the validation, the sample is stored
    under [voice_samples/] whatever follows.  The user's voice changes
    only when the provider answers 200 with a non-empty voice id, which
    then is stored with the path of the sample; in every other case the
    route answers 500 and the user keeps the voice it had. *)
Theorem voice_clone_replaces_voice_on_success_only (env : CloneEnv)
  (st : State) (content_type : option str) (audio_data : list byte)
  (username : str) (user : Member) :
  members st !! username = Some user ->
  otruthy (api_key env) = true ->
  is_audio content_type = true ->
  (100000 <= Z.of_nat (length audio_data) <= 10000000)%Z ->
  let r := create_voice_clone_onboarding env st content_type audio_data
             username in
  let path := sample_path_of username (now env) in
  audio (fst r) !! path = Some audio_data
  /\ (forall voice_id, snd r = Ok voice_id ->
        voice_id <> []
        /\ add_voice env (display_name user ++ py "_user"
                          ++ str_of_int (member_id user))
             (py "Voice clone for user " ++ str_of_int (member_id user))
             audio_data
           = CloneResponse 200 (Some voice_id)
        /\ members (fst r) !! username
           = Some {| member_id := member_id user;
                     display_name := display_name user;
                     voice_clone_id := Some voice_id;
                     voice_sample_path := Some path |})
  /\ ((forall voice_id, snd r <> Ok voice_id) ->
      members (fst r) = members st
      /\ snd r
         = HTTPException 500
             (py "Failed to create voice clone. Please check your audio quality and try again.")).
Proof.
  intros Huser Hkey Haudio Hsize r path. subst r path.
  unfold create_voice_clone_onboarding, sample_path_of.
  rewrite Huser, Hkey. cbn [negb].
  unfold is_audio in Haudio. apply andb_true_iff in Haudio.
  destruct Haudio as [-> ->]. cbn [negb orb].
  destruct (Z.ltb_spec (Z.of_nat (length audio_data)) 100000); [lia|].
  destruct (Z.ltb_spec 10000000 (Z.of_nat (length audio_data))); [lia|].
  unfold create_voice_from_sample, create_voice_clone. rewrite Hkey.
  rewrite lookup_insert_eq.
  destruct (add_voice env _ _ audio_data) as [|status_code voice_id] eqn:Hadd.
  { cbn [fst snd audio members]. rewrite lookup_insert_eq.
    split; [reflexivity|]. split; [discriminate|]. intros _.
    split; reflexivity. }
  destruct (Z.eqb_spec status_code 200) as [->|Hstatus].
  2:{ cbn [fst snd audio members]. rewrite lookup_insert_eq.
      split; [reflexivity|]. split; [discriminate|]. intros _.
      split; reflexivity. }
  destruct voice_id as [voice_id|].
  2:{ cbn [fst snd audio members]. rewrite lookup_insert_eq.
      split; [reflexivity|]. split; [discriminate|]. intros _.
      split; reflexivity. }
  destruct voice_id as [|c voice_id]; cbn [truthy negb].
  { cbn [fst snd audio members]. rewrite lookup_insert_eq.
    split; [reflexivity|]. split; [discriminate|]. intros _.
    split; reflexivity. }
  cbn [fst snd audio members]. rewrite !lookup_insert_eq.
  split; [reflexivity|]. split.
  - intros v Hv. injection Hv as <-.
    split; [discriminate|]. split; reflexivity.
  - intros Hno. exfalso. eapply Hno. reflexivity.
Qed.

Lemma voice_clone_replaces_voice_on_success_only_witness :
  let env := demo_clone_env (CloneResponse 401 None) in
  let data := repeat x00 (Z.to_nat 100000) in
  let r := create_voice_clone_onboarding env demo_state
             (Some (py "audio/webm")) data (py "ann") in
  audio (fst r) !! py "voice_samples/ann_sample_1700000000.5.mp3" = Some data
  /\ members (fst r) = members demo_state.
Proof.
  intros env data r.
  destruct (voice_clone_replaces_voice_on_success_only env demo_state
              (Some (py "audio/webm")) data (py "ann")
              {| member_id := 7; display_name := py "Ann";
                 voice_clone_id := Some (py "old-voice");
                 voice_sample_path := None |})
    as [H1 [_ H3]].
  - apply lookup_singleton_eq.
  - reflexivity.
  - reflexivity.
  - split; vm_compute; discriminate.
  - split; [exact H1|]. apply H3. intros v.
    subst r env data. vm_compute. discriminate.
Defined.

End OnboardingProperties.

Section RecordingProperties.

Import VoiceClone App Onboarding.

Variable timestamp : str.
Variable unlink_fails : str -> bool.
Variable unlink_error : str -> str.

(** X23. A recording of at most 5 MB declared as audio, for a link
    whose previous audio file (if it has one) can be deleted, is saved:
    the answer carries the new path and the text, the file under that
    path holds exactly the uploaded bytes, the link references it with
    the text, the previous file is gone, and every other link and every
    other file is as before.  Writing the file is taken to succeed. *)
Theorem recorded_voice_replaces_previous_audio (w : World) (link_id : Z)
  (link : Link) (content_type : option str) (audio_data : list byte)
  (text : str) :
  links w !! link_id = Some link ->
  is_audio content_type = true ->
  (Z.of_nat (length audio_data) <= 5 * 1024 * 1024)%Z ->
  (forall old, voice_message_audio link = Some old ->
     unlink_fails old = false /\ old <> recording_path_of link_id timestamp) ->
  let r := record_voice_for_link timestamp unlink_fails unlink_error w
             link_id content_type audio_data text in
  let path := recording_path_of link_id timestamp in
  snd r = Ok (path, text)
  /\ files (fst r) !! path = Some audio_data
  /\ links (fst r) !! link_id = Some (set_audio link path text)
  /\ (forall old, voice_message_audio link = Some old -> old <> [] ->
        files (fst r) !! old = None)
  /\ (forall other, other <> link_id ->
        links (fst r) !! other = links w !! other)
  /\ (forall p, p <> path -> voice_message_audio link <> Some p ->
        files (fst r) !! p = files w !! p).
Proof.
  intros Hlink Haudio Hsize Hold r path. subst r path.
  unfold record_voice_for_link, recording_path_of. rewrite Hlink.
  unfold is_audio in Haudio. apply andb_true_iff in Haudio.
  destruct Haudio as [-> ->]. cbn [negb orb].
  destruct (Z.ltb_spec (5 * 1024 * 1024) (Z.of_nat (length audio_data)));
    [lia|].
  set (path := py "link_voices/" ++ py "link_" ++ str_of_int link_id
               ++ py "_" ++ timestamp ++ py ".webm") in *.
  change (py "link_voices/"
          ++ (py "link_" ++ str_of_int link_id ++ py "_" ++ timestamp
              ++ py ".webm")) with path.
  destruct (voice_message_audio link) as [old|] eqn:Hvoice.
  - destruct (Hold old eq_refl) as [Hunlink Hne]. rewrite Hunlink.
    change (old <> path) in Hne.
    destruct old as [|c old]; cbn [truthy].
    + cbn [fst snd]. unfold commit_link, with_files. cbn [links files].
      split; [reflexivity|]. split; [apply lookup_insert_eq|].
      split; [apply lookup_insert_eq|]. split.
      * intros old' Heq Hnil. injection Heq as <-. exfalso.
        apply Hnil. reflexivity.
      * split.
        -- intros other Hother. apply lookup_insert_ne. congruence.
        -- intros p Hp _. apply lookup_insert_ne. congruence.
    + assert (Hres :
        forall files2,
          (files2 = <[path := audio_data]> (files w)
           /\ files w !! (c :: old) = None)
          \/ files2 = delete (c :: old) (<[path := audio_data]> (files w)) ->
          let r := (commit_link (with_files w files2) link_id
                      (set_audio link path text),
                    @Ok (str * str) (path, text)) in
          snd r = Ok (path, text)
          /\ files (fst r) !! path = Some audio_data
          /\ links (fst r) !! link_id = Some (set_audio link path text)
          /\ (forall old', Some (c :: old) = Some old' -> old' <> [] ->
                files (fst r) !! old' = None)
          /\ (forall other, other <> link_id ->
                links (fst r) !! other = links w !! other)
          /\ (forall p, p <> path -> Some (c :: old) <> Some p ->
                files (fst r) !! p = files w !! p)).
      { intros files2 Hfiles2 r. subst r. cbn [fst snd].
        unfold commit_link, with_files. cbn [links files].
        split; [reflexivity|]. split.
        { destruct Hfiles2 as [[-> _]| ->].
          - apply lookup_insert_eq.
          - rewrite lookup_delete_ne by congruence. apply lookup_insert_eq. }
        split; [apply lookup_insert_eq|]. split.
        { intros old' Heq _. injection Heq as <-.
          destruct Hfiles2 as [[-> Hnone]| ->].
          - rewrite lookup_insert_ne by congruence. exact Hnone.
          - apply lookup_delete_eq. }
        split.
        { intros other Hother. apply lookup_insert_ne. congruence. }
        intros p Hp Hnot.
        destruct Hfiles2 as [[-> _]| ->].
        - apply lookup_insert_ne. congruence.
        - rewrite lookup_delete_ne by congruence.
          apply lookup_insert_ne. congruence. }
      destruct (<[path := audio_data]> (files w) !! (c :: old)) eqn:Hexists.
      * apply Hres. right. reflexivity.
      * apply Hres. left. split; [reflexivity|].
        rewrite lookup_insert_ne in Hexists by congruence. exact Hexists.
  - cbn [fst snd]. unfold commit_link, with_files. cbn [links files].
    split; [reflexivity|]. split; [apply lookup_insert_eq|].
    split; [apply lookup_insert_eq|]. split; [discriminate|]. split.
    + intros other Hother. apply lookup_insert_ne. congruence.
    + intros p Hp _. apply lookup_insert_ne. congruence.
Qed.

(** X24. A recording that fails leaves the link as it was.  An upload
    not declared as audio, or of more than 5 MB, changes nothing at all;
    but when the previous audio file exists and its deletion raises, the
    route answers 500 after the upload was written: the link still
    references the previous file, and the new file stays on disk with
    the uploaded bytes, referenced by nothing. *)
Theorem failed_recording_keeps_link (w : World) (link_id : Z) (link : Link)
  (content_type : option str) (audio_data : list byte) (text : str) :
  links w !! link_id = Some link ->
  let r := record_voice_for_link timestamp unlink_fails unlink_error w
             link_id content_type audio_data text in
  let path := recording_path_of link_id timestamp in
  (is_audio content_type = false
   \/ (5 * 1024 * 1024 < Z.of_nat (length audio_data))%Z ->
   fst r = w /\ exists detail, snd r = HTTPException 400 detail)
  /\ (forall old,
        is_audio content_type = true ->
        (Z.of_nat (length audio_data) <= 5 * 1024 * 1024)%Z ->
        voice_message_audio link = Some old -> old <> [] -> old <> path ->
        is_Some (files w !! old) -> unlink_fails old = true ->
        snd r = HTTPException 500
                  (py "Failed to save recording: " ++ unlink_error old)
        /\ links (fst r) = links w
        /\ files (fst r) !! old = files w !! old
        /\ files (fst r) !! path = Some audio_data)
  /\ ((forall v, snd r <> Ok v) -> links (fst r) = links w).
Proof.
  intros Hlink r path. subst r path.
  unfold record_voice_for_link, recording_path_of, is_audio. rewrite Hlink.
  set (path := py "link_voices/"
               ++ (py "link_" ++ str_of_int link_id ++ py "_" ++ timestamp
                   ++ py ".webm")).
  change (py "link_voices/" ++ py "link_" ++ str_of_int link_id
          ++ py "_" ++ timestamp ++ py ".webm") with path.
  destruct (otruthy content_type); cbn [negb orb andb].
  2:{ cbn [fst snd]. split; [intros _; split; eauto|].
      split; [intros; discriminate | reflexivity]. }
  destruct (startswith (py "audio/") (or_empty content_type)); cbn [negb].
  2:{ cbn [fst snd]. split; [intros _; split; eauto|].
      split; [intros; discriminate | reflexivity]. }
  destruct (Z.ltb_spec (5 * 1024 * 1024) (Z.of_nat (length audio_data))).
  { cbn [fst snd]. split; [intros _; split; eauto|].
    split; [intros; lia | reflexivity]. }
  split; [intros [Hbad|Hbad]; [discriminate | lia]|].
  split.
  - intros old _ _ Hvoice Hnil Hne [bytes Hexists] Hunlink. rewrite Hvoice.
    destruct old as [|c old]; [exfalso; apply Hnil; reflexivity|].
    cbn [truthy or_empty].
    rewrite lookup_insert_ne by congruence. rewrite Hexists, Hunlink.
    cbn [fst snd]. unfold with_files. cbn [links files].
    split; [reflexivity|]. split; [reflexivity|].
    split; [|apply lookup_insert_eq].
    rewrite lookup_insert_ne by congruence. exact Hexists.
  - destruct (voice_message_audio link) as [old|]; cbn [fst snd].
    2:{ intros Hno. exfalso. eapply Hno. reflexivity. }
    destruct (truthy old).
    2:{ intros Hno. exfalso. eapply Hno. reflexivity. }
    destruct (_ !! old).
    2:{ intros Hno. exfalso. eapply Hno. reflexivity. }
    destruct (unlink_fails old); cbn [fst snd].
    + intros _. reflexivity.
    + intros Hno. exfalso. eapply Hno. reflexivity.
Qed.

End RecordingProperties.

Section RecordingWitnesses.

Import VoiceClone App Onboarding.

Lemma recorded_voice_replaces_previous_audio_witness :
  let r := record_voice_for_link (py "1700000001.25") (fun _ => false)
             (fun _ => []) demo_world 1 (Some (py "audio/webm"))
             [x01; x02; x03] (py "My own words") in
  snd r = Ok (py "link_voices/link_1_1700000001.25.webm", py "My own words")
  /\ files (fst r) !! py "link_voices/link_1_1700000001.25.webm"
     = Some [x01; x02; x03].
Proof.
  intros r.
  destruct (recorded_voice_replaces_previous_audio (py "1700000001.25")
              (fun _ => false) (fun _ => []) demo_world 1 demo_link
              (Some (py "audio/webm")) [x01; x02; x03] (py "My own words"))
    as [H1 [H2 _]].
  - apply lookup_singleton_eq.
  - reflexivity.
  - vm_compute. discriminate.
  - intros old Hold. injection Hold as <-.
    split; [reflexivity | vm_compute; discriminate].
  - split; [exact H1 | exact H2].
Defined.

Lemma failed_recording_keeps_link_witness :
  let r := record_voice_for_link (py "1700000001.25") (fun _ => true)
             (fun _ => py "busy") demo_world 1 None [x01]
             (py "My own words") in
  fst r = demo_world.
Proof.
  intros r.
  destruct (failed_recording_keeps_link (py "1700000001.25")
              (fun _ => true) (fun _ => py "busy") demo_world 1 demo_link
              None [x01] (py "My own words"))
    as [H1 _]; [apply lookup_singleton_eq|].
  destruct H1 as [H1 _]; [left; reflexivity | exact H1].
Defined.

End RecordingWitnesses.
